(** * AIND-Sudoku/solution.py: diagonal Sudoku by propagation and search

    A shallow embedding of [solution.py].  Python [str] values are Rocq
    [string]s; iterating a [str] yields its one-character strings.  The grid
    ([values]) is a Python [dict] keyed by box label; the program relies on
    its insertion order ([values.keys()] drives [eliminate]), so the dict is
    an association list in insertion order rather than an unordered finite
    map.  The module-level list [assignments] is the state threaded through
    every function that calls [assign_value].

    Every function of the solver receives one dict, updates it in place and
    returns it ([values = f(values)]); the only second dict is the copy that
    [search] makes before it branches, and the snapshots in [assignments]
    are copies that nothing writes to.  Passing the dict as a value is
    therefore the same computation; module [Obj] gives [assign_value] on
    objects and references, where the sharing itself is the subject. *)

From Stdlib Require Import String Ascii List Arith Bool Lia Permutation.
Import ListNotations.
Local Open Scope string_scope.
Local Open Scope list_scope.

(** ** Python strings *)

Module Py.

(** [for c in s]: the one-character strings of [s], left to right. *)
Fixpoint iter (s : string) : list string :=
  match s with
  | EmptyString => []
  | String c s' => String c EmptyString :: iter s'
  end.

(** [expression[::-1]] *)
Fixpoint rev_string (s : string) : string :=
  match s with
  | EmptyString => EmptyString
  | String c s' => (rev_string s' ++ String c EmptyString)%string
  end.

(** [range(start, stop, step)] for a positive [step]; [n] bounds the number
    of elements. *)
Fixpoint range_aux (n start stop step : nat) : list nat :=
  match n with
  | 0 => []
  | S n' => if Nat.ltb start stop then start :: range_aux n' (start + step) stop step
            else []
  end.

Definition range (start stop step : nat) : list nat :=
  range_aux stop start stop step.

(** [zip(a, b)] is [List.combine]. *)

(** [x in l] for a list of strings. *)
Definition mem (x : string) (l : list string) : bool :=
  existsb (String.eqb x) l.

(** [l.count(x)] *)
Definition count (x : string) (l : list string) : nat :=
  List.length (filter (String.eqb x) l).

(** One step of [s.replace(old, '')] with [old] non-empty: [skip] counts the
    characters of a match still to be dropped. *)
Fixpoint replace_aux (old : string) (skip : nat) (s : string) : string :=
  match s with
  | EmptyString => EmptyString
  | String c s' =>
      match skip with
      | S k => replace_aux old k s'
      | 0 => if prefix old s
             then replace_aux old (String.length old - 1) s'
             else String c (replace_aux old 0 s')
      end
  end.

(** [s.replace(old, '')]: every non-overlapping occurrence of [old] is
    removed, left to right; with [old = ''] the string is returned as is. *)
Definition replace (old s : string) : string :=
  match old with
  | EmptyString => s
  | _ => replace_aux old 0 s
  end.

(** [sub in s] for strings. *)
Fixpoint contains (sub s : string) : bool :=
  prefix sub s ||
  match s with
  | EmptyString => false
  | String _ s' => contains sub s'
  end.

End Py.

(** ** Constraint topology (module level of [solution.py]) *)

(** [S = '123456789']; the name [S] is the successor of [nat] in Rocq. *)
Definition S_str : string := "123456789".
Definition ABCDEFGHI : string := "ABCDEFGHI".

(** [[s + t for s in a for t in b]] *)
Definition cross (a b : list string) : list string :=
  flat_map (fun s => map (fun t => (s ++ t)%string) b) a.

Definition r_string (expression : string) : string := Py.rev_string expression.

Definition rows : string := ABCDEFGHI.
Definition cols : string := S_str.

Definition _get_boxes : list string := cross (Py.iter rows) (Py.iter cols).

Definition _get_row_units : list (list string) :=
  map (fun r => cross (Py.iter r) (Py.iter cols)) (Py.iter rows).

Definition _get_columns_unit : list (list string) :=
  map (fun c => cross (Py.iter rows) (Py.iter c)) (Py.iter cols).

Definition _get_square_units (sq : nat) : list (list string) :=
  let crows := map (fun i => substring i sq rows) (Py.range 0 (String.length rows) sq) in
  let ccols := map (fun i => substring i sq cols) (Py.range 0 (String.length cols) sq) in
  flat_map (fun rs => map (fun cs => cross (Py.iter rs) (Py.iter cs)) ccols) crows.

Definition _get_diag : list (list string) :=
  [ map (fun ab => (fst ab ++ snd ab)%string) (combine (Py.iter rows) (Py.iter cols));
    map (fun ab => (fst ab ++ snd ab)%string) (combine (Py.iter rows) (Py.iter (r_string cols))) ].

Definition boxes : list string := _get_boxes.
Definition row_units := _get_row_units.
Definition column_units := _get_columns_unit.
Definition square_units := _get_square_units 3.
Definition diagonals_u := _get_diag.
Definition unitlist : list (list string) :=
  row_units ++ column_units ++ square_units ++ diagonals_u.

(** [units[s] = [u for u in unitlist if s in u]] *)
Definition units (s : string) : list (list string) :=
  filter (fun u => Py.mem s u) unitlist.

(** [peers[s] = set(sum(units[s], [])) - {s}].  A Python set has no
    specified iteration order; the list keeps one occurrence of each member,
    in the order of [sum(units[s], [])].  The order decides only in which
    order [eliminate] appends its snapshots, not the dict it leaves
    ([elim_box_peer_order]). *)
Definition peers (s : string) : list string :=
  remove string_dec s (nodup string_dec (concat (units s))).

Arguments boxes : simpl never.
Arguments unitlist : simpl never.
Arguments units : simpl never.
Arguments peers : simpl never.

(** ** Python values of the program *)

(** A [dict] from box labels to candidate strings, in insertion order. *)
Definition dict := list (string * string).

(** [d[k]].  A missing key raises [KeyError] in Python; every dict the
    program builds has exactly the keys [boxes], and the theorems below are
    stated for such dicts, where the default is never returned. *)
Fixpoint dict_get (d : dict) (k : string) : string :=
  match d with
  | [] => ""
  | (k', v) :: d' => if String.eqb k k' then v else dict_get d' k
  end.

(** [d[k] = v]: an existing key keeps its position, a new one goes last. *)
Fixpoint dict_set (d : dict) (k v : string) : dict :=
  match d with
  | [] => [(k, v)]
  | (k', v') :: d' =>
      if String.eqb k k' then (k', v) :: d' else (k', v') :: dict_set d' k v
  end.

(** [d.keys()] *)
Definition keys (d : dict) : list string := map fst d.

(** [dict(pairs)] *)
Definition dict_of (pairs : list (string * string)) : dict :=
  fold_left (fun d kv => dict_set d (fst kv) (snd kv)) pairs [].

(** [d.copy()]: as a value the copy is the dict itself; the object level is
    in module [Obj] below. *)
Definition dict_copy (d : dict) : dict := d.

(** What [reduce_puzzle] and [search] return: a dict, [False] or [None]. *)
Inductive pyval : Type :=
| PyDict (d : dict)
| PyFalse
| PyNone.

(** Truth value, as tested by [if not values] and [if attempt]. *)
Definition truthy (v : pyval) : bool :=
  match v with
  | PyDict d => negb (Nat.eqb (List.length d) 0)
  | PyFalse => false
  | PyNone => false
  end.

Inductive exn : Type := AssertionError | ValueError.

(** How a call ends; [OutOfFuel] belongs to the embedding of the [while]
    loop and of the recursion, not to Python. *)
Inductive outcome (A : Type) : Type :=
| Return (a : A)
| Raise (e : exn)
| OutOfFuel.
Arguments Return {A} a.
Arguments Raise {A} e.
Arguments OutOfFuel {A}.

(** ** The module-level list [assignments] as threaded state *)

Definition M (A : Type) : Type := list dict -> A * list dict.

Definition ret {A} (a : A) : M A := fun assignments => (a, assignments).

Definition bind {A B} (m : M A) (k : A -> M B) : M B :=
  fun assignments => let (a, assignments') := m assignments in k a assignments'.

Notation "x <- m ;; k" := (bind m (fun x => k))
  (at level 61, m at next level, right associativity).

(** [for b in l: a = body(a, b)] *)
Fixpoint for_each {A B} (l : list B) (body : A -> B -> M A) (a : A) : M A :=
  match l with
  | [] => ret a
  | b :: l' => a' <- body a b ;; for_each l' body a'
  end.

(** ** The solver *)

Definition assign_value (values : dict) (box value : string) : M dict :=
  fun assignments =>
    let values := dict_set values box value in
    if Nat.eqb (String.length value) 1
    then (values, assignments ++ [dict_copy values])
    else (values, assignments).

(** [twins_num] for one unit: every value of the unit that has two
    characters and occurs twice, once per occurrence. *)
Definition twins_of (values : dict) (unit : list string) : list string :=
  let unit_v := map (dict_get values) unit in
  filter (fun data => Nat.eqb (Py.count data unit_v) 2
                      && Nat.eqb (String.length data) 2) unit_v.

(** The body of [for unit in unitlist] in [naked_twins]. *)
Definition naked_twins_unit (values : dict) (unit : list string) : M dict :=
  let twins_num := twins_of values unit in
  for_each twins_num (fun values numbers =>
    for_each (Py.iter numbers) (fun values number =>
      for_each unit (fun values box =>
        if negb (String.eqb (dict_get values box) numbers)
        then assign_value values box (Py.replace number (dict_get values box))
        else ret values) values) values) values.

Definition naked_twins (values : dict) : M dict :=
  for_each unitlist naked_twins_unit values.

(** [None] is the failed [assert len(chars) == 81]. *)
Definition grid_values (grid : string) : option dict :=
  let chars :=
    fold_left (fun chars c =>
      let chars := if Py.contains c cols then chars ++ [c] else chars in
      if String.eqb c "." then chars ++ [cols] else chars)
      (Py.iter grid) [] in
  if Nat.eqb (List.length chars) 81
  then Some (dict_of (combine boxes chars))
  else None.

(** The loop of [eliminate] over a given list of solved boxes. *)
Definition eliminate_in (s_values : list string) (values : dict) : M dict :=
  for_each s_values (fun values box =>
    let digit := dict_get values box in
    for_each (peers box) (fun values peer =>
      assign_value values peer (Py.replace digit (dict_get values peer)))
      values) values.

(** [[box for box in values.keys() if len(values[box]) == n]] *)
Definition boxes_of_len (n : nat) (values : dict) : list string :=
  filter (fun box => Nat.eqb (String.length (dict_get values box)) n) (keys values).

Definition eliminate (values : dict) : M dict :=
  let s_values := boxes_of_len 1 values in
  eliminate_in s_values values.

Definition only_choice (values : dict) : M dict :=
  for_each unitlist (fun values unit =>
    for_each (Py.iter cols) (fun values digit =>
      let dplaces := filter (fun box => Py.contains digit (dict_get values box)) unit in
      if Nat.eqb (List.length dplaces) 1
      then assign_value values (hd "" dplaces) digit
      else ret values) values) values.

(** The [while not stalled] loop; [fuel] bounds the number of passes. *)
Fixpoint reduce_puzzle (fuel : nat) (values : dict) : M (outcome pyval) :=
  match fuel with
  | 0 => ret OutOfFuel
  | S fuel' =>
      let solved_values_before := List.length (boxes_of_len 1 values) in
      values <- eliminate values ;;
      values <- naked_twins values ;;
      values <- only_choice values ;;
      let solved_values_after := List.length (boxes_of_len 1 values) in
      let stalled := Nat.eqb solved_values_before solved_values_after in
      if negb (Nat.eqb (List.length (boxes_of_len 0 values)) 0)
      then ret (Return PyFalse)
      else if stalled then ret (Return (PyDict values))
      else reduce_puzzle fuel' values
  end.

(** Python orders tuples lexicographically, and strings by code point. *)
Definition tuple_ltb (a b : nat * string) : bool :=
  Nat.ltb (fst a) (fst b) || (Nat.eqb (fst a) (fst b) && String.ltb (snd a) (snd b)).

(** [min(l)]: the first least element; [None] is the [ValueError] of an
    empty sequence. *)
Definition py_min (l : list (nat * string)) : option (nat * string) :=
  match l with
  | [] => None
  | x :: l' => Some (fold_left (fun m y => if tuple_ltb y m then y else m) l' x)
  end.

(** [min((len(values[s]), s) for s in boxes if len(values[s]) > 1)] *)
Definition branch_box (values : dict) : option (nat * string) :=
  py_min (map (fun s => (String.length (dict_get values s), s))
              (filter (fun s => Nat.ltb 1 (String.length (dict_get values s))) boxes)).

Fixpoint search (fuel : nat) (values : dict) : M (outcome pyval) :=
  match fuel with
  | 0 => ret OutOfFuel
  | S fuel' =>
      r <- reduce_puzzle fuel values ;;
      match r with
      | Return (PyDict values) =>
          if negb (truthy (PyDict values)) then ret (Return (PyDict values))
          else if forallb (fun s => Nat.eqb (String.length (dict_get values s)) 1) boxes
          then ret (Return (PyDict values))
          else
            match branch_box values with
            | None => ret (Raise ValueError)
            | Some (n, s) =>
                (fix loop (l : list string) : M (outcome pyval) :=
                   match l with
                   | [] => ret (Return PyNone)
                   | value :: l' =>
                       let new_sudoku := dict_copy values in
                       new_sudoku <- assign_value new_sudoku s value ;;
                       attempt <- search fuel' new_sudoku ;;
                       match attempt with
                       | Return a => if truthy a then ret (Return a) else loop l'
                       | _ => ret attempt
                       end
                   end) (Py.iter (dict_get values s))
            end
      | _ => ret r
      end
  end.

Definition solve (fuel : nat) (grid : string) : M (outcome pyval) :=
  match grid_values grid with
  | None => ret (Raise AssertionError)
  | Some values => search fuel values
  end.

(** ** Objects and references

    [assign_value] writes through the reference it is given.  Dicts live in
    a store, a reference is a position in it, and [assignments] holds
    references to the copies. *)

Module Obj.

Definition ref := nat.

Record state : Type := mkState {
  store : list dict;
  assignments : list ref
}.

Definition deref (st : state) (r : ref) : dict := nth r (store st) [].

Fixpoint write (l : list dict) (r : ref) (d : dict) : list dict :=
  match l, r with
  | [], _ => []
  | _ :: l', 0 => d :: l'
  | x :: l', S r' => x :: write l' r' d
  end.

(** [values[box] = value] *)
Definition setitem (st : state) (values : ref) (box value : string) : state :=
  mkState (write (store st) values (dict_set (deref st values) box value))
          (assignments st).

(** [values.copy()]: a new object with the same items. *)
Definition copy (st : state) (values : ref) : state * ref :=
  (mkState (store st ++ [deref st values]) (assignments st),
   List.length (store st)).

(** [assignments.append(r)] *)
Definition append (st : state) (r : ref) : state :=
  mkState (store st) (assignments st ++ [r]).

Definition assign_value (st : state) (values : ref) (box value : string)
  : state * ref :=
  let st := setitem st values box value in
  if Nat.eqb (String.length value) 1
  then let (st, c) := copy st values in (append st c, values)
  else (st, values).

End Obj.

(** ** The dict component of the loops

    Each loop of the solver calls [assign_value] and nothing else that
    touches [assignments]; its dict result is the fold below, which the
    lemmas [*_fst] relate to the function it comes from. *)

Definition elim_box (values : dict) (box : string) : dict :=
  let digit := dict_get values box in
  fold_left (fun values peer =>
               dict_set values peer (Py.replace digit (dict_get values peer)))
            (peers box) values.

Definition eliminate_in_g (s_values : list string) (values : dict) : dict :=
  fold_left elim_box s_values values.

Definition eliminate_g (values : dict) : dict :=
  eliminate_in_g (boxes_of_len 1 values) values.

Definition twin_box (numbers number : string) (values : dict) (box : string) : dict :=
  if negb (String.eqb (dict_get values box) numbers)
  then dict_set values box (Py.replace number (dict_get values box))
  else values.

Definition naked_twins_unit_g (values : dict) (unit : list string) : dict :=
  fold_left (fun values numbers =>
    fold_left (fun values number =>
      fold_left (twin_box numbers number) unit values)
      (Py.iter numbers) values) (twins_of values unit) values.

Definition naked_twins_g (values : dict) : dict :=
  fold_left naked_twins_unit_g unitlist values.

Definition choice_digit (unit : list string) (values : dict) (digit : string) : dict :=
  let dplaces := filter (fun box => Py.contains digit (dict_get values box)) unit in
  if Nat.eqb (List.length dplaces) 1
  then dict_set values (hd "" dplaces) digit
  else values.

Definition only_choice_g (values : dict) : dict :=
  fold_left (fun values unit => fold_left (choice_digit unit) (Py.iter cols) values)
            unitlist values.

(** One pass of the loop of [reduce_puzzle]. *)
Definition pass_g (values : dict) : dict :=
  only_choice_g (naked_twins_g (eliminate_g values)).

(** ** Predicates of the statements *)

(** The characters of a string kept by [f], in order. *)
Fixpoint sfilter (f : ascii -> bool) (s : string) : string :=
  match s with
  | EmptyString => EmptyString
  | String c s' => if f c then String c (sfilter f s') else sfilter f s'
  end.

(** [a] is [b] with some characters taken out, as far as the solver needs
    it: no longer, equal when as long, and with characters of [b] only. *)
Definition shrinks (a b : string) : Prop :=
  String.length a <= String.length b
  /\ (String.length a = String.length b -> a = b)
  /\ incl (Py.iter a) (Py.iter b).

(** Same keys, and every candidate string shrunk. *)
Definition le_dict (v' v : dict) : Prop :=
  keys v' = keys v /\ forall k, shrinks (dict_get v' k) (dict_get v k).

(** A grid over the 81 boxes whose candidates are digits of [cols]. *)
Definition wf_grid (values : dict) : Prop :=
  keys values = boxes
  /\ forall k, incl (Py.iter (dict_get values k)) (Py.iter cols).

(** Number of candidates left on the board. *)
Definition total_len (values : dict) : nat :=
  list_sum (map (fun s => String.length (dict_get values s)) boxes).

(** Every digit occurs exactly once among the values of the unit. *)
Definition solved_unit (values : dict) (unit : list string) : Prop :=
  forall d, In d (Py.iter cols) -> Py.count d (map (dict_get values) unit) = 1.

Definition solved_grid (values : dict) : Prop :=
  keys values = boxes
  /\ (forall s, In s boxes -> In (dict_get values s) (Py.iter cols))
  /\ (forall unit, In unit unitlist -> solved_unit values unit).

(** No solved box has a peer holding the same string. *)
Definition conflict_free (values : dict) : Prop :=
  forall box peer, In box boxes -> In peer (peers box) ->
    String.length (dict_get values box) = 1 ->
    dict_get values peer <> dict_get values box.

(** Position of a box in [boxes] (81 when absent). *)
Fixpoint index_of (s : string) (l : list string) : nat :=
  match l with
  | [] => 0
  | x :: l' => if String.eqb s x then 0 else S (index_of s l')
  end.

(** The characters that [grid_values] keeps. *)
Definition grid_char (c : string) : bool :=
  Py.contains c cols || String.eqb c ".".

(** Number of diagonals through a box. *)
Definition diag_count (s : string) : nat :=
  List.length (filter (fun u => Py.mem s u) diagonals_u).

(** The dict component of [reduce_puzzle] and of [search]. *)
Fixpoint reduce_puzzle_g (fuel : nat) (values : dict) : outcome pyval :=
  match fuel with
  | 0 => OutOfFuel
  | S fuel' =>
      let values' := pass_g values in
      if negb (Nat.eqb (List.length (boxes_of_len 0 values')) 0)
      then Return PyFalse
      else if Nat.eqb (List.length (boxes_of_len 1 values))
                      (List.length (boxes_of_len 1 values'))
      then Return (PyDict values')
      else reduce_puzzle_g fuel' values'
  end.

(** [for value in values[s]: ...] of [search], over the recursive call. *)
Fixpoint try_values (rec : dict -> outcome pyval) (values : dict) (s : string)
    (l : list string) : outcome pyval :=
  match l with
  | [] => Return PyNone
  | value :: l' =>
      match rec (dict_set (dict_copy values) s value) with
      | Return a => if truthy a then Return a else try_values rec values s l'
      | other => other
      end
  end.

Fixpoint search_g (fuel : nat) (values : dict) : outcome pyval :=
  match fuel with
  | 0 => OutOfFuel
  | S fuel' =>
      match reduce_puzzle_g fuel values with
      | Return (PyDict values) =>
          if negb (truthy (PyDict values)) then Return (PyDict values)
          else if forallb (fun s => Nat.eqb (String.length (dict_get values s)) 1) boxes
          then Return (PyDict values)
          else
            match branch_box values with
            | None => Raise ValueError
            | Some (n, s) =>
                try_values (search_g fuel') values s (Py.iter (dict_get values s))
            end
      | r => r
      end
  end.

(** A computation that only appends to [assignments], and whose result and
    appended events do not depend on what the list held before. *)
Definition appends {A} (m : M A) : Prop :=
  forall L, m L = (fst (m []), L ++ snd (m [])).

(** Length first, then position in [boxes]: the order of [tuple_ltb] on
    pairs whose label is a box. *)
Definition rank (a : nat * string) : nat := fst a * 81 + index_of (snd a) boxes.

(** What a call of [search] may end with: a solved grid, [False] or [None];
    no exception, and no fuel shortage. *)
Definition search_ok (o : outcome pyval) : Prop :=
  match o with
  | Return (PyDict v) => solved_grid v
  | Return PyFalse => True
  | Return PyNone => True
  | Raise _ => False
  | OutOfFuel => False
  end.

(** The list [chars] that [grid_values] builds. *)
Definition grid_chars (grid : string) : list string :=
  fold_left (fun chars c =>
    let chars := if Py.contains c cols then chars ++ [c] else chars in
    if String.eqb c "." then chars ++ [cols] else chars)
    (Py.iter grid) [].

(** ** Inputs used in examples *)

(** The grid solved under [if __name__ == '__main__']. *)
Definition diag_sudoku_grid : string :=
  "4.....8.5.3..........7......2.....6.....8.4......1.......6.....5..2.....1.4......".

(** The example of the docstring of [solve]. *)
Definition docstring_grid : string :=
  "2.............62....1....7...6..8...3...9...7...6..4...4....8....52.............3".

(** The solution of [docstring_grid], as an input with 81 clues. *)
Definition solved_input : string :=
  "267945381853716249491823576576438192384192657129657438642379815935281764718564923".

(** 81 unknown boxes. *)
Definition blank_grid : string :=
  ".................................................................................".

(** 81 unknown boxes followed by a foreign character: 82 characters. *)
Definition padded_grid : string := (blank_grid ++ "X")%string.

(** The dict of a grid that parses ([{}] otherwise). *)
Definition parsed (grid : string) : dict :=
  match grid_values grid with
  | Some values => values
  | None => []
  end.

(** The dict of [diag_sudoku_grid], evaluated. *)
Definition diag_values : dict := Eval vm_compute in parsed diag_sudoku_grid.

(** A grid with the clue 5 in both A1 and A2, and its dict. *)
Definition clash_grid : string :=
  "55...............................................................................".

Definition clash_values : dict := Eval vm_compute in parsed clash_grid.

(** The dict of [solved_input]: every box solved. *)
Definition solved_values : dict := Eval vm_compute in parsed solved_input.

(** One dict object, the parsed [diag_sudoku_grid], and an empty log. *)
Definition example_state : Obj.state :=
  Obj.mkState [diag_values] [].

(** [hit values done k c]: some box of [done] has [k] among its peers and
    holds the single character [c]. *)
Definition hit (values : dict) (done : list string) (k : string) (c : ascii) : bool :=
  existsb (fun b => Py.mem k (peers b) && String.eqb (dict_get values b) (String c ""))
          done.

(** The first row unit. *)
Definition row_A : list string := cross (Py.iter "A") (Py.iter cols).

(** The dict of [blank_grid]. *)
Definition blank_values : dict := Eval vm_compute in parsed blank_grid.

(** Row A with the twins 12 at A1 and A2. *)
Definition twin_values : dict :=
  dict_set (dict_set blank_values "A1" "12") "A2" "12".

(** Row A with the twins 12 at A1, A2 and the twins 23 at A3, A4. *)
Definition overlap_values : dict :=
  dict_set (dict_set twin_values "A3" "23") "A4" "23".

(** The twins 12 at A1, A2 of row A and the twins 13 at D1, E1 of column 1. *)
Definition cross_values : dict :=
  dict_set (dict_set twin_values "D1" "13") "E1" "13".

(** A grid on which [reduce_puzzle] stops before a fixed point, its result,
    and the result of reducing that again. *)
Definition stall_grid : string :=
  "..........5.7...4....8.....5.6.........192........7......3...1.......7.4.1....9..".

Definition stall_once : dict :=
  Eval vm_compute in
    match fst (reduce_puzzle 730 (parsed stall_grid) []) with
    | Return (PyDict d) => d
    | _ => []
    end.

Definition stall_twice : dict :=
  Eval vm_compute in
    match fst (reduce_puzzle 730 stall_once []) with
    | Return (PyDict d) => d
    | _ => []
    end.

(** What [solve] may end with on the input [grid]: a solved grid, [False]
    or [None] when the input parses, the [AssertionError] of [grid_values]
    when it does not; no other exception, and no fuel shortage. *)
Definition solve_ok (grid : string) (o : outcome pyval) : Prop :=
  match o with
  | Return (PyDict values) => solved_grid values
  | Return PyFalse => grid_values grid <> None
  | Return PyNone => grid_values grid <> None
  | Raise AssertionError => grid_values grid = None
  | Raise ValueError => False
  | OutOfFuel => False
  end.

(** The characters of the values of a dict, in the order of its keys. *)
Definition spell (values : dict) : string := String.concat "" (map snd values).

(** What [grid_values] stores for a kept character: the candidates
    [cols] for '.', the digit itself otherwise. *)
Definition expand (c : string) : string :=
  if String.eqb c "." then cols else c.

(** [diag_values] with the candidates of A2 taken away. *)
Definition holed_values : dict := dict_set diag_values "A2" "".

(** [sol] puts in every box one of the candidates that [values] has there. *)
Definition compatible (sol values : dict) : Prop :=
  forall s, In s boxes -> In (dict_get sol s) (Py.iter (dict_get values s)).

(** The dict of [docstring_grid]. *)
Definition docstring_values : dict := Eval vm_compute in parsed docstring_grid.

(** The state while [naked_twins] works on [unit], started from [w0]: [w]
    is still compatible with [sol], and every box of the unit that held a
    twin value still holds it. *)
Definition twins_inv (sol w0 : dict) (unit : list string) (w : dict) : Prop :=
  compatible sol w
  /\ forall r, In r unit -> In (dict_get w0 r) (twins_of w0 unit) ->
               dict_get w r = dict_get w0 r.

(** ** [display]

    [print] is the effect of [display]; the function is modelled by the
    list of lines it prints, in order. *)

(** [s * n] *)
Fixpoint str_mul (s : string) (n : nat) : string :=
  match n with
  | 0 => ""
  | S n' => (s ++ str_mul s n')%string
  end.

(** [s.center(width)]: unchanged when [width <= len(s)]; otherwise padded
    with spaces, the odd one going to the left when the padding and the
    width are both odd. *)
Definition center (s : string) (width : nat) : string :=
  if Nat.leb width (String.length s) then s
  else
    let marg := width - String.length s in
    let left := marg / 2 + (if Nat.odd marg && Nat.odd width then 1 else 0) in
    (str_mul " " left ++ s ++ str_mul " " (marg - left))%string.

(** [1 + max(len(values[s]) for s in boxes)]; [boxes] is not empty. *)
Definition display_width (values : dict) : nat :=
  1 + list_max (map (fun s => String.length (dict_get values s)) boxes).

(** The line printed for row [r]. *)
Definition display_row (values : dict) (width : nat) (r : string) : string :=
  String.concat ""
    (map (fun c => (center (dict_get values (r ++ c)) width
                    ++ (if Py.contains c "36" then "|" else ""))%string)
         (Py.iter cols)).

Definition display (values : dict) : list string :=
  let width := display_width values in
  let line := String.concat "+" (repeat (str_mul "-" (width * 3)) 3) in
  flat_map (fun r =>
              display_row values width r
              :: (if Py.contains r "CF" then [line] else []))
           (Py.iter rows).

(** The digits of a printed line. *)
Definition digits_of (line : string) : string :=
  sfilter (fun c => Py.contains (String c "") cols) line.

(** [x] without the characters that occur in one of the strings [ts]. *)
Definition without_digits (ts : list string) (x : string) : string :=
  sfilter (fun c => negb (existsb (Py.contains (String c "")) ts)) x.

(** Row A with the twins 12 at A1, A2 and the twins 34 at A3, A4. *)
Definition disjoint_values : dict :=
  dict_set (dict_set twin_values "A3" "34") "A4" "34".

(** The same with 1234 at A5. *)
Definition residue_values : dict := dict_set disjoint_values "A5" "1234".

(** [a] is [b] with some characters taken out, the others in their order. *)
Inductive subseq : string -> string -> Prop :=
| subseq_nil : subseq "" ""
| subseq_drop c a b : subseq a b -> subseq a (String c b)
| subseq_keep c a b : subseq a b -> subseq (String c a) (String c b).

(** Same keys, and the values related box by box. *)
Definition rel_dict (R : string -> string -> Prop) (v' v : dict) : Prop :=
  keys v' = keys v /\ forall k, R (dict_get v' k) (dict_get v k).

(** * Properties *)

(** ** Strings *)

Section Strings.

Lemma iter_length s : List.length (Py.iter s) = String.length s.
Proof. induction s; simpl; congruence. Qed.

Lemma iter_char d s : In d (Py.iter s) -> exists c, d = String c "".
Proof.
  induction s as [|a s IH]; simpl; [tauto|].
  intros [<-|H]; eauto.
Qed.

Lemma iter_inj a b : Py.iter a = Py.iter b -> a = b.
Proof.
  revert b; induction a as [|c a IH]; intros [|d b]; simpl; try discriminate; auto.
  intros H; injection H as -> H; f_equal; auto.
Qed.

Lemma shrinks_refl a : shrinks a a.
Proof. repeat split; auto. apply incl_refl. Qed.

Lemma shrinks_trans a b c : shrinks a b -> shrinks b c -> shrinks a c.
Proof.
  intros (L1 & E1 & I1) (L2 & E2 & I2); repeat split.
  - lia.
  - intros H. rewrite E1 by lia. apply E2; lia.
  - eapply incl_tran; eauto.
Qed.

Lemma shrinks_length a b : shrinks a b -> String.length a <= String.length b.
Proof. intros H; apply H. Qed.

Lemma shrinks_same a b :
  shrinks a b -> String.length a = String.length b -> a = b.
Proof. intros H; apply H. Qed.

Lemma shrinks_empty a : shrinks a "" -> a = "".
Proof. intros (L & _ & _). destruct a; simpl in *; [reflexivity | lia]. Qed.

Lemma replace_aux_cons old k c s :
  Py.replace_aux old k (String c s) =
  match k with
  | S k' => Py.replace_aux old k' s
  | 0 => if prefix old (String c s)
         then Py.replace_aux old (String.length old - 1) s
         else String c (Py.replace_aux old 0 s)
  end.
Proof. reflexivity. Qed.

Lemma replace_aux_length old s : forall k,
  String.length (Py.replace_aux old k s) <= String.length s.
Proof.
  induction s as [|c s IH]; intros k; [simpl; lia|].
  rewrite replace_aux_cons.
  destruct k as [|k].
  - destruct (prefix old (String c s)); cbn [String.length].
    + specialize (IH (String.length old - 1)); lia.
    + specialize (IH 0); lia.
  - specialize (IH k); cbn [String.length]; lia.
Qed.

Lemma replace_aux_same old s : forall k,
  String.length (Py.replace_aux old k s) = String.length s ->
  Py.replace_aux old k s = s.
Proof.
  induction s as [|c s IH]; intros k; [reflexivity|].
  rewrite replace_aux_cons.
  destruct k as [|k].
  - destruct (prefix old (String c s)); cbn [String.length].
    + pose proof (replace_aux_length old s (String.length old - 1)); lia.
    + intros H; f_equal; apply IH; lia.
  - pose proof (replace_aux_length old s k); cbn [String.length]; lia.
Qed.

Lemma replace_aux_incl old s : forall k,
  incl (Py.iter (Py.replace_aux old k s)) (Py.iter s).
Proof.
  induction s as [|c s IH]; intros k; [apply incl_refl|].
  rewrite replace_aux_cons.
  destruct k as [|k].
  - destruct (prefix old (String c s)); cbn [Py.iter].
    + apply incl_tl, IH.
    + intros x [<-|H]; [left; reflexivity | right; eapply IH; eauto].
  - cbn [Py.iter]. apply incl_tl, IH.
Qed.

Lemma replace_shrinks old s : shrinks (Py.replace old s) s.
Proof.
  destruct old as [|a old]; simpl; [apply shrinks_refl|].
  repeat split.
  - apply replace_aux_length.
  - apply replace_aux_same.
  - apply replace_aux_incl.
Qed.

Lemma prefix_nil s : prefix "" s = true.
Proof. now destruct s. Qed.

Lemma replace_char c s :
  Py.replace (String c "") s = sfilter (fun x => negb (Ascii.eqb x c)) s.
Proof.
  unfold Py.replace.
  induction s as [|a s IH]; simpl; [reflexivity|].
  destruct (ascii_dec c a) as [->|N].
  - rewrite Ascii.eqb_refl, prefix_nil; simpl. exact IH.
  - destruct (Ascii.eqb_spec a c) as [->|_]; [congruence|]. simpl. now rewrite IH.
Qed.

Lemma contains_char c s :
  Py.contains (String c "") s = true <-> In (String c "") (Py.iter s).
Proof.
  induction s as [|a s IH]; simpl.
  - split; [discriminate | tauto].
  - destruct (ascii_dec c a) as [->|N]; simpl.
    + rewrite prefix_nil; simpl. split; auto.
    + rewrite IH. split; [tauto|]. intros [H|H]; [congruence | exact H].
Qed.

Lemma char_shrinks c s : In (String c "") (Py.iter s) -> shrinks (String c "") s.
Proof.
  intros H. repeat split.
  - destruct s; simpl in *; [tauto | lia].
  - destruct s as [|a [|b s]]; simpl in *; try tauto; try lia.
    intros _. destruct H as [H|[]]. congruence.
  - intros x [<-|[]]. exact H.
Qed.

Lemma sfilter_iter f s x :
  In x (Py.iter (sfilter f s)) <-> exists c, x = String c "" /\ f c = true /\ In x (Py.iter s).
Proof.
  induction s as [|a s IH]; simpl.
  - split; [tauto | intros (c & _ & _ & [])].
  - destruct (f a) eqn:E; simpl; rewrite IH; split.
    + intros [<-|(c & -> & F & H)]; eauto 6.
    + intros (c & -> & F & [H|H]); [now left | right; eauto].
    + intros (c & -> & F & H); eauto 6.
    + intros (c & -> & F & [H|H]); [congruence | eauto].
Qed.

Lemma sfilter_sfilter f g s :
  sfilter f (sfilter g s) = sfilter (fun c => g c && f c) s.
Proof.
  induction s as [|a s IH]; simpl; [reflexivity|].
  destruct (g a); simpl; [destruct (f a)|]; now rewrite IH.
Qed.

Lemma sfilter_ext f g s :
  (forall c, In (String c "") (Py.iter s) -> f c = g c) -> sfilter f s = sfilter g s.
Proof.
  induction s as [|a s IH]; simpl; [reflexivity|].
  intros H. rewrite (H a) by now left. rewrite IH; [reflexivity|].
  intros c Hc; apply H; now right.
Qed.

Lemma sfilter_all f s :
  (forall c, In (String c "") (Py.iter s) -> f c = true) -> sfilter f s = s.
Proof.
  induction s as [|a s IH]; simpl; [reflexivity|].
  intros H. rewrite (H a) by now left. f_equal. apply IH.
  intros c Hc; apply H; now right.
Qed.

End Strings.

(** ** Dicts *)

Section Dicts.

Lemma mem_In x l : Py.mem x l = true <-> In x l.
Proof.
  unfold Py.mem. rewrite existsb_exists. split.
  - intros (y & H & E). apply String.eqb_eq in E. now subst.
  - intros H. exists x. split; [exact H | apply String.eqb_refl].
Qed.

Lemma dict_get_set_same d k v : dict_get (dict_set d k v) k = v.
Proof.
  induction d as [|[k' v'] d IH]; simpl.
  - now rewrite String.eqb_refl.
  - destruct (String.eqb k k') eqn:E; simpl; rewrite E; auto.
Qed.

Lemma dict_get_set_other d k v k' :
  k <> k' -> dict_get (dict_set d k v) k' = dict_get d k'.
Proof.
  intros N. induction d as [|[k0 v0] d IH]; simpl.
  - destruct (String.eqb_spec k' k); congruence.
  - destruct (String.eqb_spec k k0) as [->|N0]; simpl.
    + destruct (String.eqb_spec k' k0); congruence.
    + now rewrite IH.
Qed.

Lemma dict_get_set d k v k' :
  dict_get (dict_set d k v) k' = if String.eqb k k' then v else dict_get d k'.
Proof.
  destruct (String.eqb_spec k k') as [->|N].
  - apply dict_get_set_same.
  - now apply dict_get_set_other.
Qed.

Lemma keys_set d k v : In k (keys d) -> keys (dict_set d k v) = keys d.
Proof.
  induction d as [|[k' v'] d IH]; simpl; [tauto|].
  intros H. destruct (String.eqb_spec k k') as [->|N]; simpl; [reflexivity|].
  f_equal. apply IH. destruct H; congruence.
Qed.

Lemma dict_set_absent d k v : ~ In k (keys d) -> dict_set d k v = d ++ [(k, v)].
Proof.
  induction d as [|[k' v'] d IH]; simpl; [reflexivity|].
  intros H. destruct (String.eqb_spec k k') as [->|N]; [tauto|].
  f_equal. apply IH. tauto.
Qed.

Lemma dict_ext d1 d2 :
  keys d1 = keys d2 -> NoDup (keys d1) ->
  (forall k, In k (keys d1) -> dict_get d1 k = dict_get d2 k) -> d1 = d2.
Proof.
  revert d2. induction d1 as [|[k v] d1 IH]; intros [|[k2 v2] d2]; simpl;
    try discriminate; [reflexivity|].
  intros E ND H. injection E as <- E. inversion ND as [|? ? Nk ND']; subst.
  pose proof (H k (or_introl eq_refl)) as Hk. rewrite String.eqb_refl in Hk. subst v2.
  f_equal. apply IH; [exact E | exact ND' |].
  intros k' Hk'. specialize (H k' (or_intror Hk')).
  revert H. destruct (String.eqb_spec k' k) as [E'|N]; [subst; contradiction | auto].
Qed.

Lemma dict_of_acc l : forall acc,
  NoDup (keys acc ++ keys l) ->
  fold_left (fun d kv => dict_set d (fst kv) (snd kv)) l acc = acc ++ l.
Proof.
  induction l as [|[k v] l IH]; intros acc ND; simpl.
  - now rewrite app_nil_r.
  - simpl in ND. rewrite dict_set_absent.
    + rewrite IH; [now rewrite <- app_assoc|].
      unfold keys in *. rewrite map_app, <- app_assoc. exact ND.
    + apply NoDup_remove_2 in ND. intros H; apply ND, in_or_app; now left.
Qed.

Lemma dict_of_nodup l : NoDup (keys l) -> dict_of l = l.
Proof. intros H. unfold dict_of. now rewrite dict_of_acc. Qed.

Lemma keys_combine (ks vs : list string) :
  List.length ks = List.length vs -> keys (combine ks vs) = ks.
Proof.
  revert vs. induction ks as [|k ks IH]; intros [|v vs]; simpl; try discriminate; auto.
  intros H. f_equal. apply IH. lia.
Qed.

Lemma dict_get_in d k : dict_get d k = "" \/ In (dict_get d k) (map snd d).
Proof.
  induction d as [|[k' v'] d IH]; simpl; [now left|].
  destruct (String.eqb k k'); [right; now left | destruct IH; auto].
Qed.

Lemma le_dict_refl v : le_dict v v.
Proof. split; [reflexivity | intros; apply shrinks_refl]. Qed.

Lemma le_dict_trans a b c : le_dict a b -> le_dict b c -> le_dict a c.
Proof.
  intros [K1 S1] [K2 S2]; split; [congruence|].
  intros k; eapply shrinks_trans; eauto.
Qed.

Lemma le_dict_set v k x :
  In k (keys v) -> shrinks x (dict_get v k) -> le_dict (dict_set v k x) v.
Proof.
  intros Hk Hx; split; [now apply keys_set|].
  intros k'. rewrite dict_get_set.
  destruct (String.eqb_spec k k') as [->|N]; [exact Hx | apply shrinks_refl].
Qed.

Lemma fold_left_le {B} (step : dict -> B -> dict) l :
  (forall v b, In b l -> le_dict (step v b) v) ->
  forall v, le_dict (fold_left step l v) v.
Proof.
  induction l as [|b l IH]; intros H v; simpl; [apply le_dict_refl|].
  eapply le_dict_trans; [apply IH | apply H; now left].
  intros; apply H; now right.
Qed.

End Dicts.

(** ** Facts of the topology, by evaluation *)

Section Topology.

Lemma boxes_nodup : NoDup boxes.
Proof.
  assert (H : nodup string_dec boxes = boxes) by (vm_compute; reflexivity).
  rewrite <- H. apply NoDup_nodup.
Qed.

Lemma boxes_length : List.length boxes = 81.
Proof. reflexivity. Qed.

Lemma unitlist_length : List.length unitlist = 29.
Proof. reflexivity. Qed.

Lemma unit_in_boxes unit s : In unit unitlist -> In s unit -> In s boxes.
Proof.
  assert (H : forallb (fun u => forallb (fun s => Py.mem s boxes) u) unitlist = true)
    by (vm_compute; reflexivity).
  intros Hu Hs. rewrite forallb_forall in H. specialize (H _ Hu).
  rewrite forallb_forall in H. now apply mem_In, H.
Qed.

Lemma unit_nodup unit : In unit unitlist -> NoDup unit.
Proof.
  assert (H : forallb (fun u => if list_eq_dec string_dec (nodup string_dec u) u
                                then true else false) unitlist = true)
    by (vm_compute; reflexivity).
  intros Hu. rewrite forallb_forall in H. specialize (H _ Hu).
  destruct (list_eq_dec string_dec (nodup string_dec unit) unit) as [E|]; [|discriminate].
  rewrite <- E. apply NoDup_nodup.
Qed.

Lemma unit_length unit : In unit unitlist -> List.length unit = 9.
Proof.
  assert (H : forallb (fun u => Nat.eqb (List.length u) 9) unitlist = true)
    by (vm_compute; reflexivity).
  intros Hu. rewrite forallb_forall in H. now apply Nat.eqb_eq, H.
Qed.

Lemma peers_in_boxes box peer : In box boxes -> In peer (peers box) -> In peer boxes.
Proof.
  assert (H : forallb (fun b => forallb (fun p => Py.mem p boxes) (peers b)) boxes = true)
    by (vm_compute; reflexivity).
  intros Hb Hp. rewrite forallb_forall in H. specialize (H _ Hb).
  rewrite forallb_forall in H. now apply mem_In, H.
Qed.

Lemma peers_nodup box : NoDup (peers box).
Proof.
  unfold peers. generalize (NoDup_nodup string_dec (concat (units box))).
  generalize (nodup string_dec (concat (units box))) as l.
  induction l as [|x l IH]; simpl; intros ND; [constructor|].
  inversion ND; subst. destruct (string_dec box x); auto.
  constructor; auto. intros H; apply in_remove in H. tauto.
Qed.

Lemma peers_irrefl box : ~ In box (peers box).
Proof. unfold peers. apply remove_In. Qed.

Lemma unit_peers unit a b :
  In unit unitlist -> In a unit -> In b unit -> a <> b -> In b (peers a).
Proof.
  assert (H : forallb (fun u => forallb (fun a => forallb (fun b =>
                String.eqb a b || Py.mem b (peers a)) u) u) unitlist = true)
    by (vm_compute; reflexivity).
  intros Hu Ha Hb N. rewrite forallb_forall in H. specialize (H _ Hu).
  rewrite forallb_forall in H. specialize (H _ Ha).
  rewrite forallb_forall in H. specialize (H _ Hb).
  apply orb_true_iff in H. destruct H as [H|H].
  - apply String.eqb_eq in H. contradiction.
  - now apply mem_In.
Qed.

End Topology.

(** ** The state monad: dict component and log component *)

Section Erasure.

Lemma for_each_fst {A B} (body : A -> B -> M A) (g : A -> B -> A) :
  (forall a b L, fst (body a b L) = g a b) ->
  forall l a L, fst (for_each l body a L) = fold_left g l a.
Proof.
  intros H l. induction l as [|b l IH]; intros a L; simpl; [reflexivity|].
  unfold bind. specialize (H a b L). destruct (body a b L) as [a' L'].
  simpl in H. subst a'. apply IH.
Qed.

Lemma assign_value_fst values box value L :
  fst (assign_value values box value L) = dict_set values box value.
Proof. unfold assign_value. now destruct (Nat.eqb _ _). Qed.

Lemma eliminate_in_fst s_values values L :
  fst (eliminate_in s_values values L) = eliminate_in_g s_values values.
Proof.
  unfold eliminate_in, eliminate_in_g. apply for_each_fst.
  intros v b L'. unfold elim_box. apply for_each_fst.
  intros; apply assign_value_fst.
Qed.

Lemma eliminate_fst values L : fst (eliminate values L) = eliminate_g values.
Proof. apply eliminate_in_fst. Qed.

Lemma naked_twins_unit_fst values unit L :
  fst (naked_twins_unit values unit L) = naked_twins_unit_g values unit.
Proof.
  unfold naked_twins_unit, naked_twins_unit_g.
  apply for_each_fst. intros v numbers L1.
  apply for_each_fst. intros v1 number L2.
  apply for_each_fst. intros v2 box L3. unfold twin_box.
  destruct (negb _); [apply assign_value_fst | reflexivity].
Qed.

Lemma naked_twins_fst values L : fst (naked_twins values L) = naked_twins_g values.
Proof. apply for_each_fst. intros; apply naked_twins_unit_fst. Qed.

Lemma only_choice_fst values L : fst (only_choice values L) = only_choice_g values.
Proof.
  apply for_each_fst. intros v unit L1.
  apply for_each_fst. intros v1 digit L2. unfold choice_digit.
  destruct (Nat.eqb _ _); [apply assign_value_fst | reflexivity].
Qed.

Lemma appends_ret {A} (a : A) : appends (ret a).
Proof. intros L. unfold ret; simpl. now rewrite app_nil_r. Qed.

Lemma appends_bind {A B} (m : M A) (k : A -> M B) :
  appends m -> (forall a, appends (k a)) -> appends (bind m k).
Proof.
  intros Hm Hk L. unfold bind. rewrite (Hm L).
  destruct (m []) as [a e1] eqn:E; simpl.
  rewrite (Hk a (L ++ e1)), (Hk a e1). simpl. now rewrite app_assoc.
Qed.

Lemma appends_assign_value values box value : appends (assign_value values box value).
Proof.
  intros L. unfold assign_value.
  destruct (Nat.eqb _ _); simpl; [reflexivity | now rewrite app_nil_r].
Qed.

Lemma appends_for_each {A B} (body : A -> B -> M A) l :
  (forall a b, appends (body a b)) -> forall a, appends (for_each l body a).
Proof.
  intros H. induction l as [|b l IH]; intros a; simpl.
  - apply appends_ret.
  - apply appends_bind; auto.
Qed.

Lemma appends_eliminate values : appends (eliminate values).
Proof.
  apply appends_for_each. intros v b.
  apply appends_for_each. intros; apply appends_assign_value.
Qed.

Lemma appends_naked_twins values : appends (naked_twins values).
Proof.
  apply appends_for_each. intros v unit.
  apply appends_for_each. intros v1 numbers.
  apply appends_for_each. intros v2 number.
  apply appends_for_each. intros v3 box.
  destruct (negb _); [apply appends_assign_value | apply appends_ret].
Qed.

Lemma appends_only_choice values : appends (only_choice values).
Proof.
  apply appends_for_each. intros v unit.
  apply appends_for_each. intros v1 digit.
  cbv zeta. destruct (Nat.eqb _ _); [apply appends_assign_value | apply appends_ret].
Qed.

Lemma appends_reduce_puzzle fuel : forall values, appends (reduce_puzzle fuel values).
Proof.
  induction fuel as [|fuel IH]; intros values; simpl.
  - apply appends_ret.
  - apply appends_bind; [apply appends_eliminate | intros v1].
    apply appends_bind; [apply appends_naked_twins | intros v2].
    apply appends_bind; [apply appends_only_choice | intros v3].
    cbv zeta. destruct (negb _); [apply appends_ret|].
    destruct (Nat.eqb _ _); [apply appends_ret | apply IH].
Qed.

Lemma appends_search fuel : forall values, appends (search fuel values).
Proof.
  induction fuel as [|fuel IH]; intros values.
  - apply appends_ret.
  - cbn [search]. apply appends_bind; [apply appends_reduce_puzzle | intros r].
    destruct r as [[v| |]| |]; try apply appends_ret.
    destruct (negb (truthy (PyDict v))); [apply appends_ret|].
    destruct (forallb _ boxes); [apply appends_ret|].
    destruct (branch_box v) as [[n s]|]; [|apply appends_ret].
    generalize (Py.iter (dict_get v s)) as l.
    induction l as [|value l IHl]; [apply appends_ret|].
    apply appends_bind; [apply appends_assign_value | intros v1].
    apply appends_bind; [apply IH | intros attempt].
    destruct attempt as [a| |]; try apply appends_ret.
    destruct (truthy a); [apply appends_ret | apply IHl].
Qed.

Lemma appends_solve fuel grid : appends (solve fuel grid).
Proof.
  unfold solve. destruct (grid_values grid); [apply appends_search | apply appends_ret].
Qed.

End Erasure.

(** ** Every rule only takes candidates away *)

Section Monotone.

Lemma fold_left_le_keys {B} (step : dict -> B -> dict) l K :
  (forall v b, In b l -> keys v = K -> le_dict (step v b) v) ->
  forall v, keys v = K -> le_dict (fold_left step l v) v.
Proof.
  induction l as [|b l IH]; intros H v Hv; simpl; [apply le_dict_refl|].
  assert (Hb : le_dict (step v b) v) by (apply H; [now left | exact Hv]).
  eapply le_dict_trans; [apply IH | exact Hb].
  - intros; apply H; [now right | assumption].
  - destruct Hb as [Hk _]. congruence.
Qed.

Lemma elim_box_le values box :
  keys values = boxes -> In box boxes -> le_dict (elim_box values box) values.
Proof.
  intros Hk Hb. unfold elim_box. apply fold_left_le_keys with (K := boxes); [|exact Hk].
  intros v p Hp Hv. apply le_dict_set.
  - rewrite Hv. eapply peers_in_boxes; eauto.
  - apply replace_shrinks.
Qed.

Lemma eliminate_in_le s_values values :
  keys values = boxes -> incl s_values boxes ->
  le_dict (eliminate_in_g s_values values) values.
Proof.
  intros Hk Hi. unfold eliminate_in_g.
  apply fold_left_le_keys with (K := boxes); [|exact Hk].
  intros v b Hb Hv. apply elim_box_le; auto.
Qed.

Lemma boxes_of_len_incl n values : incl (boxes_of_len n values) (keys values).
Proof. intros x H. unfold boxes_of_len in H. apply filter_In in H. tauto. Qed.

Lemma eliminate_le values :
  keys values = boxes -> le_dict (eliminate_g values) values.
Proof.
  intros Hk. apply eliminate_in_le; [exact Hk|].
  rewrite <- Hk. apply boxes_of_len_incl.
Qed.

Lemma twin_box_le numbers number values box :
  In box (keys values) -> le_dict (twin_box numbers number values box) values.
Proof.
  intros Hb. unfold twin_box. destruct (negb _); [|apply le_dict_refl].
  apply le_dict_set; [exact Hb | apply replace_shrinks].
Qed.

Lemma naked_twins_unit_le values unit :
  keys values = boxes -> In unit unitlist ->
  le_dict (naked_twins_unit_g values unit) values.
Proof.
  intros Hk Hu. unfold naked_twins_unit_g.
  apply fold_left_le_keys with (K := boxes); [|exact Hk]. intros v numbers _ Hv.
  apply fold_left_le_keys with (K := boxes); [|exact Hv]. intros v1 number _ Hv1.
  apply fold_left_le_keys with (K := boxes); [|exact Hv1]. intros v2 box Hb Hv2.
  apply twin_box_le. rewrite Hv2. eapply unit_in_boxes; eauto.
Qed.

Lemma naked_twins_le values :
  keys values = boxes -> le_dict (naked_twins_g values) values.
Proof.
  intros Hk. unfold naked_twins_g.
  apply fold_left_le_keys with (K := boxes); [|exact Hk].
  intros; now apply naked_twins_unit_le.
Qed.

Lemma hd_single (l : list string) : List.length l = 1 -> In (hd "" l) l.
Proof. destruct l as [|x [|y l]]; simpl; try discriminate. now left. Qed.

Lemma choice_digit_le unit values digit :
  keys values = boxes -> In unit unitlist -> In digit (Py.iter cols) ->
  le_dict (choice_digit unit values digit) values.
Proof.
  intros Hk Hu Hd. unfold choice_digit.
  destruct (Nat.eqb_spec (List.length (filter (fun box => Py.contains digit (dict_get values box)) unit)) 1)
    as [E|_]; [|apply le_dict_refl].
  apply hd_single in E. apply filter_In in E. destruct E as [Hin Hc].
  apply le_dict_set.
  - rewrite Hk. eapply unit_in_boxes; eauto.
  - destruct (iter_char _ _ Hd) as [c ->]. now apply char_shrinks, contains_char.
Qed.

Lemma only_choice_le values :
  keys values = boxes -> le_dict (only_choice_g values) values.
Proof.
  intros Hk. unfold only_choice_g.
  apply fold_left_le_keys with (K := boxes); [|exact Hk]. intros v unit Hu Hv.
  apply fold_left_le_keys with (K := boxes); [|exact Hv]. intros v1 digit Hd Hv1.
  now apply choice_digit_le.
Qed.

Lemma le_dict_keys v' v : le_dict v' v -> keys v = boxes -> keys v' = boxes.
Proof. intros [H _]; congruence. Qed.

Lemma pass_le values : keys values = boxes -> le_dict (pass_g values) values.
Proof.
  intros Hk. unfold pass_g.
  pose proof (eliminate_le values Hk) as H1.
  pose proof (naked_twins_le _ (le_dict_keys _ _ H1 Hk)) as H2.
  pose proof (only_choice_le _ (le_dict_keys _ _ H2 (le_dict_keys _ _ H1 Hk))) as H3.
  eapply le_dict_trans; [exact H3|]. eapply le_dict_trans; eauto.
Qed.

Lemma le_dict_wf v' v : le_dict v' v -> wf_grid v -> wf_grid v'.
Proof.
  intros [Hk Hs] [Hv Hc]. split; [congruence|].
  intros k. eapply incl_tran; [apply Hs | apply Hc].
Qed.

Lemma list_sum_le {A} (f g : A -> nat) l :
  (forall x, In x l -> f x <= g x) -> list_sum (map f l) <= list_sum (map g l).
Proof.
  induction l as [|x l IH]; simpl; intros H; [lia|].
  pose proof (H x (or_introl eq_refl)). specialize (IH (fun y Hy => H y (or_intror Hy))). lia.
Qed.

Lemma list_sum_eq {A} (f g : A -> nat) l :
  (forall x, In x l -> f x <= g x) ->
  list_sum (map f l) = list_sum (map g l) -> forall x, In x l -> f x = g x.
Proof.
  induction l as [|y l IH]; simpl; intros H E x Hx; [tauto|].
  pose proof (H y (or_introl eq_refl)).
  pose proof (list_sum_le f g l (fun z Hz => H z (or_intror Hz))).
  destruct Hx as [<-|Hx]; [lia|].
  apply IH; auto. lia.
Qed.

Lemma total_len_le v' v : le_dict v' v -> total_len v' <= total_len v.
Proof. intros [_ H]. apply list_sum_le. intros; apply shrinks_length, H. Qed.

Lemma total_len_same v' v :
  le_dict v' v -> keys v = boxes -> total_len v' = total_len v -> v' = v.
Proof.
  intros [Hk H] Hv E. apply dict_ext; [exact Hk | rewrite Hk, Hv; apply boxes_nodup|].
  intros k Hin. rewrite Hk, Hv in Hin. apply shrinks_same; [apply H|].
  revert k Hin. apply list_sum_eq; [|exact E].
  intros; apply shrinks_length, H.
Qed.

End Monotone.

(** ** [reduce_puzzle] and [search]: their dict component *)

Section SearchErasure.

Lemma reduce_puzzle_fst fuel : forall values L,
  fst (reduce_puzzle fuel values L) = reduce_puzzle_g fuel values.
Proof.
  induction fuel as [|fuel IH]; intros values L; [reflexivity|].
  cbn [reduce_puzzle reduce_puzzle_g]. unfold bind, pass_g.
  pose proof (eliminate_fst values L) as H1.
  destruct (eliminate values L) as [v1 L1]. cbn [fst] in H1. subst v1.
  pose proof (naked_twins_fst (eliminate_g values) L1) as H2.
  destruct (naked_twins (eliminate_g values) L1) as [v2 L2]. cbn [fst] in H2. subst v2.
  pose proof (only_choice_fst (naked_twins_g (eliminate_g values)) L2) as H3.
  destruct (only_choice (naked_twins_g (eliminate_g values)) L2) as [v3 L3].
  cbn [fst] in H3. subst v3. cbv zeta.
  destruct (negb _); [reflexivity|].
  destruct (Nat.eqb _ _); [reflexivity | apply IH].
Qed.

Lemma search_fst fuel : forall values L,
  fst (search fuel values L) = search_g fuel values.
Proof.
  induction fuel as [|fuel IH]; intros values L; [reflexivity|].
  cbn [search search_g]. unfold bind.
  pose proof (reduce_puzzle_fst (S fuel) values L) as H1.
  destruct (reduce_puzzle (S fuel) values L) as [r L1]. cbn [fst] in H1. rewrite <- H1.
  destruct r as [[v| |]| |]; try reflexivity.
  destruct (negb (truthy (PyDict v))); [reflexivity|].
  destruct (forallb _ boxes); [reflexivity|].
  destruct (branch_box v) as [[n s]|]; [|reflexivity].
  generalize (Py.iter (dict_get v s)) as l. intros l. revert L1.
  induction l as [|value l IHl]; intros L1; [reflexivity|].
  cbn [try_values]. unfold bind.
  pose proof (assign_value_fst (dict_copy v) s value L1) as H2.
  destruct (assign_value (dict_copy v) s value L1) as [v1 L2]. cbn [fst] in H2. subst v1.
  pose proof (IH (dict_set (dict_copy v) s value) L2) as H3.
  destruct (search fuel (dict_set (dict_copy v) s value) L2) as [attempt L3].
  cbn [fst] in H3. rewrite <- H3.
  destruct attempt as [a| |]; try reflexivity.
  destruct (truthy a); [reflexivity | apply IHl].
Qed.

End SearchErasure.

(** ** The branching box *)

Section Branch.

Lemma index_of_lt s l : In s l -> index_of s l < List.length l.
Proof.
  induction l as [|x l IH]; simpl; [tauto|].
  intros H. destruct (String.eqb_spec s x) as [->|N]; [lia|].
  destruct H as [H|H]; [congruence|]. specialize (IH H). lia.
Qed.

Lemma index_of_inj a b l : In a l -> index_of a l = index_of b l -> a = b.
Proof.
  induction l as [|x l IH]; simpl; [tauto|].
  intros H. destruct (String.eqb_spec a x) as [->|Na], (String.eqb_spec b x) as [->|Nb];
    try congruence; try discriminate.
  intros E. apply IH; [destruct H; congruence | lia].
Qed.

Lemma ltb_boxes a b :
  In a boxes -> In b boxes ->
  String.ltb a b = Nat.ltb (index_of a boxes) (index_of b boxes).
Proof.
  assert (H : forallb (fun a => forallb (fun b =>
            Bool.eqb (String.ltb a b) (Nat.ltb (index_of a boxes) (index_of b boxes)))
            boxes) boxes = true) by (vm_compute; reflexivity).
  intros Ha Hb. rewrite forallb_forall in H. specialize (H _ Ha).
  rewrite forallb_forall in H. specialize (H _ Hb). now apply Bool.eqb_prop.
Qed.

Lemma tuple_ltb_rank a b :
  In (snd a) boxes -> In (snd b) boxes -> tuple_ltb a b = Nat.ltb (rank a) (rank b).
Proof.
  intros Ha Hb. unfold tuple_ltb, rank. rewrite (ltb_boxes _ _ Ha Hb).
  pose proof (index_of_lt _ _ Ha) as La. pose proof (index_of_lt _ _ Hb) as Lb.
  rewrite boxes_length in La, Lb.
  destruct (Nat.ltb_spec (fst a) (fst b)), (Nat.eqb_spec (fst a) (fst b)),
    (Nat.ltb_spec (index_of (snd a) boxes) (index_of (snd b) boxes)),
    (Nat.ltb_spec (fst a * 81 + index_of (snd a) boxes) (fst b * 81 + index_of (snd b) boxes));
    simpl; try reflexivity; lia.
Qed.

Lemma py_min_least l : forall x,
  (forall a, In a (x :: l) -> In (snd a) boxes) ->
  let m := fold_left (fun m y => if tuple_ltb y m then y else m) l x in
  In m (x :: l) /\ forall y, In y (x :: l) -> rank m <= rank y.
Proof.
  induction l as [|y l IH]; intros x H; cbn [fold_left].
  - split; [now left|]. intros y [<-|[]]. lia.
  - rewrite tuple_ltb_rank by (apply H; simpl; auto).
    destruct (Nat.ltb_spec (rank y) (rank x)) as [Lt|Ge].
    + destruct (IH y) as [I1 I2]; [intros a Ha; apply H; now right|].
      split; [now right|].
      intros z [<-|Hz]; [|now apply I2].
      specialize (I2 y (or_introl eq_refl)). lia.
    + destruct (IH x) as [I1 I2].
      { intros a [<-|Ha]; apply H; simpl; auto. }
      split.
      * destruct I1 as [I1|I1]; [now left | right; now right].
      * intros z [<-|[<-|Hz]].
        -- apply I2; now left.
        -- specialize (I2 x (or_introl eq_refl)). lia.
        -- apply I2; now right.
Qed.

Lemma branch_box_least values :
  (exists s, In s boxes /\ 1 < String.length (dict_get values s)) ->
  exists n s,
    branch_box values = Some (n, s)
    /\ In s boxes
    /\ n = String.length (dict_get values s)
    /\ 1 < n
    /\ forall s', In s' boxes -> 1 < String.length (dict_get values s') ->
         n < String.length (dict_get values s')
         \/ (n = String.length (dict_get values s')
             /\ (s = s' \/ (String.ltb s s' = true
                            /\ index_of s boxes < index_of s' boxes))).
Proof.
  intros (s0 & Hs0 & L0). unfold branch_box.
  set (f := fun s => (String.length (dict_get values s), s)).
  set (p := fun s => Nat.ltb 1 (String.length (dict_get values s))).
  assert (Hin : forall a, In a (map f (filter p boxes)) <->
                 exists s, a = f s /\ In s boxes /\ 1 < String.length (dict_get values s)).
  { intros a. rewrite in_map_iff. split.
    - intros (s & <- & H). apply filter_In in H. destruct H as [H1 H2].
      apply Nat.ltb_lt in H2. eauto.
    - intros (s & -> & H1 & H2). exists s. split; [reflexivity|].
      apply filter_In. split; [exact H1 | now apply Nat.ltb_lt]. }
  destruct (map f (filter p boxes)) as [|x l] eqn:E.
  - exfalso. apply (proj2 (Hin (f s0))). eauto.
  - cbn [py_min]. destruct (py_min_least l x) as [I1 I2].
    { intros a Ha. apply Hin in Ha. destruct Ha as (s & -> & H & _). exact H. }
    apply Hin in I1. destruct I1 as (s & Em & Hs & Ls).
    exists (String.length (dict_get values s)), s.
    split; [now rewrite Em|]. repeat split; auto.
    intros s' Hs' Ls'.
    assert (R : rank (f s) <= rank (f s')).
    { rewrite <- Em. apply I2, Hin. eauto. }
    unfold rank, f in R. cbn [fst snd] in R.
    pose proof (index_of_lt _ _ Hs) as B1. pose proof (index_of_lt _ _ Hs') as B2.
    rewrite boxes_length in B1, B2.
    destruct (Nat.lt_trichotomy (String.length (dict_get values s))
                                (String.length (dict_get values s'))) as [Lt|[Eq|Gt]];
      [now left | right | lia].
    split; [exact Eq|].
    destruct (Nat.eq_dec (index_of s boxes) (index_of s' boxes)) as [Ei|Ni].
    + left. eapply index_of_inj; eauto.
    + right. split; [|lia]. rewrite ltb_boxes by assumption. apply Nat.ltb_lt. lia.
Qed.

End Branch.

(** ** The loop of [reduce_puzzle] ends *)

Section Reduce.

Lemma filter_all {A} (f : A -> bool) l :
  (forall x, In x l -> f x = true) -> filter f l = l.
Proof.
  induction l as [|x l IH]; simpl; intros H; [reflexivity|].
  rewrite (H x) by now left. f_equal. apply IH. intros; apply H; now right.
Qed.

Lemma filter_length_all {A} (f : A -> bool) l :
  List.length (filter f l) = List.length l -> forall x, In x l -> f x = true.
Proof.
  induction l as [|y l IH]; simpl; intros H x Hx; [tauto|].
  pose proof (filter_length_le f l) as Le.
  destruct (f y) eqn:E; simpl in H; [|lia].
  destruct Hx as [<-|Hx]; [exact E | apply IH; [lia | exact Hx]].
Qed.

(** What [reduce_puzzle] returns when it returns a dict: the last pass
    started from [u], left no box empty and did not change the number of
    solved boxes. *)
Lemma reduce_puzzle_g_spec fuel : forall values,
  keys values = boxes -> total_len values < fuel ->
  reduce_puzzle_g fuel values = Return PyFalse
  \/ exists u,
       reduce_puzzle_g fuel values = Return (PyDict (pass_g u))
       /\ le_dict u values
       /\ boxes_of_len 0 (pass_g u) = []
       /\ List.length (boxes_of_len 1 u) = List.length (boxes_of_len 1 (pass_g u)).
Proof.
  induction fuel as [|fuel IH]; intros values Hk Hf; [lia|].
  cbn [reduce_puzzle_g]. cbv zeta.
  pose proof (pass_le values Hk) as Hle.
  destruct (Nat.eqb_spec (List.length (boxes_of_len 0 (pass_g values))) 0) as [E0|N0];
    cbn [negb]; [|now left].
  destruct (Nat.eqb_spec (List.length (boxes_of_len 1 values))
                         (List.length (boxes_of_len 1 (pass_g values)))) as [E1|N1].
  - right. exists values. split; [reflexivity|]. split; [apply le_dict_refl|].
    split; [now apply length_zero_iff_nil | exact E1].
  - assert (Hlt : total_len (pass_g values) < total_len values).
    { pose proof (total_len_le _ _ Hle).
      destruct (Nat.eq_dec (total_len (pass_g values)) (total_len values)) as [E|]; [|lia].
      apply total_len_same in E; auto. rewrite E in N1. congruence. }
    destruct (IH (pass_g values)) as [H|(u & H1 & H2 & H3 & H4)].
    + eapply le_dict_keys; eauto.
    + lia.
    + now left.
    + right. exists u. split; [exact H1|]. split; [eapply le_dict_trans; eauto|].
      split; assumption.
Qed.

End Reduce.

(** ** A grid of singletons that survives a pass is a solution *)

Section Solved.

Lemma le_dict_antisym a b :
  le_dict a b -> le_dict b a -> keys b = boxes -> a = b.
Proof.
  intros [K1 S1] [K2 S2] Hb.
  apply dict_ext; [exact K1 | rewrite K1, Hb; apply boxes_nodup|].
  intros k _. apply shrinks_same; [apply S1|].
  pose proof (shrinks_length _ _ (S1 k)). pose proof (shrinks_length _ _ (S2 k)). lia.
Qed.

Lemma fold_left_fixed {B} (step : dict -> B -> dict) l :
  (forall v b, In b l -> keys v = boxes -> le_dict (step v b) v) ->
  forall v, keys v = boxes -> fold_left step l v = v ->
  forall b, In b l -> step v b = v.
Proof.
  induction l as [|a l IH]; intros H v Hv E b Hb; [destruct Hb|].
  cbn [fold_left] in E.
  assert (Ha : le_dict (step v a) v) by (apply H; [now left | exact Hv]).
  assert (Hfix : step v a = v).
  { apply le_dict_antisym; [exact Ha | | exact Hv].
    rewrite <- E at 1. apply fold_left_le_keys with (K := boxes).
    - intros; apply H; [now right | assumption].
    - eapply le_dict_keys; eauto. }
  destruct Hb as [<-|Hb]; [exact Hfix|].
  rewrite Hfix in E. eapply IH; eauto. intros; apply H; [now right | assumption].
Qed.

Lemma single_char s : String.length s = 1 -> exists c, s = String c "".
Proof. destruct s as [|c [|d s]]; simpl; try discriminate. eauto. Qed.

Lemma eliminate_fixed values :
  keys values = boxes ->
  (forall s, In s boxes -> String.length (dict_get values s) = 1) ->
  eliminate_g values = values -> conflict_free values.
Proof.
  intros Hk Hall E box peer Hb Hp _ Heq.
  unfold eliminate_g, eliminate_in_g in E.
  assert (Hs : boxes_of_len 1 values = boxes).
  { unfold boxes_of_len. rewrite Hk. apply filter_all.
    intros x Hx. apply Nat.eqb_eq. now apply Hall. }
  rewrite Hs in E.
  assert (E1 : elim_box values box = values).
  { eapply fold_left_fixed; eauto. intros; now apply elim_box_le. }
  unfold elim_box in E1.
  assert (E2 : dict_set values peer (Py.replace (dict_get values box) (dict_get values peer))
               = values).
  { eapply (fold_left_fixed
              (fun v p => dict_set v p (Py.replace (dict_get values box) (dict_get v p))));
      eauto.
    intros v p Hp' Hv. apply le_dict_set; [|apply replace_shrinks].
    rewrite Hv. eapply peers_in_boxes; eauto. }
  apply (f_equal (fun d => dict_get d peer)) in E2.
  rewrite dict_get_set_same, Heq in E2.
  destruct (single_char _ (Hall box Hb)) as [c Hc].
  rewrite Hc, replace_char in E2. simpl in E2.
  rewrite Ascii.eqb_refl in E2. discriminate.
Qed.

Lemma count_nodup d l :
  NoDup l -> In d l -> Py.count d l = 1.
Proof.
  unfold Py.count. induction l as [|x l IH]; simpl; [tauto|].
  intros ND H. inversion ND as [|? ? Nx ND']; subst.
  destruct (String.eqb_spec d x) as [->|N]; simpl.
  - f_equal. apply length_zero_iff_nil.
    destruct (filter (String.eqb x) l) as [|y r] eqn:E; [reflexivity|].
    assert (Hy : In y (filter (String.eqb x) l)) by (rewrite E; now left).
    apply filter_In in Hy. destruct Hy as [Hy Ey]. apply String.eqb_eq in Ey.
    subst y. contradiction.
  - apply IH; [exact ND' | destruct H; congruence].
Qed.

Lemma map_nodup {A B} (f : A -> B) l :
  NoDup l -> (forall a b, In a l -> In b l -> a <> b -> f a <> f b) -> NoDup (map f l).
Proof.
  induction l as [|x l IH]; simpl; intros ND H; [constructor|].
  inversion ND as [|? ? Nx ND']; subst. constructor.
  - intros Hin. apply in_map_iff in Hin. destruct Hin as (y & E & Hy).
    apply (H y x); auto. congruence.
  - apply IH; auto.
Qed.

Lemma conflict_free_solved values :
  wf_grid values ->
  (forall s, In s boxes -> String.length (dict_get values s) = 1) ->
  conflict_free values -> solved_grid values.
Proof.
  intros [Hk Hwf] Hall Hcf.
  assert (Hdigit : forall s, In s boxes -> In (dict_get values s) (Py.iter cols)).
  { intros s Hs. destruct (single_char _ (Hall s Hs)) as [c Hc].
    apply (Hwf s). rewrite Hc. now left. }
  split; [exact Hk|]. split; [exact Hdigit|].
  intros unit Hu d Hd.
  assert (ND : NoDup (map (dict_get values) unit)).
  { apply map_nodup; [now apply unit_nodup|].
    intros a b Ha Hb N E. apply (Hcf a b).
    - eapply unit_in_boxes; eauto.
    - eapply unit_peers; eauto.
    - apply Hall. eapply unit_in_boxes; eauto.
    - congruence. }
  apply count_nodup; [exact ND|].
  assert (Hincl : incl (Py.iter cols) (map (dict_get values) unit)); [|now apply Hincl].
  apply NoDup_length_incl; [exact ND | |].
  - rewrite length_map, (unit_length _ Hu). reflexivity.
  - intros x Hx. apply in_map_iff in Hx. destruct Hx as (s & <- & Hs).
    apply Hdigit. eapply unit_in_boxes; eauto.
Qed.

Lemma singles_fixed u e v :
  keys u = boxes -> le_dict e u -> le_dict v e ->
  List.length (boxes_of_len 1 u) = List.length (boxes_of_len 1 v) ->
  (forall s, In s boxes -> String.length (dict_get v s) = 1) ->
  e = u /\ v = u.
Proof.
  intros Hk H1 H2 Hcount Hall.
  pose proof (le_dict_keys _ _ H1 Hk) as K1.
  pose proof (le_dict_keys _ _ H2 K1) as K2.
  assert (Hu : forall s, In s boxes -> String.length (dict_get u s) = 1).
  { intros s Hs. apply Nat.eqb_eq.
    apply (filter_length_all (fun box => Nat.eqb (String.length (dict_get u box)) 1) (keys u));
      [|now rewrite Hk].
    fold (boxes_of_len 1 u). rewrite Hcount. unfold boxes_of_len. rewrite K2, Hk.
    f_equal. apply filter_all. intros x Hx. apply Nat.eqb_eq. now apply Hall. }
  assert (He : e = u).
  { apply dict_ext; [apply H1 | rewrite K1; apply boxes_nodup|].
    intros k Hin. rewrite K1 in Hin. apply shrinks_same; [apply H1|].
    pose proof (shrinks_length _ _ (proj2 H1 k)).
    pose proof (shrinks_length _ _ (proj2 H2 k)).
    specialize (Hall k Hin). specialize (Hu k Hin). lia. }
  split; [exact He|]. subst e.
  apply dict_ext; [apply H2 | rewrite K2; apply boxes_nodup|].
  intros k Hin. rewrite K2 in Hin. apply shrinks_same; [apply H2|].
  rewrite Hall, Hu; auto.
Qed.

Lemma pass_solved u :
  wf_grid u ->
  List.length (boxes_of_len 1 u) = List.length (boxes_of_len 1 (pass_g u)) ->
  (forall s, In s boxes -> String.length (dict_get (pass_g u) s) = 1) ->
  solved_grid (pass_g u).
Proof.
  intros Hwf Hcount Hall. pose proof Hwf as [Hk _].
  pose proof (eliminate_le u Hk) as H1.
  pose proof (le_dict_keys _ _ H1 Hk) as K1.
  pose proof (naked_twins_le _ K1) as H2.
  pose proof (le_dict_keys _ _ H2 K1) as K2.
  pose proof (only_choice_le _ K2) as H3.
  assert (Hle : le_dict (pass_g u) (eliminate_g u)).
  { unfold pass_g. eapply le_dict_trans; eauto. }
  destruct (singles_fixed u (eliminate_g u) (pass_g u) Hk H1 Hle Hcount Hall) as [He Hp].
  rewrite Hp. apply conflict_free_solved; auto.
  - intros s Hs. rewrite <- Hp. now apply Hall.
  - apply eliminate_fixed; auto.
    intros s Hs. rewrite <- Hp. now apply Hall.
Qed.

End Solved.

(** ** Parsing *)

Section Parse.

Lemma grid_chars_acc l : forall acc,
  fold_left (fun chars c =>
    let chars := if Py.contains c cols then chars ++ [c] else chars in
    if String.eqb c "." then chars ++ [cols] else chars) l acc
  = acc ++ flat_map (fun c => (if Py.contains c cols then [c] else [])
                              ++ (if String.eqb c "." then [cols] else [])) l.
Proof.
  induction l as [|c l IH]; intros acc; cbn [fold_left flat_map].
  - now rewrite app_nil_r.
  - rewrite IH. cbv zeta.
    destruct (Py.contains c cols), (String.eqb c "."); cbn [app];
      rewrite <- ?app_assoc; reflexivity.
Qed.

Lemma grid_values_unfold grid :
  grid_values grid =
  if Nat.eqb (List.length (grid_chars grid)) 81
  then Some (dict_of (combine boxes (grid_chars grid))) else None.
Proof. reflexivity. Qed.

Lemma contains_dot : Py.contains "." cols = false.
Proof. reflexivity. Qed.

Lemma grid_chars_length grid :
  List.length (grid_chars grid) = List.length (filter grid_char (Py.iter grid)).
Proof.
  unfold grid_chars. rewrite grid_chars_acc. cbn [app].
  induction (Py.iter grid) as [|c l IH]; [reflexivity|].
  cbn [flat_map filter]. rewrite length_app, IH. unfold grid_char.
  destruct (String.eqb_spec c ".") as [->|N].
  - rewrite contains_dot. reflexivity.
  - destruct (Py.contains c cols); reflexivity.
Qed.

Lemma grid_chars_digits grid x :
  In x (grid_chars grid) ->
  incl (Py.iter x) (Py.iter cols) /\ String.length x <= 9.
Proof.
  unfold grid_chars. rewrite grid_chars_acc. cbn [app].
  intros H. apply in_flat_map in H. destruct H as (c & Hc & H).
  destruct (iter_char _ _ Hc) as [a ->].
  apply in_app_or in H. destruct H as [H|H].
  - destruct (Py.contains (String a "") cols) eqn:E; [|destruct H].
    destruct H as [<-|[]]. split; [|simpl; lia].
    intros y [<-|[]]. now apply contains_char.
  - destruct (String.eqb (String a "") "."); [|destruct H].
    destruct H as [<-|[]]. split; [apply incl_refl | apply Nat.le_refl].
Qed.

Lemma grid_values_wf grid values :
  grid_values grid = Some values -> wf_grid values /\ total_len values <= 729.
Proof.
  rewrite grid_values_unfold.
  destruct (Nat.eqb_spec (List.length (grid_chars grid)) 81) as [E|]; [|discriminate].
  assert (K : keys (combine boxes (grid_chars grid)) = boxes)
    by (apply keys_combine; now rewrite boxes_length).
  rewrite dict_of_nodup by (rewrite K; apply boxes_nodup).
  remember (combine boxes (grid_chars grid)) as d eqn:Ed.
  intros H. injection H as <-. subst d.
  assert (V : forall k, incl (Py.iter (dict_get (combine boxes (grid_chars grid)) k))
                             (Py.iter cols)
                        /\ String.length (dict_get (combine boxes (grid_chars grid)) k) <= 9).
  { intros k. destruct (dict_get_in (combine boxes (grid_chars grid)) k) as [->|Hin].
    - split; [intros x [] | simpl; lia].
    - apply grid_chars_digits with (grid := grid).
      apply in_map_iff in Hin. destruct Hin as ([k' v] & Ev & Hin).
      apply in_combine_r in Hin. simpl in Ev. now subst. }
  split; [split; [exact K | intros k; apply V]|].
  unfold total_len.
  change 729 with (list_sum (map (fun _ : string => 9) boxes)).
  apply list_sum_le. intros; apply V.
Qed.

End Parse.

(** ** [search] returns a solution or reports that there is none *)

Section SearchSound.

Lemma try_values_ok rec values s l :
  (forall value, In value l -> search_ok (rec (dict_set (dict_copy values) s value))) ->
  search_ok (try_values rec values s l).
Proof.
  induction l as [|value l IH]; intros H; cbn [try_values]; [exact I|].
  pose proof (H value (or_introl eq_refl)) as Hv.
  destruct (rec (dict_set (dict_copy values) s value)) as [a| |]; try contradiction.
  destruct (truthy a); [exact Hv|].
  apply IH. intros; apply H; now right.
Qed.

Lemma keys_length (d : dict) : List.length d = List.length (keys d).
Proof. unfold keys. now rewrite length_map. Qed.

Lemma no_empty_box values s :
  boxes_of_len 0 values = [] -> In s (keys values) ->
  String.length (dict_get values s) <> 0.
Proof.
  intros H Hs E. assert (Hin : In s (boxes_of_len 0 values)).
  { apply filter_In. split; [exact Hs | now apply Nat.eqb_eq]. }
  rewrite H in Hin. destruct Hin.
Qed.

Lemma search_g_ok fuel : forall values,
  wf_grid values -> total_len values < fuel -> search_ok (search_g fuel values).
Proof.
  induction fuel as [|fuel IH]; intros values Hwf Hf; [lia|].
  pose proof Hwf as [Hk _].
  cbn [search_g].
  destruct (reduce_puzzle_g_spec (S fuel) values Hk Hf) as [E|(u & E & Hle & H0 & Hc)];
    rewrite E; [exact I|].
  pose proof (le_dict_wf _ _ Hle Hwf) as Hwu.
  pose proof Hwu as [Hku _].
  pose proof (pass_le u Hku) as Hlp.
  pose proof (le_dict_wf _ _ Hlp Hwu) as Hwp.
  pose proof (total_len_le _ _ Hle) as T1.
  pose proof (total_len_le _ _ Hlp) as T2.
  pose proof (pass_solved u Hwu Hc) as Hsolved.
  revert Hwp T2 H0 Hsolved. generalize (pass_g u) as v. clear E Hc Hlp.
  intros v Hwv T2 H0 Hsolved. pose proof Hwv as [Hkv _].
  assert (Ht : truthy (PyDict v) = true).
  { cbn [truthy]. rewrite keys_length, Hkv. reflexivity. }
  rewrite Ht. cbn [negb].
  destruct (forallb (fun s => Nat.eqb (String.length (dict_get v s)) 1) boxes) eqn:Eall.
  - cbn [search_ok]. apply Hsolved. intros s Hs.
    rewrite forallb_forall in Eall. now apply Nat.eqb_eq, Eall.
  - assert (Hex : exists s, In s boxes /\ 1 < String.length (dict_get v s)).
    { destruct (forallb_forall (fun s => Nat.eqb (String.length (dict_get v s)) 1) boxes)
        as [_ Hb].
      destruct (existsb (fun s => negb (Nat.eqb (String.length (dict_get v s)) 1)) boxes)
        eqn:Ex.
      - apply existsb_exists in Ex. destruct Ex as (s & Hs & Hn).
        exists s. split; [exact Hs|].
        apply negb_true_iff, Nat.eqb_neq in Hn.
        pose proof (no_empty_box v s H0). rewrite Hkv in H. specialize (H Hs). lia.
      - rewrite Hb in Eall; [discriminate|]. intros s Hs.
        destruct (Nat.eqb (String.length (dict_get v s)) 1) eqn:E1; [reflexivity|].
        assert (existsb (fun s => negb (Nat.eqb (String.length (dict_get v s)) 1)) boxes
                = true); [|congruence].
        apply existsb_exists. exists s. split; [exact Hs | now rewrite E1]. }
    destruct (branch_box_least v Hex) as (n & s & Eb & Hs & Hn & Ln & _).
    rewrite Eb. apply try_values_ok. intros value Hval. unfold dict_copy.
    destruct (iter_char _ _ Hval) as [c ->].
    assert (Hnew : le_dict (dict_set v s (String c "")) v).
    { apply le_dict_set; [now rewrite Hkv | now apply char_shrinks]. }
    apply IH; [eapply le_dict_wf; eauto|].
    pose proof (total_len_le _ _ Hnew) as T3.
    destruct (Nat.eq_dec (total_len (dict_set v s (String c ""))) (total_len v)) as [Eq|]; [|lia].
    apply total_len_same in Eq; auto.
    apply (f_equal (fun d => String.length (dict_get d s))) in Eq.
    rewrite dict_get_set_same in Eq. simpl in Eq. lia.
Qed.

End SearchSound.

(** * The claims *)

(** ** The example inputs parse to the example dicts *)

Lemma diag_values_parsed : grid_values diag_sudoku_grid = Some diag_values.
Proof. vm_compute. reflexivity. Qed.

Lemma clash_values_parsed : grid_values clash_grid = Some clash_values.
Proof. vm_compute. reflexivity. Qed.

Lemma solved_values_parsed : grid_values solved_input = Some solved_values.
Proof. vm_compute. reflexivity. Qed.

(** ** C1: what [solve] returns *)

Lemma solve_fst fuel grid L :
  fst (solve fuel grid L) =
  match grid_values grid with
  | None => Raise AssertionError
  | Some values => search_g fuel values
  end.
Proof.
  unfold solve. destruct (grid_values grid); [apply search_fst | reflexivity].
Qed.

(** C1.  For every input string and every fuel of at least 730 (81 boxes of
    at most 9 candidates, plus one), [solve] runs to its end and returns
    either a dict over the 81 boxes in which every box holds one digit and
    each of the 29 units holds each digit 1-9 exactly once, or [False] or
    [None]; it raises only the [AssertionError] of [grid_values], on an
    input that does not parse, and never returns a dict that is partly
    filled or breaks a unit. *)
Theorem solve_solution_or_unsat (grid : string) (fuel : nat) (L : list dict) :
  730 <= fuel -> solve_ok grid (fst (solve fuel grid L)).
Proof.
  intros Hf. rewrite solve_fst. unfold solve_ok.
  destruct (grid_values grid) as [values|] eqn:E; [|reflexivity].
  destruct (grid_values_wf _ _ E) as [Hwf Ht].
  pose proof (search_g_ok fuel values Hwf) as H.
  assert (Hlt : total_len values < fuel) by lia. specialize (H Hlt).
  destruct (search_g fuel values) as [[v| |]| |]; cbn [search_ok] in H;
    try exact H; try contradiction; discriminate.
Qed.

Lemma solve_solution_or_unsat_witness :
  730 <= 730 /\ solve_ok docstring_grid (fst (solve 730 docstring_grid [])).
Proof.
  split; [apply Nat.le_refl|].
  apply (solve_solution_or_unsat docstring_grid 730 []). apply Nat.le_refl.
Defined.

(** The docstring's grid solves to the grid spelled by [solved_input]. *)
Example solve_docstring_grid :
  match fst (solve 730 docstring_grid []) with
  | Return (PyDict values) => spell values
  | _ => ""
  end = solved_input.
Proof. vm_compute. reflexivity. Qed.

(** ** C2: what [grid_values] rejects *)

Lemma filter_length_lt {A} (f : A -> bool) l x :
  In x l -> f x = false -> List.length (filter f l) < List.length l.
Proof.
  induction l as [|y l IH]; simpl; [tauto|].
  intros [->|H] E.
  - rewrite E. pose proof (filter_length_le f l). lia.
  - specialize (IH H E). destruct (f y); simpl; lia.
Qed.

(** C2, as amended.  [grid_values] fails its assertion exactly when the
    number of characters of the input that are digits 1-9 or '.' is not 81;
    other characters are skipped, not rejected.  So every input shorter than
    81 characters fails, and every input of 81 characters with a foreign
    character fails; when parsing fails [solve] raises before any
    propagation, with [assignments] untouched. *)
Theorem grid_values_rejects (grid : string) :
  (grid_values grid = None <->
   List.length (filter grid_char (Py.iter grid)) <> 81)
  /\ (String.length grid < 81 -> grid_values grid = None)
  /\ (String.length grid = 81 ->
      (exists c, In c (Py.iter grid) /\ grid_char c = false) ->
      grid_values grid = None)
  /\ (grid_values grid = None ->
      forall fuel L, solve fuel grid L = (Raise AssertionError, L)).
Proof.
  assert (Hiff : grid_values grid = None <->
                 List.length (filter grid_char (Py.iter grid)) <> 81).
  { rewrite grid_values_unfold, grid_chars_length.
    destruct (Nat.eqb_spec (List.length (filter grid_char (Py.iter grid))) 81);
      split; intros; try discriminate; try contradiction; auto. }
  split; [exact Hiff|]. split; [|split].
  - intros Hlen. apply Hiff.
    pose proof (filter_length_le grid_char (Py.iter grid)) as Le.
    rewrite iter_length in Le. lia.
  - intros Hlen (c & Hc & Hbad). apply Hiff.
    pose proof (filter_length_lt grid_char _ _ Hc Hbad) as Lt.
    rewrite iter_length in Lt. lia.
  - intros E fuel L. unfold solve. now rewrite E.
Qed.

(** C2 as stated fails: an input of 82 characters, one of them 'X', parses
    to the same dict as the 81 dots it contains. *)
Lemma grid_values_skips_foreign :
  String.length padded_grid = 82
  /\ In "X" (Py.iter padded_grid)
  /\ grid_char "X" = false
  /\ grid_values padded_grid = grid_values blank_grid
  /\ grid_values padded_grid <> None.
Proof.
  assert (E : grid_values padded_grid = grid_values blank_grid)
    by (vm_compute; reflexivity).
  split; [reflexivity|]. split; [vm_compute; tauto|]. split; [reflexivity|].
  split; [exact E|]. rewrite E. vm_compute. discriminate.
Qed.

(** ** C9: the units of a box *)

(** C9, as amended.  A box lies in its row, its column, its square and the
    diagonals through it: [units] has 3 entries for the 64 boxes off both
    diagonals, 4 for the 16 boxes on one diagonal, and 5 for E5. *)
Theorem units_count :
  (forall s, In s boxes -> List.length (units s) = 3 + diag_count s)
  /\ List.length (filter (fun s => Nat.eqb (diag_count s) 0) boxes) = 64
  /\ List.length (filter (fun s => Nat.eqb (diag_count s) 1) boxes) = 16
  /\ filter (fun s => Nat.eqb (diag_count s) 2) boxes = ["E5"].
Proof.
  split; [|split; [|split]; vm_compute; reflexivity].
  assert (H : forallb (fun s => Nat.eqb (List.length (units s)) (3 + diag_count s)) boxes
              = true) by (vm_compute; reflexivity).
  intros s Hs. rewrite forallb_forall in H. now apply Nat.eqb_eq, H.
Qed.

(** C9 as stated fails at A2, which lies on no diagonal. *)
Lemma units_A2 :
  In "A2" boxes /\ List.length (units "A2") = 3 /\ List.length (units "A2") <> 4.
Proof.
  split; [vm_compute; tauto|]. split; [reflexivity | vm_compute; discriminate].
Qed.

(** ** C10: [assignments] is never cleared *)

(** C10.  Every call of [assign_value] only appends to [assignments], and
    so does a whole run of [solve]: run after a first call, a second call
    leaves the events of the first in place and appends its own after
    them, the same events it would append to an empty list. *)
Theorem assignments_accumulate (fuel1 fuel2 : nat) (grid1 grid2 : string)
    (L : list dict) :
  (forall values box value,
      exists ev, snd (assign_value values box value L) = L ++ ev)
  /\ snd (solve fuel1 grid1 L) = L ++ snd (solve fuel1 grid1 [])
  /\ snd (solve fuel2 grid2 (snd (solve fuel1 grid1 L)))
     = L ++ snd (solve fuel1 grid1 []) ++ snd (solve fuel2 grid2 []).
Proof.
  split; [|split].
  - intros values box value. rewrite (appends_assign_value values box value L).
    eexists; reflexivity.
  - now rewrite (appends_solve fuel1 grid1 L).
  - rewrite (appends_solve fuel2 grid2 (snd (solve fuel1 grid1 L))).
    rewrite (appends_solve fuel1 grid1 L). cbn [snd]. now rewrite app_assoc.
Qed.

(** ** C5: [assign_value] writes in place *)

Section Objects.

Lemma write_length l r d : List.length (Obj.write l r d) = List.length l.
Proof.
  revert r. induction l as [|x l IH]; intros [|r]; simpl; auto.
Qed.

Lemma nth_write_same l r d :
  r < List.length l -> nth r (Obj.write l r d) [] = d.
Proof.
  revert r. induction l as [|x l IH]; intros [|r]; simpl; try lia; auto.
  intros H. apply IH. lia.
Qed.

Lemma nth_write_other l r r' d :
  r <> r' -> nth r' (Obj.write l r d) [] = nth r' l [].
Proof.
  revert r r'. induction l as [|x l IH]; intros [|r] [|r'] N; simpl; auto; try lia.
Qed.

(** The effect of [Obj.assign_value] on the store and on [assignments]. *)
Lemma obj_assign_value_eq st values box value :
  Obj.assign_value st values box value =
  let d := dict_set (Obj.deref st values) box value in
  let store' := Obj.write (Obj.store st) values d in
  if Nat.eqb (String.length value) 1
  then (Obj.mkState (store' ++ [nth values store' []])
                    (Obj.assignments st ++ [List.length store']), values)
  else (Obj.mkState store' (Obj.assignments st), values).
Proof.
  unfold Obj.assign_value, Obj.copy, Obj.append, Obj.setitem, Obj.deref. simpl.
  destruct (Nat.eqb _ _); reflexivity.
Qed.

(** The object-level function does to the dict behind the reference, and
    to the dicts behind [assignments], what the value-level [assign_value]
    does to the dict and to the list of snapshots. *)
Lemma obj_assign_value_refines st values box value :
  values < List.length (Obj.store st) ->
  (forall r, In r (Obj.assignments st) -> r < List.length (Obj.store st) /\ r <> values) ->
  let st' := fst (Obj.assign_value st values box value) in
  (Obj.deref st' values, map (Obj.deref st') (Obj.assignments st'))
  = assign_value (Obj.deref st values) box value
                 (map (Obj.deref st) (Obj.assignments st)).
Proof.
  intros Hv Hlog. rewrite obj_assign_value_eq. cbv zeta.
  unfold assign_value, dict_copy, Obj.deref.
  set (d := dict_set (nth values (Obj.store st) []) box value).
  assert (Hold : forall sfx,
    map (fun r => nth r (Obj.write (Obj.store st) values d ++ sfx) [])
        (Obj.assignments st)
    = map (fun r => nth r (Obj.store st) []) (Obj.assignments st)).
  { intros sfx. apply map_ext_in. intros r Hr. destruct (Hlog r Hr) as [Lr Nr].
    rewrite app_nth1 by now rewrite write_length.
    rewrite nth_write_other by auto. reflexivity. }
  destruct (Nat.eqb (String.length value) 1); cbn [fst Obj.store Obj.assignments].
  - rewrite map_app. cbn [map].
    rewrite nth_middle.
    rewrite app_nth1 by (rewrite write_length; exact Hv).
    rewrite nth_write_same by exact Hv.
    f_equal. f_equal. apply Hold.
  - rewrite nth_write_same by exact Hv.
    specialize (Hold []). rewrite app_nil_r in Hold. f_equal. exact Hold.
Qed.

End Objects.

(** C5, as amended.  [assign_value] stores [value] under [box] in the dict
    it is given and returns that same dict, not a new one: after the call
    the caller's dict holds [value] at [box] and its other boxes as before,
    no other dict has changed, and when [value] has one character a fresh
    copy of the updated dict has been appended to [assignments]. *)
Theorem assign_value_in_place (st : Obj.state) (values : Obj.ref)
    (box value : string) :
  values < List.length (Obj.store st) ->
  let st' := fst (Obj.assign_value st values box value) in
  snd (Obj.assign_value st values box value) = values
  /\ Obj.deref st' values = dict_set (Obj.deref st values) box value
  /\ dict_get (Obj.deref st' values) box = value
  /\ (forall box', box' <> box ->
        dict_get (Obj.deref st' values) box' = dict_get (Obj.deref st values) box')
  /\ (forall r, r < List.length (Obj.store st) -> r <> values ->
        Obj.deref st' r = Obj.deref st r)
  /\ (String.length value = 1 ->
        Obj.assignments st' = Obj.assignments st ++ [List.length (Obj.store st)]
        /\ Obj.deref st' (List.length (Obj.store st))
           = dict_set (Obj.deref st values) box value)
  /\ (String.length value <> 1 -> Obj.assignments st' = Obj.assignments st).
Proof.
  intros Hv. rewrite obj_assign_value_eq. cbv zeta. unfold Obj.deref.
  set (d := dict_set (nth values (Obj.store st) []) box value).
  assert (Hsame : forall sfx, nth values (Obj.write (Obj.store st) values d ++ sfx) [] = d).
  { intros sfx. rewrite app_nth1 by (rewrite write_length; exact Hv).
    now apply nth_write_same. }
  assert (Hother : forall sfx r, r < List.length (Obj.store st) -> r <> values ->
            nth r (Obj.write (Obj.store st) values d ++ sfx) [] = nth r (Obj.store st) []).
  { intros sfx r Hr Nr. rewrite app_nth1 by (rewrite write_length; exact Hr).
    apply nth_write_other. auto. }
  destruct (Nat.eqb_spec (String.length value) 1) as [E|N];
    cbn [fst snd Obj.store Obj.assignments].
  - split; [reflexivity|]. split; [apply Hsame|]. rewrite Hsame.
    split; [apply dict_get_set_same|].
    split; [intros box' Nb; apply dict_get_set_other; auto|].
    split; [apply Hother|]. split; [|intros; contradiction].
    intros _. rewrite write_length. split; [reflexivity|].
    rewrite <- (write_length (Obj.store st) values d) at 1.
    rewrite nth_middle. specialize (Hsame []). now rewrite app_nil_r in Hsame.
  - specialize (Hsame []). rewrite app_nil_r in Hsame.
    split; [reflexivity|]. split; [exact Hsame|]. rewrite Hsame.
    split; [apply dict_get_set_same|].
    split; [intros box' Nb; apply dict_get_set_other; auto|].
    split; [|split; [intros; contradiction | reflexivity]].
    intros r Hr Nr. specialize (Hother [] r Hr Nr). now rewrite app_nil_r in Hother.
Qed.

Lemma assign_value_in_place_witness :
  0 < List.length (Obj.store example_state)
  /\ let st' := fst (Obj.assign_value example_state 0 "A2" "6") in
     snd (Obj.assign_value example_state 0 "A2" "6") = 0
     /\ Obj.deref st' 0 = dict_set (Obj.deref example_state 0) "A2" "6"
     /\ dict_get (Obj.deref st' 0) "A2" = "6"
     /\ (forall box', box' <> "A2" ->
           dict_get (Obj.deref st' 0) box' = dict_get (Obj.deref example_state 0) box')
     /\ (forall r, r < List.length (Obj.store example_state) -> r <> 0 ->
           Obj.deref st' r = Obj.deref example_state r)
     /\ (String.length "6" = 1 ->
           Obj.assignments st'
           = Obj.assignments example_state ++ [List.length (Obj.store example_state)]
           /\ Obj.deref st' (List.length (Obj.store example_state))
              = dict_set (Obj.deref example_state 0) "A2" "6")
     /\ (String.length "6" <> 1 -> Obj.assignments st' = Obj.assignments example_state).
Proof.
  assert (H : 0 < List.length (Obj.store example_state)) by (simpl; lia).
  split; [exact H | apply (assign_value_in_place example_state 0 "A2" "6" H)].
Defined.

(** C5 as stated fails: the dict returned is the dict passed in, and the
    caller's dict is no longer what it was ("A2" went from "123456789" to
    "6"). *)
Lemma assign_value_aliases :
  snd (Obj.assign_value example_state 0 "A2" "6") = 0
  /\ dict_get (Obj.deref example_state 0) "A2" = "123456789"
  /\ dict_get (Obj.deref (fst (Obj.assign_value example_state 0 "A2" "6")) 0) "A2" = "6"
  /\ Obj.deref (fst (Obj.assign_value example_state 0 "A2" "6")) 0
     <> Obj.deref example_state 0.
Proof.
  split; [reflexivity|]. split; [vm_compute; reflexivity|].
  split; [vm_compute; reflexivity|]. vm_compute. discriminate.
Qed.

(** ** C8: the order in which [eliminate] visits the solved boxes *)

Section Confluence.

Lemma fold_pointwise_get (step : dict -> string -> dict) (F : string -> string) l :
  (forall v p k, dict_get (step v p) k
                 = if String.eqb p k then F (dict_get v p) else dict_get v k) ->
  NoDup l ->
  forall w k, dict_get (fold_left step l w) k
              = if Py.mem k l then F (dict_get w k) else dict_get w k.
Proof.
  intros Hstep. induction l as [|p l IH]; intros ND w k; cbn [fold_left]; [reflexivity|].
  inversion ND as [|? ? Np ND']; subst.
  rewrite IH by exact ND'. rewrite !Hstep.
  unfold Py.mem. cbn [existsb]. fold (Py.mem k l).
  destruct (String.eqb_spec p k) as [->|N].
  - rewrite String.eqb_refl. cbn [orb].
    destruct (Py.mem k l) eqn:E; [|reflexivity].
    apply mem_In in E. contradiction.
  - destruct (String.eqb_spec k p) as [->|_]; [congruence|]. reflexivity.
Qed.

Lemma elim_box_get values box k :
  dict_get (elim_box values box) k
  = if Py.mem k (peers box)
    then Py.replace (dict_get values box) (dict_get values k)
    else dict_get values k.
Proof.
  unfold elim_box.
  apply (fold_pointwise_get
           (fun v p => dict_set v p (Py.replace (dict_get values box) (dict_get v p)))
           (Py.replace (dict_get values box))).
  - intros v p k'. apply dict_get_set.
  - apply peers_nodup.
Qed.

Lemma existsb_perm {A} (f : A -> bool) l l' :
  Permutation l l' -> existsb f l = existsb f l'.
Proof.
  induction 1; simpl; try congruence.
  - destruct (f x), (f y); reflexivity.
Qed.

(** The dict that the inner loop of [eliminate] leaves does not depend on
    the order in which the set [peers[box]] is iterated. *)
Lemma elim_box_peer_order values box ps :
  keys values = boxes -> In box boxes -> Permutation ps (peers box) ->
  fold_left (fun v peer =>
               dict_set v peer (Py.replace (dict_get values box) (dict_get v peer)))
            ps values
  = elim_box values box.
Proof.
  intros Hk Hb Hp.
  assert (Hle : le_dict
            (fold_left (fun v peer =>
               dict_set v peer (Py.replace (dict_get values box) (dict_get v peer)))
               ps values) values).
  { apply fold_left_le_keys with (K := boxes); [|exact Hk].
    intros v p Hin Hv. apply le_dict_set; [|apply replace_shrinks].
    rewrite Hv. eapply peers_in_boxes; eauto. eapply Permutation_in; eauto. }
  pose proof (elim_box_le values box Hk Hb) as Hle'.
  apply dict_ext.
  - destruct Hle, Hle'. congruence.
  - destruct Hle as [K _]. rewrite K, Hk. apply boxes_nodup.
  - intros k _. rewrite elim_box_get.
    rewrite (fold_pointwise_get
               (fun v p => dict_set v p (Py.replace (dict_get values box) (dict_get v p)))
               (Py.replace (dict_get values box))).
    + unfold Py.mem. now rewrite (existsb_perm _ _ _ Hp).
    + intros v p k'. apply dict_get_set.
    + eapply Permutation_NoDup; [apply Permutation_sym; exact Hp | apply peers_nodup].
Qed.

Lemma eliminate_in_closed values : forall order w,
  conflict_free values ->
  (forall b, In b order -> In b boxes /\ String.length (dict_get values b) = 1) ->
  (forall b, In b boxes -> String.length (dict_get values b) = 1 ->
             dict_get w b = dict_get values b) ->
  forall k, dict_get (eliminate_in_g order w) k
            = sfilter (fun c => negb (hit values order k c)) (dict_get w k).
Proof.
  intros order. induction order as [|b order IH]; intros w Hcf Hord Hinv k.
  - cbn. symmetry. now apply sfilter_all.
  - unfold eliminate_in_g. cbn [fold_left]. fold (eliminate_in_g order (elim_box w b)).
    destruct (Hord b (or_introl eq_refl)) as [Hb Lb].
    destruct (single_char _ Lb) as [cb Ecb].
    assert (Hwb : dict_get w b = String cb "") by (rewrite Hinv; auto).
    rewrite IH; auto.
    + rewrite elim_box_get, Hwb. unfold hit. cbn [existsb]. rewrite Ecb.
      destruct (Py.mem k (peers b)) eqn:Em; cbn [andb orb].
      * rewrite replace_char, sfilter_sfilter. apply sfilter_ext.
        intros c _. rewrite negb_orb. f_equal.
        cbn [String.eqb]. destruct (Ascii.eqb_spec c cb) as [->|N].
        -- now rewrite Ascii.eqb_refl.
        -- destruct (Ascii.eqb_spec cb c); [congruence | reflexivity].
      * reflexivity.
    + intros b' Hb'. apply Hord. now right.
    + intros b' Hb' Lb'. rewrite elim_box_get, Hwb.
      destruct (Py.mem b' (peers b)) eqn:Em; [|auto].
      apply mem_In in Em. rewrite (Hinv b' Hb' Lb').
      destruct (single_char _ Lb') as [c' Ec']. rewrite Ec', replace_char. cbn.
      destruct (Ascii.eqb_spec c' cb) as [->|N]; [|reflexivity].
      exfalso. apply (Hcf b b' Hb Em Lb). congruence.
Qed.

End Confluence.

(** C8, as amended.  On a grid in which no solved box has a peer holding
    the same digit, [eliminate] yields the same dict whatever the order in
    which its loop visits the solved boxes. *)
Theorem eliminate_order_irrelevant (values : dict) (order : list string)
    (L : list dict) :
  keys values = boxes ->
  conflict_free values ->
  Permutation order (boxes_of_len 1 values) ->
  fst (eliminate_in order values L) = fst (eliminate values L).
Proof.
  intros Hk Hcf Hperm. rewrite eliminate_in_fst, eliminate_fst. unfold eliminate_g.
  assert (Hsolved : forall l, Permutation l (boxes_of_len 1 values) ->
            forall b, In b l -> In b boxes /\ String.length (dict_get values b) = 1).
  { intros l Hl b Hb. apply (Permutation_in _ Hl) in Hb.
    apply filter_In in Hb. destruct Hb as [H1 H2].
    rewrite Hk in H1. split; [exact H1 | now apply Nat.eqb_eq]. }
  assert (Hincl : forall l, Permutation l (boxes_of_len 1 values) -> incl l boxes).
  { intros l Hl b Hb. now apply (Hsolved l Hl). }
  pose proof (eliminate_in_le order values Hk (Hincl _ Hperm)) as [K1 _].
  pose proof (eliminate_in_le (boxes_of_len 1 values) values Hk
                (Hincl _ (Permutation_refl _))) as [K2 _].
  apply dict_ext; [congruence | rewrite K1, Hk; apply boxes_nodup|].
  intros k _.
  rewrite (eliminate_in_closed values order values Hcf (Hsolved _ Hperm) (fun _ _ _ => eq_refl)).
  rewrite (eliminate_in_closed values _ values Hcf (Hsolved _ (Permutation_refl _))
             (fun _ _ _ => eq_refl)).
  apply sfilter_ext. intros c _. f_equal. unfold hit. now apply existsb_perm.
Qed.

Lemma eliminate_order_irrelevant_witness :
  keys diag_values = boxes
  /\ Permutation (rev (boxes_of_len 1 diag_values))
                 (boxes_of_len 1 diag_values)
  /\ fst (eliminate_in (rev (boxes_of_len 1 diag_values))
                       diag_values [])
     = fst (eliminate diag_values []).
Proof.
  assert (Hk : keys diag_values = boxes) by (vm_compute; reflexivity).
  assert (Hp : Permutation (rev (boxes_of_len 1 diag_values))
                           (boxes_of_len 1 diag_values))
    by (apply Permutation_sym, Permutation_rev).
  split; [exact Hk|]. split; [exact Hp|].
  apply (eliminate_order_irrelevant diag_values _ [] Hk); [|exact Hp].
  intros box peer Hb Hp' Hl.
  assert (H : forallb (fun b => forallb (fun p =>
             negb (Nat.eqb (String.length (dict_get diag_values b)) 1)
             || negb (String.eqb (dict_get diag_values p)
                                 (dict_get diag_values b)))
             (peers b)) boxes = true) by (vm_compute; reflexivity).
  rewrite forallb_forall in H. specialize (H _ Hb).
  rewrite forallb_forall in H. specialize (H _ Hp').
  rewrite Hl in H. cbn in H. apply negb_true_iff in H. now apply String.eqb_neq.
Defined.

(** C8 as stated fails: with the clue 5 in both A1 and A2, visiting A1
    first empties A2 and keeps A1, visiting A2 first empties A1. *)
Lemma eliminate_order_matters :
  keys clash_values = boxes
  /\ boxes_of_len 1 clash_values = ["A1"; "A2"]
  /\ Permutation ["A2"; "A1"] (boxes_of_len 1 clash_values)
  /\ dict_get (fst (eliminate clash_values [])) "A1" = "5"
  /\ dict_get (fst (eliminate_in ["A2"; "A1"] clash_values [])) "A1" = ""
  /\ fst (eliminate_in ["A2"; "A1"] clash_values [])
     <> fst (eliminate clash_values []).
Proof.
  assert (E : boxes_of_len 1 clash_values = ["A1"; "A2"]) by (vm_compute; reflexivity).
  split; [vm_compute; reflexivity|]. split; [exact E|].
  split; [rewrite E; apply perm_swap|].
  split; [vm_compute; reflexivity|]. split; [vm_compute; reflexivity|].
  vm_compute. discriminate.
Qed.

(** ** C3: what [naked_twins] does to a unit *)

Section Twins.

Lemma twin_box_get numbers number v p k :
  dict_get (twin_box numbers number v p) k
  = if String.eqb p k
    then (if String.eqb (dict_get v p) numbers then dict_get v p
          else Py.replace number (dict_get v p))
    else dict_get v k.
Proof.
  unfold twin_box. destruct (String.eqb (dict_get v p) numbers); cbn [negb].
  - destruct (String.eqb_spec p k) as [->|]; reflexivity.
  - apply dict_get_set.
Qed.

Lemma twin_round_get numbers number unit w k :
  NoDup unit ->
  dict_get (fold_left (twin_box numbers number) unit w) k
  = if Py.mem k unit
    then (if String.eqb (dict_get w k) numbers then dict_get w k
          else Py.replace number (dict_get w k))
    else dict_get w k.
Proof.
  intros ND.
  apply (fold_pointwise_get (twin_box numbers number)
           (fun x => if String.eqb x numbers then x else Py.replace number x));
    [|exact ND].
  intros; apply twin_box_get.
Qed.

Lemma sfilter_head f s c s' : sfilter f s = String c s' -> f c = true.
Proof.
  induction s as [|a s IH]; simpl; [discriminate|].
  destruct (f a) eqn:E; [|exact IH]. intros H; injection H as -> _. exact E.
Qed.

End Twins.

Section TwinValues.

Lemma contains_two c a b :
  Py.contains (String c "") (String a (String b "")) = Ascii.eqb c a || Ascii.eqb c b.
Proof.
  destruct (Py.contains (String c "") (String a (String b ""))) eqn:E.
  - apply contains_char in E. cbn [Py.iter] in E.
    symmetry. destruct E as [E|[E|[]]]; injection E as <-; rewrite Ascii.eqb_refl;
      [reflexivity | apply orb_true_r].
  - destruct (Ascii.eqb_spec c a) as [->|_].
    + assert (H : Py.contains (String a "") (String a (String b "")) = true)
        by (apply contains_char; now left).
      congruence.
    + destruct (Ascii.eqb_spec c b) as [->|_]; [|reflexivity].
      assert (H : Py.contains (String b "") (String a (String b "")) = true)
        by (apply contains_char; right; now left).
      congruence.
Qed.

Lemma twins_of_length values unit t :
  In t (twins_of values unit) -> String.length t = 2.
Proof.
  unfold twins_of. cbv zeta. intros H. apply filter_In in H.
  destruct H as [_ H]. apply andb_true_iff in H. now apply Nat.eqb_eq.
Qed.

Lemma sfilter_none f s :
  (forall c, In (String c "") (Py.iter s) -> f c = false) -> sfilter f s = "".
Proof.
  induction s as [|a s IH]; simpl; [reflexivity|].
  intros H. rewrite (H a) by now left. apply IH.
  intros c Hc; apply H; now right.
Qed.

Lemma without_digits_app l1 l2 x :
  without_digits (l1 ++ l2) x = without_digits l2 (without_digits l1 x).
Proof.
  unfold without_digits. rewrite sfilter_sfilter. apply sfilter_ext.
  intros c _. rewrite existsb_app. apply negb_orb.
Qed.

Lemma without_digits_nil x : without_digits [] x = x.
Proof. unfold without_digits. apply sfilter_all. reflexivity. Qed.

Lemma without_digits_self t l : without_digits (t :: l) t = "".
Proof.
  unfold without_digits. apply sfilter_none. intros c Hc.
  cbn [existsb]. apply contains_char in Hc. now rewrite Hc.
Qed.

Lemma without_digits_apart t x :
  (forall c, In c (Py.iter t) -> ~ In c (Py.iter x)) -> without_digits [t] x = x.
Proof.
  intros H. unfold without_digits. apply sfilter_all. intros c Hc.
  cbn [existsb]. rewrite orb_false_r.
  destruct (Py.contains (String c "") t) eqn:E; [|reflexivity].
  apply contains_char in E. exfalso. exact (H _ E Hc).
Qed.

(** The two rounds of a twin value on one candidate string. *)
Lemma twin_rounds_string a b x :
  let t := String a (String b "") in
  (if String.eqb
        (if String.eqb x t then x else Py.replace (String a "") x) t
   then if String.eqb x t then x else Py.replace (String a "") x
   else Py.replace (String b "")
          (if String.eqb x t then x else Py.replace (String a "") x))
  = if String.eqb x t then x else without_digits [t] x.
Proof.
  intros t. destruct (String.eqb_spec x t) as [E|N].
  - rewrite E, String.eqb_refl. reflexivity.
  - rewrite !replace_char.
    assert (Hne : String.eqb (sfilter (fun c => negb (Ascii.eqb c a)) x) t = false).
    { apply String.eqb_neq. intros E. apply sfilter_head in E.
      rewrite Ascii.eqb_refl in E. discriminate. }
    rewrite Hne, sfilter_sfilter. unfold without_digits. apply sfilter_ext.
    intros c _. cbn [existsb]. unfold t. rewrite contains_two, orb_false_r.
    apply eq_sym, negb_orb.
Qed.

Lemma naked_twins_unit_get unit k : NoDup unit -> forall T w,
  (forall t, In t T -> String.length t = 2) ->
  dict_get (fold_left (fun values numbers =>
              fold_left (fun values number =>
                fold_left (twin_box numbers number) unit values)
                (Py.iter numbers) values) T w) k
  = if Py.mem k unit
    then fold_left (fun x t => if String.eqb x t then x else without_digits [t] x)
                   T (dict_get w k)
    else dict_get w k.
Proof.
  intros ND. induction T as [|t T IH]; intros w HT; cbn [fold_left].
  - now destruct (Py.mem k unit).
  - rewrite IH by (intros; apply HT; now right).
    assert (Ht : String.length t = 2) by (apply HT; now left).
    destruct t as [|a [|b [|c t]]]; try discriminate.
    cbn [Py.iter fold_left]. rewrite !twin_round_get by exact ND.
    destruct (Py.mem k unit); [|reflexivity].
    f_equal. apply twin_rounds_string.
Qed.

Lemma rounds_no_hit T2 : forall T1 x,
  (forall before t after, T2 = before ++ t :: after ->
     without_digits (T1 ++ before) x <> t) ->
  fold_left (fun x t => if String.eqb x t then x else without_digits [t] x)
            T2 (without_digits T1 x)
  = without_digits (T1 ++ T2) x.
Proof.
  induction T2 as [|t T2 IH]; intros T1 x H; cbn [fold_left].
  - now rewrite app_nil_r.
  - destruct (String.eqb_spec (without_digits T1 x) t) as [E|_].
    + exfalso. apply (H [] t T2 eq_refl). now rewrite app_nil_r.
    + rewrite <- without_digits_app, IH.
      * now rewrite <- app_assoc.
      * intros before t' after E. rewrite <- app_assoc. apply (H (t :: before) t' after).
        now rewrite E.
Qed.

Lemma rounds_stable T t :
  (forall t', In t' T -> t' <> t -> forall c, In c (Py.iter t') -> ~ In c (Py.iter t)) ->
  fold_left (fun x t => if String.eqb x t then x else without_digits [t] x) T t = t.
Proof.
  induction T as [|t' T IH]; intros H; cbn [fold_left]; [reflexivity|].
  assert (E : (if String.eqb t t' then t else without_digits [t'] t) = t).
  { destruct (String.eqb_spec t t') as [_|N]; [reflexivity|].
    apply without_digits_apart. apply (H t'); [now left | congruence]. }
  rewrite E. apply IH. intros t0 H0. apply H. now right.
Qed.

Lemma hit_first before t x :
  t <> "" -> without_digits before x = t ->
  forall b' t' a', before = b' ++ t' :: a' -> without_digits b' x <> t'.
Proof.
  intros Nt E b' t' a' Eb Hit. apply Nt. rewrite <- E, Eb.
  rewrite without_digits_app, Hit. apply without_digits_self.
Qed.

End TwinValues.

(** C3, as amended.  Take a grid over the 81 boxes and a unit whose twin
    values (two characters, held by exactly two boxes of the unit) share no
    digit with one another.  The processing of that unit by [naked_twins]
    leaves every box outside the unit and every box that holds a twin value
    as it is.  From any other box of the unit it removes the digits of all
    the twin values and nothing else, with one exception: a box that, once
    the digits of the twin values found before some twin value [t] are
    removed, is left holding exactly [t] is from then on skipped like a
    twin box, and ends with [t]. *)
Theorem naked_twins_unit_disjoint (values : dict) (unit : list string)
    (L : list dict) :
  keys values = boxes ->
  In unit unitlist ->
  (forall t t', In t (twins_of values unit) -> In t' (twins_of values unit) ->
     t <> t' -> forall c, In c (Py.iter t) -> ~ In c (Py.iter t')) ->
  (forall box, ~ In box unit ->
     dict_get (fst (naked_twins_unit values unit L)) box = dict_get values box)
  /\ (forall box, In box unit -> In (dict_get values box) (twins_of values unit) ->
        dict_get (fst (naked_twins_unit values unit L)) box = dict_get values box)
  /\ (forall box, In box unit ->
        (forall before t after, twins_of values unit = before ++ t :: after ->
           without_digits before (dict_get values box) <> t) ->
        dict_get (fst (naked_twins_unit values unit L)) box
        = without_digits (twins_of values unit) (dict_get values box))
  /\ (forall box before t after, In box unit ->
        twins_of values unit = before ++ t :: after ->
        without_digits before (dict_get values box) = t ->
        dict_get (fst (naked_twins_unit values unit L)) box = t).
Proof.
  intros _ Hu Hd.
  pose proof (unit_nodup _ Hu) as ND.
  assert (Hget : forall box,
            dict_get (fst (naked_twins_unit values unit L)) box
            = if Py.mem box unit
              then fold_left (fun x t => if String.eqb x t then x
                                         else without_digits [t] x)
                             (twins_of values unit) (dict_get values box)
              else dict_get values box).
  { intros box. rewrite naked_twins_unit_fst. unfold naked_twins_unit_g.
    apply naked_twins_unit_get; [exact ND|]. intros t. apply twins_of_length. }
  split; [|split; [|split]].
  - intros box Hb. rewrite Hget.
    destruct (Py.mem box unit) eqn:E; [|reflexivity].
    apply mem_In in E. contradiction.
  - intros box Hb Ht. rewrite Hget. rewrite (proj2 (mem_In box unit) Hb).
    apply rounds_stable. intros t' Ht' N. apply Hd; assumption.
  - intros box Hb Hno. rewrite Hget. rewrite (proj2 (mem_In box unit) Hb).
    rewrite <- (without_digits_nil (dict_get values box)) at 1.
    apply (rounds_no_hit (twins_of values unit) [] (dict_get values box)). exact Hno.
  - intros box before t after Hb ET Hit. rewrite Hget.
    rewrite (proj2 (mem_In box unit) Hb).
    assert (Ht : In t (twins_of values unit)).
    { rewrite ET. apply in_or_app. right. now left. }
    assert (Nt : t <> "").
    { intros E. apply twins_of_length in Ht. rewrite E in Ht. discriminate. }
    revert Hd Ht. rewrite ET. intros Hd Ht. rewrite fold_left_app.
    rewrite <- (without_digits_nil (dict_get values box)) at 1.
    rewrite (rounds_no_hit before [] (dict_get values box))
      by (apply (hit_first before t); assumption).
    cbn [app]. rewrite Hit. apply rounds_stable.
    intros t' Ht' N. apply Hd; [|exact Ht|exact N].
    apply in_or_app. right. exact Ht'.
Qed.

Lemma naked_twins_unit_disjoint_witness :
  keys disjoint_values = boxes
  /\ In row_A unitlist
  /\ (forall t t', In t (twins_of disjoint_values row_A) ->
        In t' (twins_of disjoint_values row_A) ->
        t <> t' -> forall c, In c (Py.iter t) -> ~ In c (Py.iter t'))
  /\ (forall box, ~ In box row_A ->
        dict_get (fst (naked_twins_unit disjoint_values row_A [])) box
        = dict_get disjoint_values box)
  /\ (forall box, In box row_A ->
        In (dict_get disjoint_values box) (twins_of disjoint_values row_A) ->
        dict_get (fst (naked_twins_unit disjoint_values row_A [])) box
        = dict_get disjoint_values box)
  /\ (forall box, In box row_A ->
        (forall before t after,
           twins_of disjoint_values row_A = before ++ t :: after ->
           without_digits before (dict_get disjoint_values box) <> t) ->
        dict_get (fst (naked_twins_unit disjoint_values row_A [])) box
        = without_digits (twins_of disjoint_values row_A)
                         (dict_get disjoint_values box))
  /\ (forall box before t after, In box row_A ->
        twins_of disjoint_values row_A = before ++ t :: after ->
        without_digits before (dict_get disjoint_values box) = t ->
        dict_get (fst (naked_twins_unit disjoint_values row_A [])) box = t).
Proof.
  assert (Hk : keys disjoint_values = boxes) by (vm_compute; reflexivity).
  assert (H0 : In row_A unitlist) by (vm_compute; tauto).
  assert (ET : twins_of disjoint_values row_A = ["12"; "12"; "34"; "34"])
    by (vm_compute; reflexivity).
  assert (Hd : forall t t', In t (twins_of disjoint_values row_A) ->
             In t' (twins_of disjoint_values row_A) ->
             t <> t' -> forall c, In c (Py.iter t) -> ~ In c (Py.iter t')).
  { rewrite ET. intros t t' Ht Ht' N c Hc Hc'.
    destruct Ht as [<-|[<-|[<-|[<-|[]]]]];
      destruct Ht' as [<-|[<-|[<-|[<-|[]]]]];
      try (apply N; reflexivity);
      cbn [Py.iter In] in Hc, Hc';
      destruct Hc as [<-|[<-|[]]]; destruct Hc' as [H|[H|[]]]; discriminate H. }
  split; [exact Hk|]. split; [exact H0|]. split; [exact Hd|].
  apply (naked_twins_unit_disjoint disjoint_values row_A [] Hk H0 Hd).
Defined.

(** C3 as stated fails.  In row A with twins 12 at A1, A2 and twins 23 at
    A3, A4 the twin boxes themselves lose candidates (A1 and A2 end as "1",
    A3 and A4 empty); over the whole of [naked_twins] a twin box of one
    unit is an ordinary box of another: A1, twin of A2 in row A, loses its
    1 to the twins 13 of column 1; and in row A with twins 12 at A1, A2,
    twins 34 at A3, A4 and 1234 at A5, the box A5 is left with 34 by the
    twins 12 and then keeps 3 and 4, being skipped like a twin box. *)
Lemma naked_twins_touches_twins :
  In row_A unitlist
  /\ twins_of overlap_values row_A = ["12"; "12"; "23"; "23"]
  /\ map (dict_get overlap_values) row_A
     = ["12"; "12"; "23"; "23"; "123456789"; "123456789"; "123456789";
        "123456789"; "123456789"]
  /\ map (dict_get (fst (naked_twins_unit overlap_values row_A []))) row_A
     = ["1"; "1"; ""; ""; "456789"; "456789"; "456789"; "456789"; "456789"]
  /\ twins_of cross_values row_A = ["12"; "12"]
  /\ dict_get cross_values "A1" = "12"
  /\ dict_get (fst (naked_twins cross_values [])) "A1" = "2"
  /\ twins_of residue_values row_A = ["12"; "12"; "34"; "34"]
  /\ map (dict_get residue_values) row_A
     = ["12"; "12"; "34"; "34"; "1234"; "123456789"; "123456789";
        "123456789"; "123456789"]
  /\ map (dict_get (fst (naked_twins_unit residue_values row_A []))) row_A
     = ["12"; "12"; "34"; "34"; "34"; "56789"; "56789"; "56789"; "56789"].
Proof.
  split; [vm_compute; tauto|].
  split; [vm_compute; reflexivity|]. split; [vm_compute; reflexivity|].
  split; [vm_compute; reflexivity|]. split; [vm_compute; reflexivity|].
  split; [vm_compute; reflexivity|]. split; [vm_compute; reflexivity|].
  split; [vm_compute; reflexivity|]. split; vm_compute; reflexivity.
Qed.

(** ** C4: applying [reduce_puzzle] to its own result *)

(** C4, as amended.  [reduce_puzzle] stops as soon as a pass leaves the
    number of solved boxes unchanged, so its result need not be a fixed
    point of the three rules.  Applied to its own result it never adds a
    candidate; it returns that result unchanged exactly when one more pass
    of [eliminate], [naked_twins], [only_choice] leaves the result as it
    is, which is the case whenever every box of the result is solved. *)
Theorem reduce_puzzle_again (values r : dict) (fuel : nat) (L : list dict) :
  keys values = boxes ->
  total_len values < fuel ->
  fst (reduce_puzzle fuel values L) = Return (PyDict r) ->
  (forall L' r', fst (reduce_puzzle fuel r L') = Return (PyDict r') -> le_dict r' r)
  /\ (forall L', fst (reduce_puzzle fuel r L') = Return (PyDict r) <-> pass_g r = r)
  /\ ((forall s, In s boxes -> String.length (dict_get r s) = 1) -> pass_g r = r).
Proof.
  intros Hk Hf Hr. rewrite reduce_puzzle_fst in Hr.
  destruct (reduce_puzzle_g_spec fuel values Hk Hf) as [E|(u & E & Hle & H0 & Hc)];
    [congruence|].
  assert (Er : r = pass_g u) by congruence.
  pose proof (le_dict_keys _ _ Hle Hk) as Hku.
  pose proof (pass_le u Hku) as Hlp.
  rewrite <- Er in Hlp, H0, Hc. clear E Hr.
  pose proof (le_dict_keys _ _ Hlp Hku) as Hkr.
  assert (Ht : total_len r < fuel).
  { pose proof (total_len_le _ _ Hlp). pose proof (total_len_le _ _ Hle). lia. }
  split; [|split].
  - intros L' r' Hr'. rewrite reduce_puzzle_fst in Hr'.
    destruct (reduce_puzzle_g_spec fuel r Hkr Ht) as [E|(u' & E & Hle' & _)];
      [congruence|].
    assert (Er' : r' = pass_g u') by congruence. rewrite Er'.
    eapply le_dict_trans; [apply pass_le; eapply le_dict_keys; eauto | exact Hle'].
  - intros L'. rewrite reduce_puzzle_fst. split.
    + intros Hr'.
      destruct (reduce_puzzle_g_spec fuel r Hkr Ht) as [E|(u' & E & Hle' & _)];
        [congruence|].
      assert (Er' : r = pass_g u') by congruence.
      assert (Eu : u' = r).
      { apply le_dict_antisym; [exact Hle' | | exact Hkr].
        rewrite Er' at 1. apply pass_le. eapply le_dict_keys; eauto. }
      rewrite Eu in Er'. now symmetry.
    + intros Hfix. destruct fuel as [|fuel]; [lia|].
      cbn [reduce_puzzle_g]. cbv zeta. rewrite Hfix, H0.
      cbn [List.length Nat.eqb negb]. rewrite Nat.eqb_refl. reflexivity.
  - intros Hall.
    destruct (singles_fixed u r r Hku Hlp (le_dict_refl r) Hc Hall) as [Eu _].
    subst u. now symmetry.
Qed.

Lemma reduce_puzzle_again_witness :
  keys solved_values = boxes
  /\ total_len solved_values < 730
  /\ fst (reduce_puzzle 730 solved_values []) = Return (PyDict solved_values)
  /\ (forall L' r', fst (reduce_puzzle 730 solved_values L') = Return (PyDict r') ->
                    le_dict r' solved_values)
  /\ (forall L', fst (reduce_puzzle 730 solved_values L') = Return (PyDict solved_values)
                  <-> pass_g solved_values = solved_values)
  /\ ((forall s, In s boxes -> String.length (dict_get solved_values s) = 1) ->
      pass_g solved_values = solved_values).
Proof.
  assert (Hk : keys solved_values = boxes) by (vm_compute; reflexivity).
  assert (Ht : total_len solved_values < 730) by (vm_compute; lia).
  assert (Hr : fst (reduce_puzzle 730 solved_values []) = Return (PyDict solved_values))
    by (vm_compute; reflexivity).
  split; [exact Hk|]. split; [exact Ht|]. split; [exact Hr|].
  apply (reduce_puzzle_again solved_values solved_values 730 [] Hk Ht Hr).
Defined.

(** C4 as stated fails on a grid that parses: reducing [stall_grid] stops
    with 17 solved boxes and "1234568" at F7; reducing the result again
    takes 5 and 6 away from F7, F8 and F9 (the twins 56 of row F, which the
    first run created after it had visited that row). *)
Lemma reduce_puzzle_not_idempotent :
  fst (reduce_puzzle 730 (parsed stall_grid) []) = Return (PyDict stall_once)
  /\ fst (reduce_puzzle 730 stall_once []) = Return (PyDict stall_twice)
  /\ dict_get stall_once "F7" = "1234568"
  /\ dict_get stall_twice "F7" = "12348"
  /\ stall_twice <> stall_once.
Proof.
  split; [vm_compute; reflexivity|]. split; [vm_compute; reflexivity|].
  split; [reflexivity|]. split; [reflexivity|]. vm_compute. discriminate.
Qed.

(** ** C6: when an event is appended *)

(** C6 fails on the code.  [assign_value] appends a snapshot whenever the
    value it stores has one character, also when the box already held that
    value.  [solve] on a grid of 81 clues, where no box can go from unsolved
    to solved, returns the grid as it was and appends 1989 snapshots of it
    (1728 in [eliminate], 261 in [only_choice]); the first [eliminate] on
    the grid of the main program appends 48 snapshots and solves no box. *)
Theorem events_without_resolution :
  assign_value diag_values "A1" "4" [] = (diag_values, [diag_values])
  /\ boxes_of_len 1 solved_values = boxes
  /\ fst (solve 730 solved_input []) = Return (PyDict solved_values)
  /\ List.length (snd (solve 730 solved_input [])) = 1989
  /\ forallb (fun d => String.eqb (spell d) solved_input)
             (snd (solve 730 solved_input [])) = true
  /\ List.length (snd (eliminate solved_values [])) = 1728
  /\ List.length (snd (only_choice solved_values [])) = 261
  /\ List.length (snd (eliminate diag_values [])) = 48
  /\ boxes_of_len 1 (fst (eliminate diag_values [])) = boxes_of_len 1 diag_values.
Proof.
  split; [vm_compute; reflexivity|]. split; [vm_compute; reflexivity|].
  split; [vm_compute; reflexivity|]. split; [vm_compute; reflexivity|].
  split; [vm_compute; reflexivity|]. split; [vm_compute; reflexivity|].
  split; [vm_compute; reflexivity|]. split; vm_compute; reflexivity.
Qed.

(** * Further properties of the code *)

(** ** [cross] and [r_string] *)

(** X1.  [cross(a, b)] has [len(a) * len(b)] elements, and they are exactly
    the concatenations of an element of [a] with an element of [b]. *)
Theorem cross_spec (a b : list string) :
  List.length (cross a b) = List.length a * List.length b
  /\ forall x, In x (cross a b) <->
               exists s t, In s a /\ In t b /\ x = (s ++ t)%string.
Proof.
  split.
  - unfold cross. induction a as [|s a IH]; simpl; [reflexivity|].
    now rewrite length_app, length_map, IH.
  - intros x. unfold cross. rewrite in_flat_map. split.
    + intros (s & Hs & H). apply in_map_iff in H. destruct H as (t & <- & Ht). eauto.
    + intros (s & t & Hs & Ht & ->). exists s. split; [exact Hs|].
      apply in_map_iff. eauto.
Qed.

Lemma rev_string_app s c :
  Py.rev_string (s ++ String c "")%string = String c (Py.rev_string s).
Proof. induction s as [|a s IH]; simpl; [reflexivity | now rewrite IH]. Qed.

Lemma length_append (s t : string) :
  String.length (s ++ t)%string = String.length s + String.length t.
Proof. induction s as [|a s IH]; simpl; [reflexivity | now rewrite IH]. Qed.

(** X2.  [r_string] keeps the length of a string and undoes itself. *)
Theorem r_string_involutive (s : string) :
  r_string (r_string s) = s /\ String.length (r_string s) = String.length s.
Proof.
  unfold r_string. split.
  - induction s as [|a s IH]; simpl; [reflexivity|]. now rewrite rev_string_app, IH.
  - induction s as [|a s IH]; simpl; [reflexivity|].
    rewrite length_append, IH. simpl. lia.
Qed.

(** ** [peers] *)

Lemma in_nodup_iff (x : string) l : In x (nodup string_dec l) <-> In x l.
Proof. apply nodup_In. Qed.

Lemma peers_char s t :
  In t (peers s) <-> t <> s /\ exists u, In u unitlist /\ In s u /\ In t u.
Proof.
  unfold peers. split.
  - intros H. apply in_remove in H. destruct H as [H N]. split; [exact N|].
    apply nodup_In, in_concat in H. destruct H as (u & Hu & Ht).
    unfold units in Hu. apply filter_In in Hu. destruct Hu as [Hu Hs].
    apply mem_In in Hs. eauto.
  - intros (N & u & Hu & Hs & Ht). apply in_in_remove; [exact N|].
    apply nodup_In, in_concat. exists u. split; [|exact Ht].
    unfold units. apply filter_In. split; [exact Hu | now apply mem_In].
Qed.

(** X3.  The peers of a box are the boxes other than itself that share a
    unit with it; so being a peer is symmetric, no box is its own peer, no
    peer is listed twice, and a box of the board has 20 peers plus 6 for
    each diagonal through it. *)
Theorem peers_spec (s t : string) :
  (In t (peers s) <-> t <> s /\ exists u, In u unitlist /\ In s u /\ In t u)
  /\ (In t (peers s) <-> In s (peers t))
  /\ NoDup (peers s)
  /\ (In s boxes -> List.length (peers s) = 20 + 6 * diag_count s).
Proof.
  pose proof peers_char as Hchar.
  split; [apply Hchar|]. split; [|split; [apply peers_nodup|]].
  - rewrite !Hchar. split; intros (N & u & Hu & H1 & H2); (split; [congruence | eauto]).
  - assert (H : forallb (fun s => Nat.eqb (List.length (peers s)) (20 + 6 * diag_count s))
                        boxes = true) by (vm_compute; reflexivity).
    intros Hs. rewrite forallb_forall in H. now apply Nat.eqb_eq, H.
Qed.

(** ** The unit tables *)

(** X4.  Whatever the block size [sq >= 1], the blocks of
    [_get_square_units(sq)] tile the board: every box lies in exactly one of
    them.  With the default [sq = 3] there are 9 blocks of 9 boxes. *)
Theorem square_units_tile (sq : nat) (s : string) :
  1 <= sq -> In s boxes ->
  List.length (filter (fun u => Py.mem s u) (_get_square_units sq)) = 1.
Proof.
  intros Hsq Hs.
  destruct (Nat.le_gt_cases 9 sq) as [Big|Small].
  - assert (E : _get_square_units sq = [boxes]).
    { unfold _get_square_units.
      assert (R : Py.range 0 9 sq = [0]).
      { unfold Py.range. cbn [Py.range_aux Nat.ltb Nat.leb Nat.add].
        destruct (Nat.leb_spec sq 8); [lia | reflexivity]. }
      change (String.length rows) with 9. change (String.length cols) with 9.
      rewrite R. cbn [map flat_map app].
      assert (Sub : forall x, String.length x <= sq -> substring 0 sq x = x).
      { clear. intros x. revert sq. induction x as [|c x IH]; intros [|sq]; simpl; auto; try lia.
        intros H. f_equal. apply IH. lia. }
      rewrite !Sub by (simpl; lia). reflexivity. }
    rewrite E. cbn [filter]. apply mem_In in Hs. rewrite Hs. reflexivity.
  - assert (H : forallb (fun q => forallb (fun s =>
              Nat.eqb (List.length (filter (fun u => Py.mem s u) (_get_square_units q))) 1)
              boxes) (seq 1 8) = true) by (vm_compute; reflexivity).
    rewrite forallb_forall in H.
    assert (Hin : In sq (seq 1 8)) by (apply in_seq; lia).
    specialize (H sq Hin). rewrite forallb_forall in H.
    now apply Nat.eqb_eq, H.
Qed.

Lemma square_units_tile_witness :
  1 <= 3 /\ In "E5" boxes
  /\ List.length (filter (fun u => Py.mem "E5" u) (_get_square_units 3)) = 1.
Proof.
  assert (H1 : 1 <= 3) by lia.
  assert (H2 : In "E5" boxes) by (vm_compute; tauto).
  split; [exact H1|]. split; [exact H2|]. apply (square_units_tile 3 "E5" H1 H2).
Defined.

(** X5.  Each of the 29 units has 9 distinct boxes of the board; every box
    lies in exactly one row unit and exactly one column unit; the two
    diagonals meet in E5 only. *)
Theorem unit_tables :
  (forall u, In u unitlist ->
     List.length u = 9 /\ NoDup u /\ forall s, In s u -> In s boxes)
  /\ (forall s, In s boxes ->
        List.length (filter (fun u => Py.mem s u) row_units) = 1
        /\ List.length (filter (fun u => Py.mem s u) column_units) = 1)
  /\ List.length row_units = 9 /\ List.length column_units = 9
  /\ List.length square_units = 9 /\ List.length diagonals_u = 2
  /\ filter (fun s => Nat.eqb (diag_count s) 2) boxes = ["E5"].
Proof.
  split; [|split].
  - intros u Hu. split; [now apply unit_length|]. split; [now apply unit_nodup|].
    intros s. now apply unit_in_boxes.
  - assert (H : forallb (fun s =>
              Nat.eqb (List.length (filter (fun u => Py.mem s u) row_units)) 1
              && Nat.eqb (List.length (filter (fun u => Py.mem s u) column_units)) 1)
              boxes = true) by (vm_compute; reflexivity).
    intros s Hs. rewrite forallb_forall in H. specialize (H s Hs).
    apply andb_true_iff in H. destruct H as [H1 H2].
    split; now apply Nat.eqb_eq.
  - split; [reflexivity|]. split; [reflexivity|]. split; [reflexivity|].
    split; [reflexivity|]. vm_compute. reflexivity.
Qed.

(** ** [grid_values] *)

Lemma grid_chars_map grid :
  grid_chars grid = map expand (filter grid_char (Py.iter grid)).
Proof.
  unfold grid_chars. rewrite grid_chars_acc. cbn [app].
  induction (Py.iter grid) as [|c l IH]; [reflexivity|].
  cbn [flat_map filter]. rewrite IH. unfold grid_char.
  destruct (String.eqb c ".") eqn:E1, (Py.contains c cols) eqn:E2;
    cbn [orb app map]; unfold expand; rewrite ?E1; try reflexivity.
  apply String.eqb_eq in E1. subst c. rewrite contains_dot in E2. discriminate.
Qed.

(** X6.  [grid_values] goes by the characters of the input that are digits
    1-9 or '.': when there are 81 of them it returns the dict that maps the
    boxes, in row-major order, to those characters in order, a digit to
    itself and '.' to "123456789"; otherwise its assertion fails. *)
Theorem grid_values_spec (grid : string) :
  grid_values grid =
  if Nat.eqb (List.length (filter grid_char (Py.iter grid))) 81
  then Some (combine boxes (map expand (filter grid_char (Py.iter grid))))
  else None.
Proof.
  rewrite grid_values_unfold, grid_chars_length, grid_chars_map.
  destruct (Nat.eqb_spec (List.length (filter grid_char (Py.iter grid))) 81) as [E|]; [|reflexivity].
  rewrite dict_of_nodup; [reflexivity|].
  rewrite keys_combine; [apply boxes_nodup|].
  now rewrite length_map, E, boxes_length.
Qed.

(** ** The rules only take candidates away *)

Section Subsequence.

Lemma subseq_refl s : subseq s s.
Proof. induction s; constructor; assumption. Qed.

Lemma subseq_trans a b c : subseq a b -> subseq b c -> subseq a c.
Proof.
  intros H1 H2. revert a H1.
  induction H2 as [|x b c H2 IH|x b c H2 IH]; intros a H1.
  - exact H1.
  - apply subseq_drop, IH, H1.
  - inversion H1; subst.
    + apply subseq_drop, IH. assumption.
    + apply subseq_keep, IH. assumption.
Qed.

Lemma subseq_empty s : subseq "" s.
Proof. induction s; constructor; assumption. Qed.

Lemma replace_aux_subseq old s : forall k, subseq (Py.replace_aux old k s) s.
Proof.
  induction s as [|c s IH]; intros k; [constructor|].
  rewrite replace_aux_cons. destruct k as [|k].
  - destruct (prefix old (String c s)).
    + apply subseq_drop, IH.
    + apply subseq_keep, IH.
  - apply subseq_drop, IH.
Qed.

Lemma replace_subseq old s : subseq (Py.replace old s) s.
Proof.
  destruct old as [|a old]; [apply subseq_refl|]. apply replace_aux_subseq.
Qed.

Lemma char_subseq c s : In (String c "") (Py.iter s) -> subseq (String c "") s.
Proof.
  induction s as [|a s IH]; cbn [Py.iter In]; [tauto|].
  intros [E|H].
  - injection E as ->. apply subseq_keep, subseq_empty.
  - apply subseq_drop, IH, H.
Qed.

End Subsequence.

Section Rules.

Variable R : string -> string -> Prop.
Hypothesis R_refl : forall s, R s s.
Hypothesis R_trans : forall a b c, R a b -> R b c -> R a c.
Hypothesis R_replace : forall old s, R (Py.replace old s) s.
Hypothesis R_char : forall c s, In (String c "") (Py.iter s) -> R (String c "") s.

Lemma rel_dict_refl v : rel_dict R v v.
Proof. split; [reflexivity | intros; apply R_refl]. Qed.

Lemma rel_dict_trans a b c : rel_dict R a b -> rel_dict R b c -> rel_dict R a c.
Proof.
  intros [K1 S1] [K2 S2]; split; [congruence|].
  intros k; eapply R_trans; eauto.
Qed.

Lemma rel_dict_set v k x :
  In k (keys v) -> R x (dict_get v k) -> rel_dict R (dict_set v k x) v.
Proof.
  intros Hk Hx; split; [now apply keys_set|].
  intros k'. rewrite dict_get_set.
  destruct (String.eqb_spec k k') as [->|N]; [exact Hx | apply R_refl].
Qed.

Lemma fold_left_rel {B} (step : dict -> B -> dict) l K :
  (forall v b, In b l -> keys v = K -> rel_dict R (step v b) v) ->
  forall v, keys v = K -> rel_dict R (fold_left step l v) v.
Proof.
  induction l as [|b l IH]; intros H v Hv; cbn [fold_left]; [apply rel_dict_refl|].
  assert (Hb : rel_dict R (step v b) v) by (apply H; [now left | exact Hv]).
  eapply rel_dict_trans; [apply IH | exact Hb].
  - intros; apply H; [now right | assumption].
  - destruct Hb as [Hk _]. congruence.
Qed.

Lemma eliminate_rel values :
  keys values = boxes -> rel_dict R (eliminate_g values) values.
Proof.
  intros Hk. unfold eliminate_g, eliminate_in_g.
  assert (Hi : incl (boxes_of_len 1 values) boxes)
    by (rewrite <- Hk; apply boxes_of_len_incl).
  revert Hi. generalize (boxes_of_len 1 values) as l. intros l Hi.
  apply fold_left_rel with (K := boxes); [|exact Hk].
  intros v b Hb Hv. unfold elim_box.
  generalize (dict_get v b) as digit. intros digit.
  apply fold_left_rel with (K := boxes); [|exact Hv].
  intros v1 p Hp Hv1. apply rel_dict_set; [|apply R_replace].
  rewrite Hv1. eapply peers_in_boxes; eauto.
Qed.

Lemma naked_twins_rel values :
  keys values = boxes -> rel_dict R (naked_twins_g values) values.
Proof.
  intros Hk. unfold naked_twins_g.
  apply fold_left_rel with (K := boxes); [|exact Hk]. intros v0 unit Hu Hv0.
  unfold naked_twins_unit_g. generalize (twins_of v0 unit) as T. intros T.
  apply fold_left_rel with (K := boxes); [|exact Hv0]. intros v numbers _ Hv.
  apply fold_left_rel with (K := boxes); [|exact Hv]. intros v1 number _ Hv1.
  apply fold_left_rel with (K := boxes); [|exact Hv1]. intros v2 box Hb Hv2.
  unfold twin_box. destruct (negb _); [|apply rel_dict_refl].
  apply rel_dict_set; [|apply R_replace].
  rewrite Hv2. eapply unit_in_boxes; eauto.
Qed.

Lemma only_choice_rel values :
  keys values = boxes -> rel_dict R (only_choice_g values) values.
Proof.
  intros Hk. unfold only_choice_g.
  apply fold_left_rel with (K := boxes); [|exact Hk]. intros v unit Hu Hv.
  apply fold_left_rel with (K := boxes); [|exact Hv]. intros v1 digit Hd Hv1.
  unfold choice_digit.
  destruct (Nat.eqb_spec (List.length (filter (fun box => Py.contains digit (dict_get v1 box)) unit)) 1)
    as [E|_]; [|apply rel_dict_refl].
  apply hd_single in E. apply filter_In in E. destruct E as [Hin Hc].
  apply rel_dict_set.
  - rewrite Hv1. eapply unit_in_boxes; eauto.
  - destruct (iter_char _ _ Hd) as [c ->]. now apply R_char, contains_char.
Qed.

End Rules.

(** X7.  On a grid over the 81 boxes, each of [eliminate], [naked_twins]
    and [only_choice] returns a dict with the same boxes in which every
    value is the value before with some characters taken out, the others in
    their order: a rule removes candidates and does nothing else. *)
Theorem rules_only_remove (values : dict) (L : list dict) :
  keys values = boxes ->
  rel_dict subseq (fst (eliminate values L)) values
  /\ rel_dict subseq (fst (naked_twins values L)) values
  /\ rel_dict subseq (fst (only_choice values L)) values.
Proof.
  intros Hk. rewrite eliminate_fst, naked_twins_fst, only_choice_fst.
  split; [|split].
  - exact (eliminate_rel subseq subseq_refl subseq_trans replace_subseq values Hk).
  - exact (naked_twins_rel subseq subseq_refl subseq_trans replace_subseq values Hk).
  - exact (only_choice_rel subseq subseq_refl subseq_trans char_subseq values Hk).
Qed.

Lemma rules_only_remove_witness :
  keys diag_values = boxes
  /\ rel_dict subseq (fst (eliminate diag_values [])) diag_values
  /\ rel_dict subseq (fst (naked_twins diag_values [])) diag_values
  /\ rel_dict subseq (fst (only_choice diag_values [])) diag_values.
Proof.
  assert (Hk : keys diag_values = boxes) by (vm_compute; reflexivity).
  split; [exact Hk | apply (rules_only_remove diag_values [] Hk)].
Defined.

(** ** [only_choice] never empties a box *)

Lemma fold_left_inv {A B} (P : A -> Prop) (step : A -> B -> A) l :
  (forall a b, In b l -> P a -> P (step a b)) ->
  forall a, P a -> P (fold_left step l a).
Proof.
  induction l as [|b l IH]; intros H a Ha; simpl; [exact Ha|].
  apply IH; [intros; apply H; auto; now right | apply H; auto; now left].
Qed.

Lemma choice_digit_empty unit values digit k :
  In digit (Py.iter cols) ->
  (dict_get (choice_digit unit values digit) k = "" <-> dict_get values k = "").
Proof.
  intros Hd. unfold choice_digit.
  destruct (Nat.eqb_spec (List.length (filter (fun box => Py.contains digit (dict_get values box)) unit)) 1)
    as [E|_]; [|tauto].
  apply hd_single in E. apply filter_In in E. destruct E as [_ Hc].
  destruct (iter_char _ _ Hd) as [c ->].
  rewrite dict_get_set.
  destruct (String.eqb_spec
              (hd "" (filter (fun box => Py.contains (String c "") (dict_get values box)) unit)) k)
    as [<-|N]; [|tauto].
  split; [discriminate|]. intros E. rewrite E in Hc. discriminate.
Qed.

(** X8.  [only_choice] leaves a box empty exactly when it was empty: it
    never creates a contradiction and never repairs one. *)
Theorem only_choice_keeps_empties (values : dict) (L : list dict) (k : string) :
  keys values = boxes ->
  (dict_get (fst (only_choice values L)) k = "" <-> dict_get values k = "").
Proof.
  intros _. rewrite only_choice_fst. unfold only_choice_g.
  apply (fold_left_inv (fun w => dict_get w k = "" <-> dict_get values k = ""));
    [|tauto].
  intros w unit _ Hw.
  apply (fold_left_inv (fun w => dict_get w k = "" <-> dict_get values k = ""));
    [|exact Hw].
  intros w' digit Hd Hw'. rewrite choice_digit_empty; assumption.
Qed.

Lemma only_choice_keeps_empties_witness :
  keys holed_values = boxes
  /\ (dict_get (fst (only_choice holed_values [])) "A2" = ""
      <-> dict_get holed_values "A2" = "").
Proof.
  assert (Hk : keys holed_values = boxes) by (vm_compute; reflexivity).
  split; [exact Hk | apply (only_choice_keeps_empties holed_values [] "A2" Hk)].
Defined.

(** ** [reduce_puzzle] and empty boxes *)

Lemma le_dict_empty v' v k : le_dict v' v -> dict_get v k = "" -> dict_get v' k = "".
Proof. intros [_ H] E. apply shrinks_empty. rewrite <- E. apply H. Qed.

Lemma boxes_of_len_0_nil values k :
  boxes_of_len 0 values = [] -> In k (keys values) -> dict_get values k <> "".
Proof.
  intros H Hk E. apply (no_empty_box values k H Hk). now rewrite E.
Qed.

Lemma reduce_puzzle_g_no_empty fuel : forall values r,
  reduce_puzzle_g fuel values = Return (PyDict r) -> boxes_of_len 0 r = [].
Proof.
  induction fuel as [|fuel IH]; intros values r; [discriminate|].
  cbn [reduce_puzzle_g]. cbv zeta.
  destruct (Nat.eqb_spec (List.length (boxes_of_len 0 (pass_g values))) 0) as [E|];
    cbn [negb]; [|discriminate].
  destruct (Nat.eqb _ _); [|apply IH].
  intros H. assert (Er : r = pass_g values) by congruence.
  rewrite Er. now apply length_zero_iff_nil.
Qed.

Lemma empty_box_false fuel values k :
  keys values = boxes -> In k boxes ->
  dict_get (pass_g values) k = "" ->
  reduce_puzzle_g (S fuel) values = Return PyFalse.
Proof.
  intros Hk Hin E. cbn [reduce_puzzle_g]. cbv zeta.
  destruct (Nat.eqb_spec (List.length (boxes_of_len 0 (pass_g values))) 0) as [E0|];
    cbn [negb]; [|reflexivity].
  exfalso. apply length_zero_iff_nil in E0.
  apply (boxes_of_len_0_nil _ k E0); [|exact E].
  pose proof (pass_le values Hk) as [K _]. now rewrite K, Hk.
Qed.

(** X9.  [reduce_puzzle] answers [False] at once on a grid that has an
    empty box, and a dict it returns has no empty box. *)
Theorem reduce_puzzle_empty_box (values : dict) (fuel : nat) (L : list dict) :
  keys values = boxes ->
  ((exists k, In k boxes /\ dict_get values k = "") ->
   fst (reduce_puzzle (S fuel) values L) = Return PyFalse)
  /\ (forall r, fst (reduce_puzzle fuel values L) = Return (PyDict r) ->
                forall k, In k boxes -> dict_get r k <> "").
Proof.
  intros Hk. rewrite !reduce_puzzle_fst. split.
  - intros (k & Hin & E). apply (empty_box_false fuel values k Hk Hin).
    apply (le_dict_empty _ _ k (pass_le values Hk) E).
  - intros r Hr k Hin.
    apply boxes_of_len_0_nil; [eapply reduce_puzzle_g_no_empty; eauto|].
    assert (Hle : forall f v, keys v = boxes ->
               reduce_puzzle_g f v = Return (PyDict r) -> keys r = boxes).
    { clear. induction f as [|f IH]; intros v Hv; [discriminate|].
      cbn [reduce_puzzle_g]. cbv zeta.
      pose proof (pass_le v Hv) as [K _].
      destruct (negb _); [discriminate|].
      destruct (Nat.eqb _ _).
      - intros H. assert (Er : r = pass_g v) by congruence. rewrite Er. congruence.
      - apply IH. congruence. }
    rewrite (Hle fuel values Hk Hr). exact Hin.
Qed.

Lemma reduce_puzzle_empty_box_witness :
  keys holed_values = boxes
  /\ ((exists k, In k boxes /\ dict_get holed_values k = "") ->
      fst (reduce_puzzle 1 holed_values []) = Return PyFalse)
  /\ (forall r, fst (reduce_puzzle 0 holed_values []) = Return (PyDict r) ->
                forall k, In k boxes -> dict_get r k <> "").
Proof.
  assert (Hk : keys holed_values = boxes) by (vm_compute; reflexivity).
  split; [exact Hk | apply (reduce_puzzle_empty_box holed_values 0 [] Hk)].
Defined.

(** ** [eliminate] on a grid without conflicting clues *)

Lemma diag_values_conflict_free : conflict_free diag_values.
Proof.
  intros box peer Hb Hp Hl.
  assert (H : forallb (fun b => forallb (fun p =>
             negb (Nat.eqb (String.length (dict_get diag_values b)) 1)
             || negb (String.eqb (dict_get diag_values p) (dict_get diag_values b)))
             (peers b)) boxes = true) by (vm_compute; reflexivity).
  rewrite forallb_forall in H. specialize (H _ Hb).
  rewrite forallb_forall in H. specialize (H _ Hp).
  rewrite Hl in H. cbn in H. apply negb_true_iff in H. now apply String.eqb_neq.
Qed.

Lemma hit_true values done k c :
  hit values done k c = true <->
  exists b, In b done /\ In k (peers b) /\ dict_get values b = String c "".
Proof.
  unfold hit. rewrite existsb_exists. split.
  - intros (b & Hb & H). apply andb_true_iff in H. destruct H as [H1 H2].
    exists b. split; [exact Hb|]. split; [now apply mem_In | now apply String.eqb_eq].
  - intros (b & Hb & H1 & H2). exists b. split; [exact Hb|].
    apply andb_true_iff. split; [now apply mem_In | now apply String.eqb_eq].
Qed.

Lemma boxes_of_len_In n values b :
  In b (boxes_of_len n values) <->
  In b (keys values) /\ String.length (dict_get values b) = n.
Proof. unfold boxes_of_len. rewrite filter_In, Nat.eqb_eq. tauto. Qed.

(** X10.  On a grid over the 81 boxes in which no solved box has a peer
    with the same digit, [eliminate] keeps every solved box, leaves the
    digit of a solved box in none of its peers, and takes a candidate from
    a box only when a solved peer of that box holds it. *)
Theorem eliminate_arc_consistent (values : dict) (L : list dict) :
  keys values = boxes ->
  conflict_free values ->
  (forall b, In b boxes -> String.length (dict_get values b) = 1 ->
     dict_get (fst (eliminate values L)) b = dict_get values b)
  /\ (forall b k, In b boxes -> String.length (dict_get values b) = 1 ->
        In k (peers b) ->
        ~ In (dict_get values b) (Py.iter (dict_get (fst (eliminate values L)) k)))
  /\ (forall k c, In (String c "") (Py.iter (dict_get values k)) ->
        ~ In (String c "") (Py.iter (dict_get (fst (eliminate values L)) k)) ->
        exists b, In b boxes /\ In k (peers b) /\ dict_get values b = String c "").
Proof.
  intros Hk Hcf. rewrite eliminate_fst. unfold eliminate_g.
  assert (Hord : forall b, In b (boxes_of_len 1 values) ->
                   In b boxes /\ String.length (dict_get values b) = 1).
  { intros b Hb. apply boxes_of_len_In in Hb. now rewrite Hk in Hb. }
  assert (Hclosed : forall k,
    dict_get (eliminate_in_g (boxes_of_len 1 values) values) k
    = sfilter (fun c => negb (hit values (boxes_of_len 1 values) k c)) (dict_get values k)).
  { intros k. apply eliminate_in_closed; auto. }
  split; [|split].
  - intros b Hb Hl. rewrite Hclosed. apply sfilter_all. intros c Hc.
    destruct (hit values (boxes_of_len 1 values) b c) eqn:E; [|reflexivity].
    exfalso. apply hit_true in E. destruct E as (b0 & Hb0 & Hp & E).
    destruct (Hord b0 Hb0) as [Hin Hl0].
    apply (Hcf b0 b Hin Hp Hl0). rewrite E.
    destruct (single_char _ Hl) as [c' Ec']. rewrite Ec' in *.
    destruct Hc as [Hc|[]]. congruence.
  - intros b k Hb Hl Hp Hin. rewrite Hclosed in Hin.
    destruct (single_char _ Hl) as [c Ec]. rewrite Ec in Hin.
    apply sfilter_iter in Hin. destruct Hin as (c' & E' & Hf & _).
    injection E' as <-. apply negb_true_iff in Hf.
    assert (Ht : hit values (boxes_of_len 1 values) k c = true); [|congruence].
    apply hit_true. exists b. split; [|auto].
    apply boxes_of_len_In. now rewrite Hk.
  - intros k c Hin Hout. rewrite Hclosed in Hout.
    destruct (hit values (boxes_of_len 1 values) k c) eqn:E.
    + apply hit_true in E. destruct E as (b & Hb & Hp & E).
      exists b. split; [now apply Hord | auto].
    + exfalso. apply Hout, sfilter_iter. exists c. now rewrite E.
Qed.

Lemma eliminate_arc_consistent_witness :
  keys diag_values = boxes
  /\ (forall b, In b boxes -> String.length (dict_get diag_values b) = 1 ->
        dict_get (fst (eliminate diag_values [])) b = dict_get diag_values b)
  /\ (forall b k, In b boxes -> String.length (dict_get diag_values b) = 1 ->
        In k (peers b) ->
        ~ In (dict_get diag_values b)
             (Py.iter (dict_get (fst (eliminate diag_values [])) k)))
  /\ (forall k c, In (String c "") (Py.iter (dict_get diag_values k)) ->
        ~ In (String c "") (Py.iter (dict_get (fst (eliminate diag_values [])) k)) ->
        exists b, In b boxes /\ In k (peers b) /\ dict_get diag_values b = String c "").
Proof.
  assert (Hk : keys diag_values = boxes) by (vm_compute; reflexivity).
  split; [exact Hk|].
  apply (eliminate_arc_consistent diag_values [] Hk diag_values_conflict_free).
Defined.

(** ** Conflicting clues *)

Lemma fold_elim_le l w :
  keys w = boxes -> incl l boxes -> le_dict (fold_left elim_box l w) w.
Proof. intros. now apply (eliminate_in_le l w). Qed.

Lemma eliminate_conflict_empties values b k :
  keys values = boxes -> In b boxes -> In k (peers b) ->
  String.length (dict_get values b) = 1 ->
  dict_get values k = dict_get values b ->
  dict_get (eliminate_g values) b = "" \/ dict_get (eliminate_g values) k = "".
Proof.
  intros Hk Hb Hp Hl He. unfold eliminate_g, eliminate_in_g.
  assert (Hin : In b (boxes_of_len 1 values)) by (apply boxes_of_len_In; now rewrite Hk).
  assert (Hincl : incl (boxes_of_len 1 values) boxes)
    by (rewrite <- Hk; apply boxes_of_len_incl).
  destruct (in_split _ _ Hin) as (l1 & l2 & E). rewrite E in *.
  rewrite fold_left_app. cbn [fold_left].
  assert (I1 : incl l1 boxes) by (intros x Hx; apply Hincl, in_or_app; now left).
  assert (I2 : incl l2 boxes)
    by (intros x Hx; apply Hincl, in_or_app; right; now right).
  pose proof (fold_elim_le l1 values Hk I1) as L1.
  pose proof (le_dict_keys _ _ L1 Hk) as K1.
  set (w1 := fold_left elim_box l1 values) in *.
  pose proof (elim_box_le w1 b K1 Hb) as L2.
  pose proof (le_dict_keys _ _ L2 K1) as K2.
  pose proof (fold_elim_le l2 (elim_box w1 b) K2 I2) as L3.
  destruct (single_char _ Hl) as [c Ec].
  assert (Hshape : forall x, shrinks x (String c "") -> x = "" \/ x = String c "").
  { intros x Hx. destruct x as [|a x]; [now left|]. right.
    apply shrinks_same; [exact Hx|]. apply shrinks_length in Hx. simpl in *. lia. }
  destruct (Hshape (dict_get w1 b)) as [Eb|Eb].
  { rewrite <- Ec. apply L1. }
  - left. eapply le_dict_empty; [exact L3|]. eapply le_dict_empty; [exact L2 | exact Eb].
  - right. eapply le_dict_empty; [exact L3|].
    rewrite elim_box_get. apply mem_In in Hp. rewrite Hp, Eb, replace_char.
    destruct (Hshape (dict_get w1 k)) as [Ek|Ek].
    { rewrite <- Ec, <- He. apply L1. }
    + now rewrite Ek.
    + rewrite Ek. simpl. now rewrite Ascii.eqb_refl.
Qed.

(** X11.  When a solved box has a peer holding the same digit, [search]
    answers [False]: the first [eliminate] empties one of the two boxes and
    [reduce_puzzle] reports the contradiction. *)
Theorem conflicting_clues_unsat (values : dict) (fuel : nat) (L : list dict)
    (b k : string) :
  keys values = boxes -> In b boxes -> In k (peers b) ->
  String.length (dict_get values b) = 1 ->
  dict_get values k = dict_get values b ->
  fst (search (S fuel) values L) = Return PyFalse.
Proof.
  intros Hk Hb Hp Hl He. rewrite search_fst. cbn [search_g].
  assert (Hf : reduce_puzzle_g (S fuel) values = Return PyFalse); [|now rewrite Hf].
  pose proof (eliminate_le values Hk) as H1.
  pose proof (le_dict_keys _ _ H1 Hk) as K1.
  pose proof (naked_twins_le _ K1) as H2.
  pose proof (only_choice_le _ (le_dict_keys _ _ H2 K1)) as H3.
  assert (Hpass : forall x, dict_get (eliminate_g values) x = "" ->
                            dict_get (pass_g values) x = "").
  { intros x Hx. unfold pass_g.
    eapply le_dict_empty; [exact H3|]. eapply le_dict_empty; [exact H2 | exact Hx]. }
  destruct (eliminate_conflict_empties values b k Hk Hb Hp Hl He) as [E|E].
  - apply (empty_box_false fuel values b Hk Hb). now apply Hpass.
  - apply (empty_box_false fuel values k Hk); [eapply peers_in_boxes; eauto | now apply Hpass].
Qed.

Lemma conflicting_clues_unsat_witness :
  keys clash_values = boxes /\ In "A1" boxes /\ In "A2" (peers "A1")
  /\ String.length (dict_get clash_values "A1") = 1
  /\ dict_get clash_values "A2" = dict_get clash_values "A1"
  /\ fst (search 1 clash_values []) = Return PyFalse.
Proof.
  assert (Hk : keys clash_values = boxes) by (vm_compute; reflexivity).
  assert (Hb : In "A1" boxes) by (vm_compute; tauto).
  assert (Hp : In "A2" (peers "A1")) by (vm_compute; tauto).
  assert (Hl : String.length (dict_get clash_values "A1") = 1) by reflexivity.
  assert (He : dict_get clash_values "A2" = dict_get clash_values "A1") by reflexivity.
  split; [exact Hk|]. split; [exact Hb|]. split; [exact Hp|]. split; [exact Hl|].
  split; [exact He|].
  apply (conflicting_clues_unsat clash_values 0 [] "A1" "A2" Hk Hb Hp Hl He).
Defined.

(** ** The solution keeps the clues *)

Lemma reduce_puzzle_g_le fuel : forall values r,
  keys values = boxes ->
  reduce_puzzle_g fuel values = Return (PyDict r) -> le_dict r values.
Proof.
  induction fuel as [|fuel IH]; intros values r Hk; [discriminate|].
  cbn [reduce_puzzle_g]. cbv zeta.
  pose proof (pass_le values Hk) as Hle.
  destruct (negb _); [discriminate|].
  destruct (Nat.eqb _ _).
  - intros H. assert (Er : r = pass_g values) by congruence. now rewrite Er.
  - intros H. eapply le_dict_trans; [|exact Hle].
    apply IH; [eapply le_dict_keys; eauto | exact H].
Qed.

Lemma branch_box_some values n s :
  branch_box values = Some (n, s) ->
  In s boxes /\ 1 < String.length (dict_get values s).
Proof.
  intros E.
  assert (Hex : exists s0, In s0 boxes /\ 1 < String.length (dict_get values s0)).
  { unfold branch_box in E.
    destruct (filter (fun s => Nat.ltb 1 (String.length (dict_get values s))) boxes)
      as [|x l] eqn:F; [discriminate|].
    assert (Hx : In x (x :: l)) by now left. rewrite <- F in Hx.
    apply filter_In in Hx. destruct Hx as [H1 H2]. apply Nat.ltb_lt in H2. eauto. }
  destruct (branch_box_least values Hex) as (n' & s' & E' & Hs & Hn & Ln & _).
  rewrite E in E'. injection E' as -> ->. split; [exact Hs | lia].
Qed.

Lemma search_g_le fuel : forall values r,
  keys values = boxes ->
  search_g fuel values = Return (PyDict r) -> le_dict r values.
Proof.
  induction fuel as [|fuel IH]; intros values r Hk; [discriminate|].
  cbn [search_g].
  destruct (reduce_puzzle_g (S fuel) values) as [[v| |]| |] eqn:Er; try discriminate.
  pose proof (reduce_puzzle_g_le _ _ _ Hk Er) as Hv.
  pose proof (le_dict_keys _ _ Hv Hk) as Kv.
  destruct (negb (truthy (PyDict v))).
  { intros H. assert (r = v) by congruence. now subst. }
  destruct (forallb _ boxes).
  { intros H. assert (r = v) by congruence. now subst. }
  destruct (branch_box v) as [[n s]|] eqn:Eb; [|discriminate].
  destruct (branch_box_some _ _ _ Eb) as [Hs Ln].
  assert (Hloop : forall l, incl l (Py.iter (dict_get v s)) ->
            try_values (search_g fuel) v s l = Return (PyDict r) -> le_dict r values).
  { induction l as [|value l IHl]; intros Hl; cbn [try_values]; [discriminate|].
    assert (Hval : In value (Py.iter (dict_get v s))) by (apply Hl; now left).
    destruct (iter_char _ _ Hval) as [c ->].
    assert (Hnew : le_dict (dict_set v s (String c "")) v).
    { apply le_dict_set; [now rewrite Kv | now apply char_shrinks]. }
    unfold dict_copy.
    destruct (search_g fuel (dict_set v s (String c ""))) as [a| |] eqn:Ea;
      try discriminate.
    destruct (truthy a) eqn:Et.
    - intros H. assert (a = PyDict r) by congruence. subst a.
      eapply le_dict_trans; [|exact Hv]. eapply le_dict_trans; [|exact Hnew].
      apply IH; [eapply le_dict_keys; eauto | exact Ea].
    - apply IHl. intros x Hx. apply Hl. now right. }
  apply Hloop. apply incl_refl.
Qed.

(** X12.  The solved grid that [solve] returns fills every box with one of
    the candidates the input gave it: a clue box keeps its clue. *)
Theorem solve_keeps_clues (grid : string) (fuel : nat) (L : list dict) (r : dict) :
  730 <= fuel ->
  fst (solve fuel grid L) = Return (PyDict r) ->
  exists values,
    grid_values grid = Some values
    /\ forall s, In s boxes -> In (dict_get r s) (Py.iter (dict_get values s)).
Proof.
  intros Hf Hr. rewrite solve_fst in Hr.
  destruct (grid_values grid) as [values|] eqn:E; [|discriminate].
  exists values. split; [reflexivity|]. intros s Hs.
  destruct (grid_values_wf _ _ E) as [Hwf Ht]. pose proof Hwf as [Hk _].
  pose proof (search_g_le _ _ _ Hk Hr) as [_ Hle].
  pose proof (search_g_ok fuel values Hwf) as Hok.
  assert (Hlt : total_len values < fuel) by lia. specialize (Hok Hlt).
  rewrite Hr in Hok. cbn [search_ok] in Hok. destruct Hok as (_ & Hd & _).
  specialize (Hd s Hs). destruct (iter_char _ _ Hd) as [c Ec].
  apply (proj2 (proj2 (Hle s))). rewrite Ec. now left.
Qed.

Lemma solve_keeps_clues_witness :
  730 <= 730
  /\ fst (solve 730 docstring_grid []) = Return (PyDict solved_values)
  /\ exists values,
       grid_values docstring_grid = Some values
       /\ forall s, In s boxes ->
            In (dict_get solved_values s) (Py.iter (dict_get values s)).
Proof.
  assert (H1 : 730 <= 730) by apply Nat.le_refl.
  assert (H2 : fst (solve 730 docstring_grid []) = Return (PyDict solved_values))
    by (vm_compute; reflexivity).
  split; [exact H1|]. split; [exact H2|].
  apply (solve_keeps_clues docstring_grid 730 [] solved_values H1 H2).
Defined.

(** ** The rules keep every solution *)

Section Complete.

Variable sol : dict.
Hypothesis Hsol : solved_grid sol.

Lemma sol_digit s : In s boxes -> exists c, dict_get sol s = String c "".
Proof.
  intros Hs. destruct Hsol as (_ & Hd & _). eapply iter_char. apply Hd, Hs.
Qed.

Lemma count_map_filter (f : string -> string) d u :
  Py.count d (map f u) = List.length (filter (fun r => String.eqb d (f r)) u).
Proof.
  unfold Py.count. induction u as [|x u IH]; simpl; [reflexivity|].
  destruct (String.eqb d (f x)); simpl; now rewrite IH.
Qed.

Lemma sol_unit_differ unit a b :
  In unit unitlist -> In a unit -> In b unit -> a <> b ->
  dict_get sol a <> dict_get sol b.
Proof.
  intros Hu Ha Hb N E.
  destruct Hsol as (_ & Hd & Hunits).
  assert (Hcount : Py.count (dict_get sol a) (map (dict_get sol) unit) = 1).
  { apply Hunits; [exact Hu|]. apply Hd. eapply unit_in_boxes; eauto. }
  rewrite count_map_filter in Hcount.
  assert (Hincl : incl [a; b]
            (filter (fun r => String.eqb (dict_get sol a) (dict_get sol r)) unit)).
  { intros x [<-|[<-|[]]]; apply filter_In; split; auto.
    - apply String.eqb_refl.
    - now apply String.eqb_eq. }
  assert (ND : NoDup [a; b]).
  { constructor; [intros [H|[]]; congruence|]. constructor; [tauto | constructor]. }
  pose proof (NoDup_incl_length ND Hincl) as Hlen. simpl in Hlen. lia.
Qed.

Lemma sol_peers_differ b k :
  In k (peers b) -> dict_get sol k <> dict_get sol b.
Proof.
  intros Hp. apply peers_char in Hp. destruct Hp as (N & u & Hu & Hb & Hk).
  eapply sol_unit_differ; eauto.
Qed.

Lemma compatible_nonempty values s :
  compatible sol values -> In s boxes -> dict_get values s <> "".
Proof. intros H Hs E. specialize (H s Hs). rewrite E in H. destruct H. Qed.

(** *** [eliminate] *)

Lemma elim_box_compatible w b :
  In b boxes -> String.length (dict_get w b) <= 1 ->
  compatible sol w -> compatible sol (elim_box w b).
Proof.
  intros Hb Hl Hc k Hk. rewrite elim_box_get.
  destruct (Py.mem k (peers b)) eqn:Em; [|now apply Hc].
  apply mem_In in Em.
  destruct (dict_get w b) as [|c [|d rest]] eqn:Eb.
  - simpl. now apply Hc.
  - rewrite replace_char. destruct (sol_digit k Hk) as [c' Ec'].
    rewrite Ec'. apply sfilter_iter. exists c'. split; [reflexivity|].
    split; [|rewrite <- Ec'; now apply Hc].
    apply negb_true_iff. apply Ascii.eqb_neq. intros ->.
    apply (sol_peers_differ b k Em). rewrite Ec'.
    pose proof (Hc b Hb) as Hin. rewrite Eb in Hin. destruct Hin as [H|[]]. now rewrite <- H.
  - simpl in Hl. lia.
Qed.

Lemma eliminate_compatible values :
  keys values = boxes -> compatible sol values -> compatible sol (eliminate_g values).
Proof.
  intros Hk Hc. unfold eliminate_g, eliminate_in_g.
  assert (Hincl : incl (boxes_of_len 1 values) boxes)
    by (rewrite <- Hk; apply boxes_of_len_incl).
  assert (Hlen : forall b, In b (boxes_of_len 1 values) ->
                           String.length (dict_get values b) = 1).
  { intros b Hb. now apply boxes_of_len_In in Hb. }
  revert Hincl Hlen. generalize (boxes_of_len 1 values) as l. intros l Hincl Hlen.
  assert (H : compatible sol (fold_left elim_box l values)
              /\ le_dict (fold_left elim_box l values) values); [|apply H].
  apply (fold_left_inv
           (fun w => compatible sol w /\ le_dict w values) elim_box l).
  - intros w b Hb [Hcw Hle]. split.
    + apply elim_box_compatible; auto.
      pose proof (shrinks_length _ _ (proj2 Hle b)). rewrite (Hlen b Hb) in H. exact H.
    + eapply le_dict_trans; [|exact Hle].
      apply elim_box_le; [eapply le_dict_keys; eauto | auto].
  - split; [exact Hc | apply le_dict_refl].
Qed.

(** *** [naked_twins] *)

Lemma twins_of_In w unit x :
  In x (twins_of w unit) ->
  Py.count x (map (dict_get w) unit) = 2 /\ String.length x = 2.
Proof.
  unfold twins_of. cbv zeta. intros H. apply filter_In in H. destruct H as [_ H].
  apply andb_true_iff in H. destruct H as [H1 H2].
  split; now apply Nat.eqb_eq.
Qed.

Lemma two_holders (f : string -> string) unit x :
  NoDup unit -> Py.count x (map f unit) = 2 ->
  exists p q, p <> q /\ In p unit /\ In q unit /\ f p = x /\ f q = x.
Proof.
  intros ND Hc. rewrite count_map_filter in Hc.
  pose proof (NoDup_filter (fun r => String.eqb x (f r)) ND) as NDf.
  assert (Hin : forall r, In r (filter (fun r => String.eqb x (f r)) unit) ->
                          In r unit /\ f r = x).
  { intros r Hr. apply filter_In in Hr. destruct Hr as [H1 H2].
    apply String.eqb_eq in H2. auto. }
  destruct (filter (fun r => String.eqb x (f r)) unit) as [|p [|q [|z l]]];
    try discriminate.
  exists p, q. inversion NDf as [|? ? Np _]; subst.
  destruct (Hin p (or_introl eq_refl)) as [Hp1 Hp2].
  destruct (Hin q (or_intror (or_introl eq_refl))) as [Hq1 Hq2].
  repeat split; auto. intros ->. apply Np. now left.
Qed.

Lemma twin_char_holder w0 unit x c :
  In unit unitlist -> compatible sol w0 ->
  In x (twins_of w0 unit) -> In c (Py.iter x) ->
  exists r, In r unit /\ dict_get w0 r = x /\ dict_get sol r = c.
Proof.
  intros Hu Hc Hx Hin. destruct (twins_of_In _ _ _ Hx) as [Hcount Hlen].
  destruct (two_holders (dict_get w0) unit x (unit_nodup _ Hu) Hcount)
    as (p & q & Npq & Hp & Hq & Ep & Eq).
  pose proof (sol_unit_differ unit p q Hu Hp Hq Npq) as Hd.
  pose proof (Hc p (unit_in_boxes _ _ Hu Hp)) as Cp. rewrite Ep in Cp.
  pose proof (Hc q (unit_in_boxes _ _ Hu Hq)) as Cq. rewrite Eq in Cq.
  destruct x as [|a [|b [|z x]]]; try discriminate.
  cbn [Py.iter] in *.
  destruct Hin as [<-|[<-|[]]], Cp as [Cp|[Cp|[]]], Cq as [Cq|[Cq|[]]];
    try (exists p; now auto); try (exists q; now auto); congruence.
Qed.

Section Unit.

Variable w0 : dict.
Variable unit : list string.
Hypothesis Hu : In unit unitlist.
Hypothesis Hc0 : compatible sol w0.


Lemma twin_box_inv numbers number w box :
  In numbers (twins_of w0 unit) -> In number (Py.iter numbers) -> In box unit ->
  twins_inv sol w0 unit w -> twins_inv sol w0 unit (twin_box numbers number w box).
Proof.
  intros Hn Hd Hb [Hc Ht].
  destruct (twin_char_holder w0 unit numbers number Hu Hc0 Hn Hd) as (r1 & Hr1 & E1 & S1).
  destruct (iter_char _ _ Hd) as [n En].
  split.
  - intros k Hk. rewrite twin_box_get.
    destruct (String.eqb_spec box k) as [<-|]; [|now apply Hc].
    destruct (String.eqb_spec (dict_get w box) numbers) as [|N]; [now apply Hc|].
    rewrite En, replace_char. destruct (sol_digit box Hk) as [c Ec].
    rewrite Ec. apply sfilter_iter. exists c. split; [reflexivity|].
    split; [|rewrite <- Ec; now apply Hc].
    apply negb_true_iff, Ascii.eqb_neq. intros ->.
    assert (Nb : box <> r1).
    { intros ->. apply N. rewrite Ht; [exact E1 | exact Hr1 | now rewrite E1]. }
    apply (sol_unit_differ unit box r1 Hu Hb Hr1 Nb). congruence.
  - intros r Hr Hin. rewrite twin_box_get.
    destruct (String.eqb_spec box r) as [<-|]; [|now apply Ht].
    rewrite (Ht box Hr Hin).
    destruct (String.eqb_spec (dict_get w0 box) numbers) as [|N]; [reflexivity|].
    rewrite En, replace_char. apply sfilter_all. intros c Hcin.
    apply negb_true_iff, Ascii.eqb_neq. intros ->.
    destruct (twin_char_holder w0 unit (dict_get w0 box) (String n "") Hu Hc0 Hin Hcin)
      as (r2 & Hr2 & E2 & S2).
    assert (N12 : r1 <> r2) by (intros ->; congruence).
    apply (sol_unit_differ unit r1 r2 Hu Hr1 Hr2 N12). congruence.
Qed.

Lemma naked_twins_unit_compatible : compatible sol (naked_twins_unit_g w0 unit).
Proof.
  unfold naked_twins_unit_g.
  assert (H : twins_inv sol w0 unit (fold_left (fun values numbers =>
               fold_left (fun values number =>
                 fold_left (twin_box numbers number) unit values)
                 (Py.iter numbers) values) (twins_of w0 unit) w0)); [|apply H].
  apply (fold_left_inv (twins_inv sol w0 unit)).
  - intros w numbers Hn Hw.
    apply (fold_left_inv (twins_inv sol w0 unit)); [|exact Hw].
    intros w1 number Hd Hw1.
    apply (fold_left_inv (twins_inv sol w0 unit)); [|exact Hw1].
    intros w2 box Hb Hw2. now apply twin_box_inv.
  - split; [exact Hc0 | reflexivity].
Qed.

End Unit.

Lemma naked_twins_compatible values :
  compatible sol values -> compatible sol (naked_twins_g values).
Proof.
  intros Hc. unfold naked_twins_g.
  apply (fold_left_inv (compatible sol)); [|exact Hc].
  intros w unit Hu Hw. now apply naked_twins_unit_compatible.
Qed.

(** *** [only_choice] *)

Lemma choice_digit_compatible unit w digit :
  In unit unitlist -> In digit (Py.iter cols) ->
  compatible sol w -> compatible sol (choice_digit unit w digit).
Proof.
  intros Hu Hd Hc. unfold choice_digit.
  set (dplaces := filter (fun box => Py.contains digit (dict_get w box)) unit).
  destruct (Nat.eqb_spec (List.length dplaces) 1) as [E|_]; [|exact Hc].
  destruct Hsol as (_ & _ & Hunits).
  pose proof (Hunits unit Hu digit Hd) as Hcount.
  assert (Hin : In digit (map (dict_get sol) unit)).
  { unfold Py.count in Hcount.
    destruct (filter (String.eqb digit) (map (dict_get sol) unit)) as [|y l] eqn:F;
      [discriminate|].
    assert (Hy : In y (y :: l)) by now left. rewrite <- F in Hy.
    apply filter_In in Hy. destruct Hy as [Hy Ey]. apply String.eqb_eq in Ey. now subst. }
  apply in_map_iff in Hin. destruct Hin as (r & Er & Hr).
  destruct (iter_char _ _ Hd) as [c Ed].
  assert (Hrd : In r dplaces).
  { apply filter_In. split; [exact Hr|]. rewrite Ed. apply contains_char.
    rewrite <- Ed, <- Er. apply Hc. eapply unit_in_boxes; eauto. }
  assert (Ehd : hd "" dplaces = r).
  { destruct dplaces as [|x [|y l]]; try discriminate.
    destruct Hrd as [->|[]]. reflexivity. }
  rewrite Ehd. intros k Hk. rewrite dict_get_set.
  destruct (String.eqb_spec r k) as [<-|]; [|now apply Hc].
  rewrite Er, Ed. now left.
Qed.

Lemma only_choice_compatible values :
  compatible sol values -> compatible sol (only_choice_g values).
Proof.
  intros Hc. unfold only_choice_g.
  apply (fold_left_inv (compatible sol)); [|exact Hc].
  intros w unit Hu Hw.
  apply (fold_left_inv (compatible sol)); [|exact Hw].
  intros w1 digit Hd Hw1. now apply choice_digit_compatible.
Qed.

Lemma pass_compatible values :
  keys values = boxes -> compatible sol values -> compatible sol (pass_g values).
Proof.
  intros Hk Hc. unfold pass_g.
  apply only_choice_compatible, naked_twins_compatible, eliminate_compatible; auto.
Qed.

(** *** [reduce_puzzle] and [search] *)

Lemma reduce_puzzle_g_compatible fuel : forall values,
  keys values = boxes -> total_len values < fuel -> compatible sol values ->
  exists r, reduce_puzzle_g fuel values = Return (PyDict r)
            /\ compatible sol r /\ le_dict r values.
Proof.
  induction fuel as [|fuel IH]; intros values Hk Hf Hc; [lia|].
  cbn [reduce_puzzle_g]. cbv zeta.
  pose proof (pass_le values Hk) as Hle.
  pose proof (pass_compatible values Hk Hc) as Hcp.
  pose proof (le_dict_keys _ _ Hle Hk) as Kp.
  destruct (Nat.eqb_spec (List.length (boxes_of_len 0 (pass_g values))) 0) as [E0|N0];
    cbn [negb].
  - destruct (Nat.eqb_spec (List.length (boxes_of_len 1 values))
                           (List.length (boxes_of_len 1 (pass_g values)))) as [E1|N1].
    + exists (pass_g values). auto.
    + assert (Hlt : total_len (pass_g values) < total_len values).
      { pose proof (total_len_le _ _ Hle).
        destruct (Nat.eq_dec (total_len (pass_g values)) (total_len values)) as [E|]; [|lia].
        apply total_len_same in E; auto. rewrite E in N1. exfalso. apply N1. reflexivity. }
      destruct (IH (pass_g values) Kp) as (r & Er & Hcr & Hlr); [lia | exact Hcp|].
      exists r. split; [exact Er|]. split; [exact Hcr|]. eapply le_dict_trans; eauto.
  - exfalso. apply N0.
    destruct (boxes_of_len 0 (pass_g values)) as [|x l] eqn:F; [reflexivity|].
    assert (Hx : In x (boxes_of_len 0 (pass_g values))) by (rewrite F; now left).
    apply boxes_of_len_In in Hx. destruct Hx as [Hx1 Hx2]. rewrite Kp in Hx1.
    exfalso. apply (compatible_nonempty _ x Hcp Hx1).
    destruct (dict_get (pass_g values) x); [reflexivity | discriminate].
Qed.

Lemma unsolved_exists v :
  (forall s, In s boxes -> dict_get v s <> "") ->
  forallb (fun s => Nat.eqb (String.length (dict_get v s)) 1) boxes = false ->
  exists s, In s boxes /\ 1 < String.length (dict_get v s).
Proof.
  intros Hne Eall.
  destruct (existsb (fun s => negb (Nat.eqb (String.length (dict_get v s)) 1)) boxes)
    eqn:Ex.
  - apply existsb_exists in Ex. destruct Ex as (s & Hs & Hn).
    exists s. split; [exact Hs|].
    apply negb_true_iff, Nat.eqb_neq in Hn.
    specialize (Hne s Hs). destruct (dict_get v s) as [|a [|b r]]; simpl in *;
      try congruence; lia.
  - exfalso.
    assert (Hall : forallb (fun s => Nat.eqb (String.length (dict_get v s)) 1) boxes = true).
    { apply forallb_forall. intros s Hs.
      destruct (Nat.eqb (String.length (dict_get v s)) 1) eqn:E1; [reflexivity|].
      assert (Hc : existsb (fun s => negb (Nat.eqb (String.length (dict_get v s)) 1)) boxes
                   = true).
      { apply existsb_exists. exists s. split; [exact Hs | now rewrite E1]. }
      rewrite Hc in Ex. discriminate. }
    rewrite Hall in Eall. discriminate.
Qed.

Lemma try_values_complete rec values s l :
  (forall value, In value l -> search_ok (rec (dict_set (dict_copy values) s value))) ->
  (exists value r, In value l
     /\ rec (dict_set (dict_copy values) s value) = Return (PyDict r)) ->
  exists r, try_values rec values s l = Return (PyDict r).
Proof.
  induction l as [|value l IH]; intros Hok (v0 & r0 & Hin & Hr0); [destruct Hin|].
  cbn [try_values].
  pose proof (Hok value (or_introl eq_refl)) as Hv.
  destruct (rec (dict_set (dict_copy values) s value)) as [a| |] eqn:Ea;
    try contradiction.
  destruct a as [d| |].
  - cbn [search_ok] in Hv. destruct Hv as (Kd & _).
    assert (Ht : truthy (PyDict d) = true).
    { cbn [truthy]. rewrite keys_length, Kd. reflexivity. }
    rewrite Ht. eauto.
  - cbn [truthy]. apply IH; [intros; apply Hok; now right|].
    destruct Hin as [<-|Hin]; [rewrite Ea in Hr0; discriminate | eauto].
  - cbn [truthy]. apply IH; [intros; apply Hok; now right|].
    destruct Hin as [<-|Hin]; [rewrite Ea in Hr0; discriminate | eauto].
Qed.

Lemma search_g_complete fuel : forall values,
  wf_grid values -> total_len values < fuel -> compatible sol values ->
  exists r, search_g fuel values = Return (PyDict r).
Proof.
  induction fuel as [|fuel IH]; intros values Hwf Hf Hc; [lia|].
  pose proof Hwf as [Hk _]. cbn [search_g].
  destruct (reduce_puzzle_g_compatible (S fuel) values Hk Hf Hc) as (v & Er & Hcv & Hlv).
  rewrite Er.
  pose proof (le_dict_wf _ _ Hlv Hwf) as Hwv. pose proof Hwv as [Kv _].
  pose proof (total_len_le _ _ Hlv) as T1.
  destruct (negb (truthy (PyDict v))); [eauto|].
  destruct (forallb (fun s => Nat.eqb (String.length (dict_get v s)) 1) boxes) eqn:Eall;
    [eauto|].
  assert (Hex : exists s, In s boxes /\ 1 < String.length (dict_get v s)).
  { apply unsolved_exists; [|exact Eall].
    intros s Hs. now apply compatible_nonempty. }
  destruct (branch_box_least v Hex) as (n & s & Eb & Hs & Hn & Ln & _).
  rewrite Eb.
  - assert (Hstep : forall value, In value (Py.iter (dict_get v s)) ->
              wf_grid (dict_set v s value) /\ total_len (dict_set v s value) < fuel).
    { intros value Hval. destruct (iter_char _ _ Hval) as [c ->].
      assert (Hnew : le_dict (dict_set v s (String c "")) v).
      { apply le_dict_set; [now rewrite Kv | now apply char_shrinks]. }
      split; [eapply le_dict_wf; eauto|].
      pose proof (total_len_le _ _ Hnew) as T3.
      destruct (Nat.eq_dec (total_len (dict_set v s (String c ""))) (total_len v)) as [Eq|];
        [|lia].
      apply total_len_same in Eq; auto.
      apply (f_equal (fun d => String.length (dict_get d s))) in Eq.
      rewrite dict_get_set_same in Eq. simpl in Eq. lia. }
    apply try_values_complete.
    + intros value Hval. unfold dict_copy.
      destruct (Hstep value Hval) as [W T]. now apply search_g_ok.
    + exists (dict_get sol s). unfold dict_copy.
      assert (Hval : In (dict_get sol s) (Py.iter (dict_get v s))) by now apply Hcv.
      destruct (Hstep _ Hval) as [W T].
      destruct (IH (dict_set v s (dict_get sol s)) W T) as (r & Hr).
      * intros k Hkb. rewrite dict_get_set.
        destruct (String.eqb_spec s k) as [<-|]; [|now apply Hcv].
        destruct (sol_digit s Hs) as [c ->]. now left.
      * eauto.
Qed.

End Complete.

(** ** [solve] finds a solution whenever there is one *)

Lemma docstring_values_parsed : grid_values docstring_grid = Some docstring_values.
Proof. vm_compute. reflexivity. Qed.

Lemma solved_values_solution :
  solved_grid solved_values /\ compatible solved_values docstring_values.
Proof.
  assert (E : search_g 730 docstring_values = Return (PyDict solved_values))
    by (vm_compute; reflexivity).
  destruct (grid_values_wf _ _ docstring_values_parsed) as [Hwf Ht].
  pose proof (search_g_ok 730 docstring_values Hwf) as Hok.
  assert (Hlt : total_len docstring_values < 730) by lia.
  specialize (Hok Hlt). rewrite E in Hok. cbn [search_ok] in Hok.
  split; [exact Hok|].
  destruct Hwf as [Hk _]. pose proof (search_g_le _ _ _ Hk E) as [_ Hle].
  intros s Hs. destruct Hok as (_ & Hd & _).
  destruct (iter_char _ _ (Hd s Hs)) as [c Ec].
  apply (proj2 (proj2 (Hle s))). rewrite Ec. now left.
Qed.

(** X13.  With fuel of at least 730, [solve] returns a dict exactly when
    the grid has a solution, that is a filling of the 81 boxes that takes
    each box's digit from its candidates and puts each digit once in each
    of the 29 units; the dict it returns is such a solution.  So [False]
    and [None] are returned only for grids without solution. *)
Theorem solve_complete (grid : string) (fuel : nat) (L : list dict) (values : dict) :
  730 <= fuel ->
  grid_values grid = Some values ->
  ((exists sol, solved_grid sol /\ compatible sol values) <->
   (exists r, fst (solve fuel grid L) = Return (PyDict r)
              /\ solved_grid r /\ compatible r values)).
Proof.
  intros Hf E. rewrite solve_fst, E.
  destruct (grid_values_wf _ _ E) as [Hwf Ht]. pose proof Hwf as [Hk _].
  assert (Hlt : total_len values < fuel) by lia.
  pose proof (search_g_ok fuel values Hwf Hlt) as Hok.
  split.
  - intros (sol & Hsol & Hc).
    destruct (search_g_complete sol Hsol fuel values Hwf Hlt Hc) as (r & Hr).
    exists r. split; [exact Hr|]. rewrite Hr in Hok. cbn [search_ok] in Hok.
    split; [exact Hok|].
    pose proof (search_g_le _ _ _ Hk Hr) as [_ Hle].
    intros s Hs. destruct Hok as (_ & Hd & _).
    destruct (iter_char _ _ (Hd s Hs)) as [c Ec].
    apply (proj2 (proj2 (Hle s))). rewrite Ec. now left.
  - intros (r & _ & Hs & Hc). eauto.
Qed.

Lemma solve_complete_witness :
  730 <= 730
  /\ grid_values docstring_grid = Some docstring_values
  /\ ((exists sol, solved_grid sol /\ compatible sol docstring_values) <->
      (exists r, fst (solve 730 docstring_grid []) = Return (PyDict r)
                 /\ solved_grid r /\ compatible r docstring_values)).
Proof.
  assert (H1 : 730 <= 730) by apply Nat.le_refl.
  split; [exact H1|]. split; [exact docstring_values_parsed|].
  apply (solve_complete docstring_grid 730 [] docstring_values H1 docstring_values_parsed).
Defined.

(** X14.  [search] returns a solved grid as it is. *)
Theorem search_solved_fixed (values : dict) (fuel : nat) (L : list dict) :
  solved_grid values -> 81 < fuel ->
  fst (search fuel values L) = Return (PyDict values).
Proof.
  intros Hs Hf. rewrite search_fst.
  pose proof Hs as (Hk & Hd & _).
  assert (Hlen : forall s, In s boxes -> String.length (dict_get values s) = 1).
  { intros s Hin. destruct (iter_char _ _ (Hd s Hin)) as [c ->]. reflexivity. }
  assert (Hwf : wf_grid values).
  { split; [exact Hk|]. intros k.
    destruct (in_dec string_dec k boxes) as [Hin|Hout].
    - destruct (iter_char _ _ (Hd k Hin)) as [c Ec]. rewrite Ec.
      intros x [<-|[]]. rewrite <- Ec. now apply Hd.
    - assert (E : dict_get values k = "").
      { rewrite <- Hk in Hout. clear - Hout. induction values as [|[k' v'] d IH]; [reflexivity|].
        simpl in *. destruct (String.eqb_spec k k') as [->|N]; [tauto|]. apply IH. tauto. }
      rewrite E. intros x []. }
  assert (Ht : total_len values = 81).
  { unfold total_len. rewrite (map_ext_in _ (fun _ => 1)) by exact Hlen.
    clear. change 81 with (List.length boxes).
    induction boxes as [|x l IH]; simpl; [reflexivity | now rewrite IH]. }
  assert (Hc : compatible values values).
  { intros s Hin. destruct (iter_char _ _ (Hd s Hin)) as [c ->]. now left. }
  assert (Hlt : total_len values < fuel) by lia.
  destruct (search_g_complete values Hs fuel values Hwf Hlt Hc) as (r & Hr).
  rewrite Hr. f_equal. f_equal.
  pose proof (search_g_le _ _ _ Hk Hr) as Hle.
  pose proof (search_g_ok fuel values Hwf Hlt) as Hok. rewrite Hr in Hok.
  cbn [search_ok] in Hok. destruct Hok as (Kr & Hdr & _).
  apply dict_ext; [congruence | rewrite Kr; apply boxes_nodup|].
  intros k Hin. rewrite Kr in Hin. apply shrinks_same; [apply Hle|].
  rewrite (Hlen k Hin). destruct (iter_char _ _ (Hdr k Hin)) as [c ->]. reflexivity.
Qed.

Lemma search_solved_fixed_witness :
  solved_grid solved_values /\ 81 < 82
  /\ fst (search 82 solved_values []) = Return (PyDict solved_values).
Proof.
  assert (H1 : solved_grid solved_values) by apply solved_values_solution.
  assert (H2 : 81 < 82) by lia.
  split; [exact H1|]. split; [exact H2|].
  apply (search_solved_fixed solved_values 82 [] H1 H2).
Defined.

(** ** [display] *)

Section Display.










Lemma display_lines values :
  display values =
  let width := display_width values in
  let line := String.concat "+" (repeat (str_mul "-" (width * 3)) 3) in
  [ display_row values width "A"; display_row values width "B";
    display_row values width "C"; line;
    display_row values width "D"; display_row values width "E";
    display_row values width "F"; line;
    display_row values width "G"; display_row values width "H";
    display_row values width "I" ].
Proof. reflexivity. Qed.

End Display.



Section DisplayDigits.

Lemma sfilter_app f a b :
  sfilter f (a ++ b)%string = (sfilter f a ++ sfilter f b)%string.
Proof.
  induction a as [|c a IH]; simpl; [reflexivity|].
  destruct (f c); simpl; now rewrite IH.
Qed.

Lemma append_nil_r (s : string) : (s ++ "")%string = s.
Proof. induction s as [|c s IH]; simpl; [reflexivity | now rewrite IH]. Qed.

Lemma concat_nil_cons x l :
  String.concat "" (x :: l) = (x ++ String.concat "" l)%string.
Proof. destruct l; simpl; [now rewrite append_nil_r | reflexivity]. Qed.

Lemma digits_of_str_mul c n :
  Py.contains (String c "") cols = false -> digits_of (str_mul (String c "") n) = "".
Proof.
  intros H. unfold digits_of. induction n as [|n IH]; [reflexivity|].
  cbn [str_mul append sfilter]. rewrite H. exact IH.
Qed.

Lemma digits_of_digits s :
  incl (Py.iter s) (Py.iter cols) -> digits_of s = s.
Proof.
  intros H. unfold digits_of. apply sfilter_all.
  intros c Hc. apply contains_char. now apply H.
Qed.

Lemma digits_of_center s width :
  incl (Py.iter s) (Py.iter cols) -> digits_of (center s width) = s.
Proof.
  intros H. unfold center. destruct (Nat.leb width (String.length s)).
  - now apply digits_of_digits.
  - cbv zeta. unfold digits_of. rewrite !sfilter_app. fold (digits_of s).
    fold (digits_of (str_mul " " (width - String.length s
             - ((width - String.length s) / 2
                + (if Nat.odd (width - String.length s) && Nat.odd width then 1 else 0))))).
    fold (digits_of (str_mul " " ((width - String.length s) / 2
                + (if Nat.odd (width - String.length s) && Nat.odd width then 1 else 0)))).
    rewrite !digits_of_str_mul by reflexivity.
    rewrite (digits_of_digits s H). simpl. apply append_nil_r.
Qed.

Lemma digits_of_concat l :
  digits_of (String.concat "" l) = String.concat "" (map digits_of l).
Proof.
  induction l as [|x l IH]; [reflexivity|].
  cbn [map]. rewrite !concat_nil_cons. unfold digits_of in *.
  now rewrite sfilter_app, IH.
Qed.

Lemma digits_of_row values width r :
  wf_grid values ->
  digits_of (display_row values width r)
  = String.concat "" (map (fun c => dict_get values (r ++ c)%string) (Py.iter cols)).
Proof.
  intros [_ Hwf]. unfold display_row. rewrite digits_of_concat, map_map.
  f_equal. apply map_ext. intros c. unfold digits_of. rewrite sfilter_app.
  fold (digits_of (center (dict_get values (r ++ c)) width)).
  rewrite digits_of_center by apply Hwf.
  destruct (Py.contains c "36"); simpl; apply append_nil_r.
Qed.

Lemma map_snd_get (d : dict) :
  NoDup (keys d) -> map snd d = map (dict_get d) (keys d).
Proof.
  induction d as [|[k v] d IH]; intros ND; [reflexivity|].
  simpl in *. inversion ND as [|? ? Nk ND']; subst.
  rewrite String.eqb_refl. f_equal. rewrite IH by exact ND'.
  apply map_ext_in. intros k' Hk'.
  destruct (String.eqb_spec k' k) as [->|]; [contradiction | reflexivity].
Qed.

Lemma concat_flat_map {A} (h : A -> list string) l :
  String.concat "" (flat_map h l)
  = String.concat "" (map (fun x => String.concat "" (h x)) l).
Proof.
  induction l as [|x l IH]; [reflexivity|].
  cbn [flat_map map]. rewrite concat_nil_cons, <- IH. clear IH.
  induction (h x) as [|y ys IHy]; [reflexivity|].
  cbn [app]. rewrite !concat_nil_cons, IHy.
  clear. generalize (String.concat "" ys) as a, (String.concat "" (flat_map h l)) as b.
  induction y as [|c y IH]; intros; simpl; [reflexivity | now rewrite IH].
Qed.

Lemma map_flat_map' {A B C} (f : B -> C) (g : A -> list B) l :
  map f (flat_map g l) = flat_map (fun x => map f (g x)) l.
Proof.
  induction l as [|x l IH]; simpl; [reflexivity|]. now rewrite map_app, IH.
Qed.

End DisplayDigits.

(** X16.  On a grid of digits over the 81 boxes, the digits that [display]
    prints, read line by line, are the candidates of the boxes in row-major
    order: the padding, the bars and the rules add no digit and no
    candidate is lost. *)
Theorem display_digits (values : dict) :
  wf_grid values ->
  String.concat "" (map digits_of (display values)) = spell values.
Proof.
  intros Hwf. pose proof Hwf as [Hk _].
  assert (Hrule : forall w,
            digits_of (String.concat "+" (repeat (str_mul "-" (w * 3)) 3)) = "").
  { intros w. cbn [repeat String.concat]. unfold digits_of. rewrite !sfilter_app.
    fold (digits_of (str_mul "-" (w * 3))).
    rewrite digits_of_str_mul by reflexivity. reflexivity. }
  assert (Hspell : spell values
            = String.concat ""
                (map (fun r => digits_of (display_row values (display_width values) r))
                     (Py.iter rows))).
  { unfold spell. rewrite map_snd_get by (rewrite Hk; apply boxes_nodup). rewrite Hk.
    unfold boxes, _get_boxes, cross.
    rewrite map_flat_map', concat_flat_map.
    f_equal. apply map_ext. intros r. rewrite map_map. symmetry.
    now apply digits_of_row. }
  rewrite Hspell. rewrite display_lines. cbv zeta. cbn [map]. rewrite Hrule.
  change (Py.iter rows) with ["A"; "B"; "C"; "D"; "E"; "F"; "G"; "H"; "I"].
  cbn [map]. rewrite !concat_nil_cons. reflexivity.
Qed.

Lemma display_digits_witness :
  wf_grid diag_values
  /\ String.concat "" (map digits_of (display diag_values)) = spell diag_values.
Proof.
  assert (Hwf : wf_grid diag_values)
    by apply (grid_values_wf _ _ diag_values_parsed).
  split; [exact Hwf | apply (display_digits diag_values Hwf)].
Defined.

(** ** Branching on a copy *)

(** X17.  What [search] does before it branches, [new_sudoku =
    values.copy()] and then [assign_value(new_sudoku, s, value)], writes
    into a new dict object only: the dict that was copied is as it was, so
    the next digit is tried on the same grid. *)
Theorem copy_then_assign (st : Obj.state) (values : Obj.ref) (box value : string) :
  values < List.length (Obj.store st) ->
  let st1 := fst (Obj.copy st values) in
  let new_sudoku := snd (Obj.copy st values) in
  let st2 := fst (Obj.assign_value st1 new_sudoku box value) in
  new_sudoku <> values
  /\ snd (Obj.assign_value st1 new_sudoku box value) = new_sudoku
  /\ Obj.deref st2 new_sudoku = dict_set (Obj.deref st values) box value
  /\ (forall r, r < List.length (Obj.store st) -> Obj.deref st2 r = Obj.deref st r).
Proof.
  intros Hv. cbv zeta. rewrite obj_assign_value_eq. cbv zeta.
  unfold Obj.copy, Obj.deref. cbn [fst snd Obj.store Obj.assignments].
  rewrite nth_middle.
  set (d := dict_set (nth values (Obj.store st) []) box value).
  set (store1 := Obj.store st ++ [nth values (Obj.store st) []]).
  assert (Hlen : List.length (Obj.store st) < List.length store1).
  { unfold store1. rewrite length_app. simpl. lia. }
  assert (Hsame : forall sfx,
            nth (List.length (Obj.store st))
                (Obj.write store1 (List.length (Obj.store st)) d ++ sfx) [] = d).
  { intros sfx. rewrite app_nth1 by (rewrite write_length; exact Hlen).
    now apply nth_write_same. }
  assert (Hother : forall sfx r, r < List.length (Obj.store st) ->
            nth r (Obj.write store1 (List.length (Obj.store st)) d ++ sfx) []
            = nth r (Obj.store st) []).
  { intros sfx r Hr. rewrite app_nth1 by (rewrite write_length; lia).
    rewrite nth_write_other by lia. unfold store1. now rewrite app_nth1. }
  split; [lia|].
  destruct (Nat.eqb (String.length value) 1); cbn [fst snd Obj.store].
  - split; [reflexivity|]. split; [apply Hsame | apply Hother].
  - split; [reflexivity|].
    specialize (Hsame []). rewrite app_nil_r in Hsame. split; [exact Hsame|].
    intros r Hr. specialize (Hother [] r Hr). now rewrite app_nil_r in Hother.
Qed.

Lemma copy_then_assign_witness :
  0 < List.length (Obj.store example_state)
  /\ let st1 := fst (Obj.copy example_state 0) in
     let new_sudoku := snd (Obj.copy example_state 0) in
     let st2 := fst (Obj.assign_value st1 new_sudoku "A2" "6") in
     new_sudoku <> 0
     /\ snd (Obj.assign_value st1 new_sudoku "A2" "6") = new_sudoku
     /\ Obj.deref st2 new_sudoku = dict_set (Obj.deref example_state 0) "A2" "6"
     /\ (forall r, r < List.length (Obj.store example_state) ->
                   Obj.deref st2 r = Obj.deref example_state r).
Proof.
  assert (H : 0 < List.length (Obj.store example_state)) by (simpl; lia).
  split; [exact H | apply (copy_then_assign example_state 0 "A2" "6" H)].
Defined.

(** ** [naked_twins] without a pair *)

Lemma filter_none {A} (f : A -> bool) l :
  (forall x, In x l -> f x = false) -> filter f l = [].
Proof.
  induction l as [|x l IH]; simpl; intros H; [reflexivity|].
  rewrite (H x) by now left. apply IH. intros; apply H; now right.
Qed.

(** X18.  On a grid over the 81 boxes in which no box has exactly two
    candidates, [naked_twins] returns the dict it was given and appends
    nothing to [assignments]. *)
Theorem naked_twins_without_pairs (values : dict) (L : list dict) :
  keys values = boxes ->
  (forall s, In s boxes -> String.length (dict_get values s) <> 2) ->
  naked_twins values L = (values, L).
Proof.
  intros _ Hno. unfold naked_twins.
  assert (H : forall l, incl l unitlist ->
            for_each l naked_twins_unit values L = (values, L)); [|apply H, incl_refl].
  induction l as [|unit l IH]; intros Hl; [reflexivity|].
  cbn [for_each]. unfold bind.
  assert (Hu : In unit unitlist) by (apply Hl; now left).
  assert (E : naked_twins_unit values unit L = (values, L)).
  { unfold naked_twins_unit. cbv zeta.
    assert (T : twins_of values unit = []).
    { unfold twins_of. cbv zeta. apply filter_none. intros x Hx.
      apply in_map_iff in Hx. destruct Hx as (s & <- & Hs).
      apply andb_false_iff. right. apply Nat.eqb_neq, Hno.
      eapply unit_in_boxes; eauto. }
    rewrite T. reflexivity. }
  rewrite E. apply IH. intros x Hx. apply Hl. now right.
Qed.

Lemma naked_twins_without_pairs_witness :
  keys solved_values = boxes
  /\ (forall s, In s boxes -> String.length (dict_get solved_values s) <> 2)
  /\ naked_twins solved_values [] = (solved_values, []).
Proof.
  assert (Hk : keys solved_values = boxes) by (vm_compute; reflexivity).
  assert (Hno : forall s, In s boxes -> String.length (dict_get solved_values s) <> 2).
  { intros s Hs.
    assert (H : forallb (fun s => negb (Nat.eqb (String.length (dict_get solved_values s)) 2))
                        boxes = true) by (vm_compute; reflexivity).
    rewrite forallb_forall in H. specialize (H s Hs).
    now apply negb_true_iff, Nat.eqb_neq in H. }
  split; [exact Hk|]. split; [exact Hno|].
  apply (naked_twins_without_pairs solved_values [] Hk Hno).
Defined.

(** ** The loop of [reduce_puzzle] ends *)

Lemma reduce_puzzle_g_S fuel values :
  reduce_puzzle_g (S fuel) values =
  if negb (Nat.eqb (List.length (boxes_of_len 0 (pass_g values))) 0)
  then Return PyFalse
  else if Nat.eqb (List.length (boxes_of_len 1 values))
                  (List.length (boxes_of_len 1 (pass_g values)))
  then Return (PyDict (pass_g values))
  else reduce_puzzle_g fuel (pass_g values).
Proof. reflexivity. Qed.

Lemma reduce_puzzle_g_more fuel : forall values o k,
  reduce_puzzle_g fuel values = o -> o <> OutOfFuel ->
  reduce_puzzle_g (fuel + k) values = o.
Proof.
  induction fuel as [|fuel IH]; intros values o k E N.
  - exfalso. apply N. rewrite <- E. reflexivity.
  - change (S fuel + k) with (S (fuel + k)).
    rewrite reduce_puzzle_g_S in *.
    generalize dependent (pass_g values). intros v E.
    destruct (negb _); [exact E|].
    destruct (Nat.eqb _ _); [exact E|]. now apply IH.
Qed.

(** X19.  On a grid over the 81 boxes the loop of [reduce_puzzle] ends
    within as many passes as the grid has candidates, plus one: it then
    returns [False] or a dict whose candidates are among those given, and
    allowing more passes does not change what it returns. *)
Theorem reduce_puzzle_terminates (values : dict) (fuel : nat) (L : list dict) :
  keys values = boxes ->
  total_len values < fuel ->
  (fst (reduce_puzzle fuel values L) = Return PyFalse
   \/ exists r, fst (reduce_puzzle fuel values L) = Return (PyDict r)
                /\ le_dict r values)
  /\ forall k, fst (reduce_puzzle (fuel + k) values L) = fst (reduce_puzzle fuel values L).
Proof.
  intros Hk Hf. rewrite reduce_puzzle_fst.
  assert (H : reduce_puzzle_g fuel values = Return PyFalse
              \/ exists r, reduce_puzzle_g fuel values = Return (PyDict r)
                           /\ le_dict r values).
  { destruct (reduce_puzzle_g_spec fuel values Hk Hf) as [E|(u & E & Hle & _)];
      [now left | right].
    exists (pass_g u). split; [exact E|].
    eapply le_dict_trans; [apply pass_le; eapply le_dict_keys; eauto | exact Hle]. }
  split; [exact H|].
  intros k. rewrite reduce_puzzle_fst. apply reduce_puzzle_g_more; [reflexivity|].
  destruct H as [E|(r & E & _)]; rewrite E; discriminate.
Qed.

Lemma reduce_puzzle_terminates_witness :
  keys diag_values = boxes
  /\ total_len diag_values < 730
  /\ (fst (reduce_puzzle 730 diag_values []) = Return PyFalse
      \/ exists r, fst (reduce_puzzle 730 diag_values []) = Return (PyDict r)
                   /\ le_dict r diag_values)
  /\ forall k, fst (reduce_puzzle (730 + k) diag_values [])
               = fst (reduce_puzzle 730 diag_values []).
Proof.
  assert (Hk : keys diag_values = boxes) by (vm_compute; reflexivity).
  assert (Ht : total_len diag_values < 730) by (vm_compute; lia).
  split; [exact Hk|]. split; [exact Ht|].
  apply (reduce_puzzle_terminates diag_values 730 [] Hk Ht).
Defined.

(** ** The iteration order of [peers[box]] *)

(** X20.  [peers[box]] is a Python set, whose iteration order is not
    fixed.  Whatever order [eliminate] meets for each box, the dict it
    leaves is the same: on a grid over the 81 boxes, looping over any
    rearrangement [po box] of the peers of each solved box gives the dict
    of [eliminate]. *)
Theorem eliminate_peer_order (values : dict) (po : string -> list string)
    (L : list dict) :
  keys values = boxes ->
  (forall b, In b boxes -> Permutation (po b) (peers b)) ->
  fold_left (fun v box =>
               fold_left (fun v' peer =>
                            dict_set v' peer
                              (Py.replace (dict_get v box) (dict_get v' peer)))
                         (po box) v)
            (boxes_of_len 1 values) values
  = fst (eliminate values L).
Proof.
  intros Hk Hpo. rewrite eliminate_fst. unfold eliminate_g, eliminate_in_g.
  assert (Hincl : incl (boxes_of_len 1 values) boxes)
    by (rewrite <- Hk; apply boxes_of_len_incl).
  revert Hincl. generalize (boxes_of_len 1 values) as l. intros l. revert values Hk.
  induction l as [|b l IH]; intros values Hk Hincl; [reflexivity|].
  cbn [fold_left].
  assert (Hb : In b boxes) by (apply Hincl; now left).
  rewrite (elim_box_peer_order values b (po b) Hk Hb (Hpo b Hb)).
  apply IH.
  - eapply le_dict_keys; [apply elim_box_le; eauto | exact Hk].
  - intros x Hx. apply Hincl. now right.
Qed.

Lemma eliminate_peer_order_witness :
  keys diag_values = boxes
  /\ (forall b, In b boxes -> Permutation (rev (peers b)) (peers b))
  /\ fold_left (fun v box =>
                  fold_left (fun v' peer =>
                               dict_set v' peer
                                 (Py.replace (dict_get v box) (dict_get v' peer)))
                            (rev (peers box)) v)
               (boxes_of_len 1 diag_values) diag_values
     = fst (eliminate diag_values []).
Proof.
  assert (Hk : keys diag_values = boxes) by (vm_compute; reflexivity).
  assert (Hp : forall b, In b boxes -> Permutation (rev (peers b)) (peers b))
    by (intros b _; apply Permutation_sym, Permutation_rev).
  split; [exact Hk|]. split; [exact Hp|].
  apply (eliminate_peer_order diag_values (fun b => rev (peers b)) [] Hk Hp).
Defined.

(** ** C7: the box [search] branches on *)

(** The loop over the candidates of the branching box only appends to
    [assignments]. *)
Lemma loop_appends (rec : dict -> M (outcome pyval)) (v : dict) (s : string) :
  (forall d, appends (rec d)) ->
  forall l L,
    exists events,
      snd ((fix loop (l : list string) : M (outcome pyval) :=
              match l with
              | [] => ret (Return PyNone)
              | value :: l' =>
                  let new_sudoku := dict_copy v in
                  new_sudoku <- assign_value new_sudoku s value ;;
                  attempt <- rec new_sudoku ;;
                  match attempt with
                  | Return a => if truthy a then ret (Return a) else loop l'
                  | _ => ret attempt
                  end
              end) l L) = L ++ events.
Proof.
  intros Hrec. induction l as [|value l IH]; intros L.
  - exists []. unfold ret. cbn [snd]. rewrite app_nil_r. reflexivity.
  - cbv zeta. unfold bind at 1.
    rewrite (appends_assign_value (dict_copy v) s value L).
    set (e1 := snd (assign_value (dict_copy v) s value [])).
    set (d1 := fst (assign_value (dict_copy v) s value [])).
    unfold bind at 1. rewrite (Hrec d1 (L ++ e1)).
    set (e2 := snd (rec d1 [])).
    destruct (fst (rec d1 [])) as [a| |].
    + destruct (truthy a).
      * exists (e1 ++ e2). unfold ret. cbn [snd]. rewrite app_assoc. reflexivity.
      * destruct (IH ((L ++ e1) ++ e2)) as [ev Hev].
        exists (e1 ++ e2 ++ ev). rewrite !app_assoc. exact Hev.
    + exists (e1 ++ e2). unfold ret. cbn [snd]. rewrite app_assoc. reflexivity.
    + exists (e1 ++ e2). unfold ret. cbn [snd]. rewrite app_assoc. reflexivity.
Qed.

(** C7.  Take a grid over the 81 boxes that [reduce_puzzle] turns into a
    dict [r] (no contradiction) in which some box is not solved.  Then the
    pair [n, s] that [search] takes with [min] names a box of [r] with more
    than one candidate, with the fewest candidates among such boxes, and
    among those of that size the one whose label is smallest, which is also
    the first of them in [boxes]; and [s] is the box [search] branches on:
    what [search] returns is what the loop over the candidates of [s]
    returns, each tried in turn by a recursive [search] on [r] with [s] set
    to it, and the first snapshot appended after those of [reduce_puzzle]
    is [r] with [s] set to its first candidate. *)
Theorem search_branch_box (values : dict) (fuel : nat) (L : list dict) (r : dict) :
  keys values = boxes ->
  fst (reduce_puzzle (S fuel) values L) = Return (PyDict r) ->
  (exists s, In s boxes /\ String.length (dict_get r s) <> 1) ->
  exists n s,
    branch_box r = Some (n, s)
    /\ In s boxes
    /\ n = String.length (dict_get r s)
    /\ 1 < n
    /\ (forall s', In s' boxes -> 1 < String.length (dict_get r s') ->
          n < String.length (dict_get r s')
          \/ (n = String.length (dict_get r s')
              /\ (s = s' \/ (String.ltb s s' = true
                             /\ index_of s boxes < index_of s' boxes))))
    /\ fst (search (S fuel) values L)
       = try_values (fun new_sudoku => fst (search fuel new_sudoku [])) r s
                    (Py.iter (dict_get r s))
    /\ exists value rest events,
         Py.iter (dict_get r s) = value :: rest
         /\ snd (search (S fuel) values L)
            = snd (reduce_puzzle (S fuel) values L)
              ++ dict_set r s value :: events.
Proof.
  intros Hk Hr (s0 & Hs0 & Ns0).
  pose proof Hr as Hg. rewrite reduce_puzzle_fst in Hg.
  pose proof (reduce_puzzle_g_le _ _ _ Hk Hg) as Hle.
  pose proof (le_dict_keys _ _ Hle Hk) as Kr.
  assert (Hne : forall s, In s boxes -> dict_get r s <> "").
  { intros s Hs E. apply (no_empty_box r s).
    - eapply reduce_puzzle_g_no_empty; eauto.
    - now rewrite Kr.
    - now rewrite E. }
  assert (Eall : forallb (fun s => Nat.eqb (String.length (dict_get r s)) 1) boxes = false).
  { destruct (forallb _ boxes) eqn:E; [|reflexivity].
    rewrite forallb_forall in E. specialize (E s0 Hs0).
    apply Nat.eqb_eq in E. contradiction. }
  destruct (branch_box_least r (unsolved_exists r Hne Eall))
    as (n & s & Eb & Hs & En & Hn & Hleast).
  exists n, s.
  split; [exact Eb|]. split; [exact Hs|]. split; [exact En|]. split; [exact Hn|].
  split; [exact Hleast|].
  assert (Et : truthy (PyDict r) = true).
  { cbn [truthy]. rewrite keys_length, Kr, boxes_length. reflexivity. }
  assert (Hiter : exists value rest,
             Py.iter (dict_get r s) = value :: rest /\ String.length value = 1).
  { rewrite En in Hn. destruct (dict_get r s) as [|c x]; cbn [String.length] in Hn; [lia|].
    exists (String c ""), (Py.iter x). split; reflexivity. }
  split.
  - rewrite search_fst. cbn [search_g]. rewrite Hg, Et, Eall, Eb. cbn [negb].
    generalize (Py.iter (dict_get r s)) as l.
    induction l as [|value l IHl]; [reflexivity|].
    cbn [try_values]. rewrite search_fst, IHl. reflexivity.
  - destruct Hiter as (value & rest & Ei & Hv).
    enough (Hsnd : exists events,
               snd (search (S fuel) values L)
               = snd (reduce_puzzle (S fuel) values L)
                 ++ dict_set r s value :: events).
    { destruct Hsnd as [ev Hev]. exists value, rest, ev. split; assumption. }
    cbn [search]. unfold bind at 1.
    destruct (reduce_puzzle (S fuel) values L) as [o L1]. cbn [fst snd] in *.
    rewrite Hr, Et, Eall, Eb, Ei. cbn [negb].
    cbv zeta. unfold bind at 1.
    assert (Ea : assign_value (dict_copy r) s value L1
                 = (dict_set r s value, L1 ++ [dict_set r s value])).
    { unfold assign_value, dict_copy. now rewrite Hv. }
    rewrite Ea. unfold bind at 1.
    rewrite (appends_search fuel (dict_set r s value) (L1 ++ [dict_set r s value])).
    set (e2 := snd (search fuel (dict_set r s value) [])).
    destruct (fst (search fuel (dict_set r s value) [])) as [a| |].
    + destruct (truthy a).
      * exists e2. unfold ret. cbn [snd]. rewrite <- app_assoc. reflexivity.
      * destruct (loop_appends (search fuel) r s (appends_search fuel) rest
                    ((L1 ++ [dict_set r s value]) ++ e2)) as [ev Hev].
        exists (e2 ++ ev). etransitivity; [exact Hev|].
        rewrite <- !app_assoc. reflexivity.
    + exists e2. unfold ret. cbn [snd]. rewrite <- app_assoc. reflexivity.
    + exists e2. unfold ret. cbn [snd]. rewrite <- app_assoc. reflexivity.
Qed.

Lemma search_branch_box_witness :
  keys (parsed stall_grid) = boxes
  /\ fst (reduce_puzzle 730 (parsed stall_grid) []) = Return (PyDict stall_once)
  /\ (exists s, In s boxes /\ String.length (dict_get stall_once s) <> 1)
  /\ exists n s,
       branch_box stall_once = Some (n, s)
       /\ In s boxes
       /\ n = String.length (dict_get stall_once s)
       /\ 1 < n
       /\ (forall s', In s' boxes -> 1 < String.length (dict_get stall_once s') ->
             n < String.length (dict_get stall_once s')
             \/ (n = String.length (dict_get stall_once s')
                 /\ (s = s' \/ (String.ltb s s' = true
                                /\ index_of s boxes < index_of s' boxes))))
       /\ fst (search 730 (parsed stall_grid) [])
          = try_values (fun new_sudoku => fst (search 729 new_sudoku [])) stall_once s
                       (Py.iter (dict_get stall_once s))
       /\ exists value rest events,
            Py.iter (dict_get stall_once s) = value :: rest
            /\ snd (search 730 (parsed stall_grid) [])
               = snd (reduce_puzzle 730 (parsed stall_grid) [])
                 ++ dict_set stall_once s value :: events.
Proof.
  assert (Hk : keys (parsed stall_grid) = boxes) by (vm_compute; reflexivity).
  assert (Hr : fst (reduce_puzzle 730 (parsed stall_grid) []) = Return (PyDict stall_once))
    by (vm_compute; reflexivity).
  assert (Hex : exists s, In s boxes /\ String.length (dict_get stall_once s) <> 1).
  { exists "F7". split; [vm_compute; tauto | vm_compute; discriminate]. }
  split; [exact Hk|]. split; [exact Hr|]. split; [exact Hex|].
  apply (search_branch_box (parsed stall_grid) 729 [] stall_once Hk Hr Hex).
Defined.
